(** * SurvEase: feed, leaderboard, fill-and-rate modal and navigation shell

    A shallow embedding of the client-side logic of the four views
    (src/pages/Feed.tsx, Leaderboard, FormFillModal, Navigation) and the
    properties of their aggregation, filtering, error handling and
    storage code.

    Conventions of the embedding:
    - a JavaScript [number] that is a count or a rank is a [Z]; a rating
      or an average is an exact rational [Q]; the outcome of a division
      is an [option Q], [None] standing for the non-finite results
      (NaN, Infinity) that a division by zero yields;
    - a text is a [string], a sequence of characters; what the engine
      does to texts and numbers by its own tables and number format
      (lower case, white space, rounding to a decimal) is not fixed
      here but taken from the engine, [Js.Runtime], and the properties
      hold for every engine;
    - a nullable field is an [option];
    - a backend call is the response the client receives for it:
      a [Response] with its [data] and [error] parts, or a rejected
      promise;
    - React state is a record, a handler is a function from state to
      state. *)

From Stdlib Require Import QArith Qround Qabs Lqa.
From stdpp Require Import gmap strings list sorting.
From Stdlib Require Import Ascii.

Local Open Scope Z_scope.
Local Open Scope string_scope.
Local Open Scope list_scope.

(** ** The JavaScript runtime pieces the views use *)
Module Js.

(** [a / b] on numbers; a zero divisor gives a non-finite result. *)
Definition div (a b : Q) : option Q :=
  if Qeq_bool b 0 then None else Some (a / b)%Q.

(** [a - b] on possibly non-finite numbers. *)
Definition sub (a b : option Q) : option Q :=
  match a, b with
  | Some x, Some y => Some (x - y)%Q
  | _, _ => None
  end.

(** What [Array.prototype.sort] makes of a comparator's result [v]:
    a NaN counts as 0, and [a] stays before [b] when [v <= 0]. *)
Definition keeps_order (v : option Q) : bool :=
  match v with
  | Some q => Qle_bool q 0
  | None => true
  end.

(** [Array.prototype.sort(cmp)]: a stable sort.  [before a b] tells
    whether [a], which precedes [b] in the input, stays before it.
    Items are placed from the last to the first, each before the first
    item it may precede; for a comparator that orders the items
    consistently this is the one result a stable sort can give. *)
Section Sort.
Context {A : Type} (before : A -> A -> bool).

Fixpoint insert (x : A) (l : list A) : list A :=
  match l with
  | [] => [x]
  | y :: l' => if before x y then x :: l else y :: insert x l'
  end.

Definition sort (l : list A) : list A := foldr insert [] l.
End Sort.

(** [l.slice(0, n)] *)
Definition slice0 {A : Type} (n : nat) (l : list A) : list A := take n l.

(** [l.map((item, index) => f item index)] *)
Fixpoint mapi_from {A B : Type} (f : A -> Z -> B) (i : Z) (l : list A) : list B :=
  match l with
  | [] => []
  | x :: l' => f x i :: mapi_from f (i + 1) l'
  end.

Definition mapi {A B : Type} (f : A -> Z -> B) (l : list A) : list B :=
  mapi_from f 0 l.

(** What the views call that the JavaScript engine itself provides.
    These are taken as the engine has them, with what the code relies
    on:
    - [s.toLowerCase()], whatever letters the engine knows; the empty
      text has no letter to change;
    - [Number(x.toFixed(1))] on a finite [x]: a multiple of one tenth
      and one nearest to [x]; when [x] lies halfway between two of
      them the engine decides on the double it holds for [x], which
      may lie just below or above the halfway point, so either
      neighbour may come out;
    - the characters that [trim] strips as white space. *)
Class Runtime := {
  toLowerCase : string -> string;
  toLowerCase_empty : toLowerCase "" = "";
  toFixed1 : Q -> Q;
  toFixed1_tenths : forall q : Q, exists n : Z, (toFixed1 q * 10 == inject_Z n)%Q;
  toFixed1_nearest : forall q : Q, (Qabs (toFixed1 q - q) <= 1 # 20)%Q;
  is_space : ascii -> bool
}.

Section Numbers.
Context {engine : Runtime}.

(** [Number(v.toFixed(1))] on a possibly non-finite [v], which stays
    as it is. *)
Definition toFixed1_number (v : option Q) : option Q :=
  match v with
  | Some q => Some (toFixed1 q)
  | None => None
  end.
End Numbers.

(** [t.startsWith(s)] *)
Fixpoint startsWith (t s : string) : bool :=
  match s, t with
  | EmptyString, _ => true
  | String _ _, EmptyString => false
  | String a s', String b t' => if ascii_dec a b then startsWith t' s' else false
  end.

(** [t.includes(s)] *)
Fixpoint includes (t s : string) : bool :=
  (startsWith t s ||
   match t with
   | EmptyString => false
   | String _ t' => includes t' s
   end)%bool.

(** [l.includes(x)] on an array of strings *)
Definition array_includes (l : list string) (x : string) : bool :=
  existsb (String.eqb x) l.

(** Truthiness of a string: the empty string is falsy. *)
Definition truthy (s : string) : bool :=
  match s with
  | EmptyString => false
  | String _ _ => true
  end.

(** Truthiness of a nullable string. *)
Definition truthy_opt (o : option string) : bool :=
  match o with
  | Some s => truthy s
  | None => false
  end.

Section Trim.
Context {engine : Runtime}.

(** [s.trimStart()] *)
Fixpoint trimStart (s : string) : string :=
  match s with
  | EmptyString => EmptyString
  | String c s' => if is_space c then trimStart s' else s
  end.

(** [s.trimEnd()]: a character is dropped when it is white space and
    nothing is left after it. *)
Fixpoint trimEnd (s : string) : string :=
  match s with
  | EmptyString => EmptyString
  | String c s' =>
      match trimEnd s' with
      | EmptyString => if is_space c then EmptyString else String c EmptyString
      | rest => String c rest
      end
  end.

(** [s.trim()] *)
Definition trim (s : string) : string := trimEnd (trimStart s).
End Trim.

(** [b.toString()] on a boolean *)
Definition bool_toString (b : bool) : string :=
  if b then "true" else "false".

(** An object used as a record of values under string keys.  The
    entries are kept in insertion order, the order in which
    [Object.keys] lists keys that are not array indices; the keys here
    are the user ids of backend rows, none of them an array index or a
    name found on [Object.prototype]. *)
Section Obj.
Context {V : Type}.

Fixpoint get (o : list (string * V)) (k : string) : option V :=
  match o with
  | [] => None
  | (k', v) :: o' => if String.eqb k k' then Some v else get o' k
  end.

(** [o[k] = v] *)
Fixpoint set (k : string) (v : V) (o : list (string * V)) : list (string * V) :=
  match o with
  | [] => [(k, v)]
  | (k', v') :: o' =>
      if String.eqb k k' then (k', v) :: o' else (k', v') :: set k v o'
  end.

(** [o[k]] changed in place by [f]; nothing is stored under a key
    that is absent. *)
Fixpoint update (k : string) (f : V -> V) (o : list (string * V)) : list (string * V) :=
  match o with
  | [] => []
  | (k', v) :: o' =>
      if String.eqb k k' then (k', f v) :: o' else (k', v) :: update k f o'
  end.

(** [Object.keys(o)] *)
Definition keys (o : list (string * V)) : list string := map fst o.
End Obj.

(** The value a [catch] clause receives. *)
Record Thrown := {
  instanceofError : bool;
  message : string
}.

(** The [{ data, error }] object a backend query resolves to. *)
Record Response (A : Type) := {
  data : option A;
  error : option Thrown
}.
Arguments data {A} _.
Arguments error {A} _.

(** The outcome of [await]ing a backend call. *)
Inductive Awaited (A : Type) :=
| Resolved (r : Response A)
| Rejected (e : Thrown).
Arguments Resolved {A} _.
Arguments Rejected {A} _.

(** A computation inside [try { ... }]. *)
Inductive Try (A : Type) :=
| Ok (a : A)
| Throw (e : Thrown).
Arguments Ok {A} _.
Arguments Throw {A} _.

Definition bind {A B : Type} (m : Try A) (k : A -> Try B) : Try B :=
  match m with
  | Ok a => k a
  | Throw e => Throw e
  end.

#[global] Instance Try_ret : MRet Try := @Ok.
#[global] Instance Try_bind : MBind Try := fun A B k m => bind m k.

(** [await call]: a rejected promise throws. *)
Definition await {A : Type} (c : Awaited A) : Try (Response A) :=
  match c with
  | Resolved r => Ok r
  | Rejected e => Throw e
  end.

(** [s.split(sep)] for a one-character separator: the stretches
    between separators, empty ones included; never an empty array. *)
Fixpoint split (sep : ascii) (s : string) : list string :=
  match s with
  | EmptyString => [EmptyString]
  | String c s' =>
      if Ascii.eqb c sep then EmptyString :: split sep s'
      else
        match split sep s' with
        | [] => [String c EmptyString]
        | w :: ws => String c w :: ws
        end
  end.

(** [s[0]]: [undefined] on the empty string. *)
Definition first_char (s : string) : option ascii :=
  match s with
  | EmptyString => None
  | String c _ => Some c
  end.

(** [l.join('')] on an array of characters or [undefined]s, which
    join as the empty text. *)
Fixpoint join_chars (l : list (option ascii)) : string :=
  match l with
  | [] => EmptyString
  | Some c :: l' => String c (join_chars l')
  | None :: l' => join_chars l'
  end.

End Js.


(** ** src/pages/Feed.tsx *)
Module Feed.

(** [form_fills: { rating: number }[]] *)
Record Fill := { rating : Q }.

Record Profile := { name : string }.

(** [interface Form]; [description] and [tags] are tested for null
    by the view, and a row as the forms query returns it has no
    [profiles] yet. *)
Record Form := {
  id : string;
  title : string;
  description : option string;
  google_form_url : string;
  tags : option (list string);
  created_at : string;
  expire_at : option string;
  user_id : string;
  profiles : option Profile;
  form_fills : list Fill
}.

Record State := {
  searchTerm : string;
  sortBy : string;
  filterTag : string;
  forms : list Form;
  loading : bool;
  error : option string
}.

Definition initial : State :=
  {| searchTerm := ""; sortBy := "newest"; filterTag := "all";
     forms := []; loading := true; error := None |}.

Definition setForms (fs : list Form) (st : State) : State :=
  {| searchTerm := searchTerm st; sortBy := sortBy st; filterTag := filterTag st;
     forms := fs; loading := loading st; error := error st |}.

Definition setLoading (b : bool) (st : State) : State :=
  {| searchTerm := searchTerm st; sortBy := sortBy st; filterTag := filterTag st;
     forms := forms st; loading := b; error := error st |}.

Definition setError (e : option string) (st : State) : State :=
  {| searchTerm := searchTerm st; sortBy := sortBy st; filterTag := filterTag st;
     forms := forms st; loading := loading st; error := e |}.

(** The two queries [fetchForms] sends. *)
Record Backend := {
  (* from('forms').select('*, form_fills (rating)').order('created_at', ...) *)
  select_forms : Js.Awaited (list Form);
  (* from('profiles').select('name').eq('id', user_id).maybeSingle() *)
  select_profile : string -> Js.Awaited Profile
}.

(** [{ ...form, profiles: p }] *)
Definition with_profiles (form : Form) (p : Profile) : Form :=
  {| id := id form; title := title form; description := description form;
     google_form_url := google_form_url form; tags := tags form;
     created_at := created_at form; expire_at := expire_at form;
     user_id := user_id form; profiles := Some p;
     form_fills := form_fills form |}.

Definition unknown_user : Profile := {| name := "Unknown User" |}.

(** The callback of [formsData.map]: its own try/catch turns a
    rejected lookup into the placeholder profile, and a resolved one
    is used when its data is non-null, whatever its error part. *)
Definition attach_profile (b : Backend) (form : Form) : Form :=
  match select_profile b (user_id form) with
  | Js.Resolved r => with_profiles form (default unknown_user (Js.data r))
  | Js.Rejected _ => with_profiles form unknown_user
  end.

(** The body of the [try] block, up to the call of [setForms]. *)
Definition load_forms (b : Backend) : Js.Try (list Form) :=
  r ← Js.await (select_forms b);
  match Js.error r with
  | Some formsError => Js.Throw formsError
  | None =>
      match Js.data r with
      | None | Some [] => Js.Ok []
      | Some formsData => Js.Ok (map (attach_profile b) formsData)
      end
  end.

(** [error instanceof Error ? error.message : 'Failed to load forms'] *)
Definition error_text (e : Js.Thrown) : string :=
  if Js.instanceofError e then Js.message e else "Failed to load forms".

Definition fetchForms (b : Backend) (st : State) : State :=
  let st1 := setError None (setLoading true st) in
  let st2 :=
    match load_forms b with
    | Js.Ok fs => setForms fs st1
    | Js.Throw e => setError (Some (error_text e)) st1
    end in
  setLoading false st2.

Section Shown.
Context {engine : Js.Runtime}.

Definition matchesSearch (term : string) (form : Form) : bool :=
  Js.includes (Js.toLowerCase (title form)) (Js.toLowerCase term)
  || match description form with
     | Some d =>
         Js.truthy d && Js.includes (Js.toLowerCase d) (Js.toLowerCase term)
     | None => false
     end.

Definition matchesTag (tag : string) (form : Form) : bool :=
  String.eqb tag "all"
  || match tags form with
     | Some ts => Js.array_includes ts tag
     | None => false
     end.

Definition filteredForms (st : State) : list Form :=
  List.filter
    (fun form => matchesSearch (searchTerm st) form && matchesTag (filterTag st) form)
    (forms st).

(** [reduce((sum, fill) => sum + fill.rating, 0)] *)
Definition sum_ratings (fills : list Fill) : Q :=
  fold_left (fun sum fill => (sum + rating fill)%Q) fills 0%Q.

Definition length_number {A : Type} (l : list A) : Q :=
  inject_Z (Z.of_nat (length l)).

(** [aRating] and [bRating] of the 'rating' comparator. *)
Definition sortRating (a : Form) : option Q :=
  if (0 <? length (form_fills a))%nat
  then Js.div (sum_ratings (form_fills a)) (length_number (form_fills a))
  else Some 0%Q.

(** [averageRating] of the card. *)
Definition averageRating (form : Form) : option Q :=
  if (0 <? length (form_fills form))%nat
  then Js.div (sum_ratings (form_fills form)) (length_number (form_fills form))
  else Some 0%Q.

Section View.
(** [new Date(s).getTime()]; [None] is the NaN of an invalid date. *)
Variable getTime : string -> option Z.

Definition time (s : string) : option Q := inject_Z <$> getTime s.

Definition time_opt (o : option string) : option Q :=
  match o with
  | Some s => time s
  | None => Some 0%Q (* new Date(null) is the epoch *)
  end.

(** The comparator given to [sort]. *)
Definition compareForms (by_ : string) (a b : Form) : option Q :=
  if String.eqb by_ "oldest" then
    Js.sub (time (created_at a)) (time (created_at b))
  else if String.eqb by_ "rating" then
    Js.sub (sortRating b) (sortRating a)
  else if String.eqb by_ "expiring" then
    if negb (Js.truthy_opt (expire_at a)) && negb (Js.truthy_opt (expire_at b))
    then Some 0%Q
    else if negb (Js.truthy_opt (expire_at a)) then Some 1%Q
    else if negb (Js.truthy_opt (expire_at b)) then Some (-1)%Q
    else Js.sub (time_opt (expire_at a)) (time_opt (expire_at b))
  else
    Js.sub (time (created_at b)) (time (created_at a)).

Definition sortedForms (st : State) : list Form :=
  Js.sort (fun a b => Js.keeps_order (compareForms (sortBy st) a b))
          (filteredForms st).

Inductive Handler := RunFetchForms | GoToPostForm.

Record Button := { label : string; onClick : Handler }.

Record FormCard := {
  card_id : string;
  card_title : string;
  card_description : string;
  card_tags : list string;
  createdAt : string;
  expireAt : option string;
  googleFormUrl : string;
  fillCount : Z;
  card_averageRating : option Q;
  onFormFilled : Handler
}.

Definition card (form : Form) : FormCard :=
  {| card_id := id form;
     card_title := title form;
     card_description :=
       match description form with
       | Some d => if Js.truthy d then d else ""
       | None => ""
       end;
     card_tags := default [] (tags form);
     createdAt := created_at form;
     expireAt := expire_at form;
     googleFormUrl := google_form_url form;
     fillCount := Z.of_nat (length (form_fills form));
     card_averageRating := averageRating form;
     onFormFilled := RunFetchForms |}.

Inductive View :=
| LoadingView
| ErrorView (text : string) (retry : Button)
| FeedView (refresh : Button) (cards : list FormCard) (nothing_found : bool).

Definition feedView (st : State) : View :=
  FeedView {| label := "Refresh"; onClick := RunFetchForms |}
           (map card (sortedForms st))
           (Nat.eqb (length (sortedForms st)) 0 && negb (loading st)).

(** What the component returns for a state: [if (loading)], then
    [if (error)], a test that an empty text fails. *)
Definition render (st : State) : View :=
  if loading st then LoadingView
  else
    match error st with
    | Some text =>
        if Js.truthy text
        then ErrorView text {| label := "Try Again"; onClick := RunFetchForms |}
        else feedView st
    | None => feedView st
    end.
End View.
End Shown.

End Feed.

(** ** The leaderboard view *)
Module Leaderboard.

Record TopFiller := {
  rank : Z;
  name : string;
  formsFilled : Z;
  points : Z;
  badges : Z
}.

Record TopPoster := {
  poster_rank : Z;
  poster_name : string;
  formsPosted : Z;
  totalResponses : Z;
  avgRating : option Q
}.

(** The values of [fillerStats] and of [posterStats]. *)
Record FillerStat := {
  stat_formsFilled : Z;
  stat_points : Z;
  stat_badges : Z
}.

Record PosterStat := {
  stat_formsPosted : Z;
  stat_totalResponses : Z;
  stat_avgRating : Q
}.

Record Profile := { profile_name : string }.

(** The queries [fetchLeaderboardData] sends; a row with one selected
    column is that column's value. *)
Record Backend := {
  (* from('form_fills').select('user_id') *)
  select_fill_user_ids : Js.Awaited (list string);
  (* from('profiles').select('name').eq('id', userId).maybeSingle() *)
  select_profile : string -> Js.Awaited Profile;
  (* from('forms').select('user_id') *)
  select_form_user_ids : Js.Awaited (list string);
  (* from('forms').select('id').eq('user_id', userId) *)
  select_form_ids : string -> Js.Awaited (list string);
  (* from('form_fills').select('rating').in('form_id', formIds) *)
  select_ratings : list string -> Js.Awaited (list (option Q))
}.

(** Reading a property of [undefined]. *)
Definition typeError : Js.Thrown :=
  {| Js.instanceofError := true;
     Js.message := "Cannot read properties of undefined" |}.

(** The callback of [fillersData?.forEach]. *)
Definition count_fill (fillerStats : list (string * FillerStat)) (userId : string)
  : list (string * FillerStat) :=
  let created :=
    match Js.get fillerStats userId with
    | None =>
        Js.set userId
          {| stat_formsFilled := 0; stat_points := 0; stat_badges := 0 |}
          fillerStats
    | Some _ => fillerStats
    end in
  let counted :=
    Js.update userId
      (fun s => {| stat_formsFilled := stat_formsFilled s + 1;
                   stat_points := stat_points s;
                   stat_badges := stat_badges s |})
      created in
  Js.update userId
    (fun s => {| stat_formsFilled := stat_formsFilled s;
                 stat_points := stat_points s + 5;
                 stat_badges := stat_badges s |})
    counted.

Definition fillerStats (fillersData : option (list string)) : list (string * FillerStat) :=
  match fillersData with
  | Some rows => fold_left count_fill rows []
  | None => []
  end.

(** The loop [for (const userId of fillerUserIds)]: the entries
    pushed, in order, unless a lookup throws. *)
Fixpoint fillersWithNames (b : Backend) (stats : list (string * FillerStat))
         (fillerUserIds : list string) : Js.Try (list TopFiller) :=
  match fillerUserIds with
  | [] => Js.Ok []
  | userId :: rest =>
      r ← Js.await (select_profile b userId);
      pushed ←
        match Js.data r with
        | Some profile =>
            match Js.get stats userId with
            | Some s =>
                Js.Ok [ {| rank := 0;
                           name := profile_name profile;
                           formsFilled := stat_formsFilled s;
                           points := stat_points s;
                           badges := 0 |} ]
            | None => Js.Throw typeError
            end
        | None => Js.Ok []
        end;
      more ← fillersWithNames b stats rest;
      Js.Ok (pushed ++ more)
  end.

Definition compareFillers (a b : TopFiller) : option Q :=
  Some (inject_Z (formsFilled b - formsFilled a)).

Definition with_rank (item : TopFiller) (index : Z) : TopFiller :=
  {| rank := index + 1; name := name item; formsFilled := formsFilled item;
     points := points item; badges := badges item |}.

Definition sortedFillers (l : list TopFiller) : list TopFiller :=
  Js.mapi with_rank
    (Js.slice0 8 (Js.sort (fun a b => Js.keeps_order (compareFillers a b)) l)).

(** The first half of the [try] block, up to [setTopFillers]. *)
Definition load_fillers (b : Backend) : Js.Try (list TopFiller) :=
  r ← Js.await (select_fill_user_ids b);
  match Js.error r with
  | Some fillersError => Js.Throw fillersError
  | None =>
      let stats := fillerStats (Js.data r) in
      l ← fillersWithNames b stats (Js.keys stats);
      Js.Ok (sortedFillers l)
  end.

(** The callback of [postersData?.forEach]. *)
Definition count_form (posterStats : list (string * PosterStat)) (userId : string)
  : list (string * PosterStat) :=
  let created :=
    match Js.get posterStats userId with
    | None =>
        Js.set userId
          {| stat_formsPosted := 0; stat_totalResponses := 0; stat_avgRating := 0 |}
          posterStats
    | Some _ => posterStats
    end in
  Js.update userId
    (fun s => {| stat_formsPosted := stat_formsPosted s + 1;
                 stat_totalResponses := stat_totalResponses s;
                 stat_avgRating := stat_avgRating s |})
    created.

Definition posterStats (postersData : option (list string)) : list (string * PosterStat) :=
  match postersData with
  | Some rows => fold_left count_form rows []
  | None => []
  end.

(** [r.rating !== null] *)
Definition has_rating (r : option Q) : bool :=
  match r with
  | Some _ => true
  | None => false
  end.

(** [r.rating || 0] *)
Definition rating_or_0 (r : option Q) : Q :=
  match r with
  | Some q => if Qeq_bool q 0 then 0%Q else q
  | None => 0%Q
  end.

Definition ratingsWithValues (responses : option (list (option Q))) : list (option Q) :=
  match responses with
  | Some rs => List.filter has_rating rs
  | None => []
  end.

(** [totalResponses] and [avgRating] as computed from the rows of the
    ratings query. *)
Definition response_stats (responses : option (list (option Q))) : Z * option Q :=
  let total :=
    match responses with
    | Some rs => Z.of_nat (length rs)
    | None => 0
    end in
  let rated := ratingsWithValues responses in
  let avg :=
    if (0 <? length rated)%nat
    then Js.div (fold_left (fun sum r => (sum + rating_or_0 r)%Q) rated 0%Q)
                (inject_Z (Z.of_nat (length rated)))
    else Some 0%Q in
  (total, avg).

(** [totalResponses] and [avgRating] of one poster. *)
Definition poster_responses (b : Backend) (userId : string) : Js.Try (Z * option Q) :=
  f ← Js.await (select_form_ids b userId);
  match Js.data f with
  | Some ((_ :: _) as formIds) =>
      resp ← Js.await (select_ratings b formIds);
      Js.Ok (response_stats (Js.data resp))
  | _ => Js.Ok (0, Some 0%Q)
  end.

Section Posters.
Context {engine : Js.Runtime}.

(** The loop [for (const userId of posterUserIds)]. *)
Fixpoint postersWithNames (b : Backend) (stats : list (string * PosterStat))
         (posterUserIds : list string) : Js.Try (list TopPoster) :=
  match posterUserIds with
  | [] => Js.Ok []
  | userId :: rest =>
      r ← Js.await (select_profile b userId);
      pushed ←
        match Js.data r with
        | Some profile =>
            ta ← poster_responses b userId;
            match Js.get stats userId with
            | Some s =>
                Js.Ok [ {| poster_rank := 0;
                           poster_name := profile_name profile;
                           formsPosted := stat_formsPosted s;
                           totalResponses := fst ta;
                           avgRating := Js.toFixed1_number (snd ta) |} ]
            | None => Js.Throw typeError
            end
        | None => Js.Ok []
        end;
      more ← postersWithNames b stats rest;
      Js.Ok (pushed ++ more)
  end.

Definition comparePosters (a b : TopPoster) : option Q :=
  Some (inject_Z (formsPosted b - formsPosted a)).

Definition with_poster_rank (item : TopPoster) (index : Z) : TopPoster :=
  {| poster_rank := index + 1; poster_name := poster_name item;
     formsPosted := formsPosted item; totalResponses := totalResponses item;
     avgRating := avgRating item |}.

Definition sortedPosters (l : list TopPoster) : list TopPoster :=
  Js.mapi with_poster_rank
    (Js.slice0 8 (Js.sort (fun a b => Js.keeps_order (comparePosters a b)) l)).

(** The second half of the [try] block, up to [setTopPosters]. *)
Definition load_posters (b : Backend) : Js.Try (list TopPoster) :=
  r ← Js.await (select_form_user_ids b);
  match Js.error r with
  | Some postersError => Js.Throw postersError
  | None =>
      let stats := posterStats (Js.data r) in
      l ← postersWithNames b stats (Js.keys stats);
      Js.Ok (sortedPosters l)
  end.
End Posters.

(** What the rating cell of a poster's row holds:
    [user.avgRating > 0 ? user.avgRating : 'N/A']. *)
Inductive Cell :=
| NumberCell (q : Q)
| TextCell (text : string).

Definition ratingCell (user : TopPoster) : Cell :=
  match avgRating user with
  | Some q => if negb (Qle_bool q 0) then NumberCell q else TextCell "N/A"
  | None => TextCell "N/A"
  end.

Record State := {
  topFillers : list TopFiller;
  topPosters : list TopPoster;
  loading : bool;
  toasts : list string
}.

Definition initial : State :=
  {| topFillers := []; topPosters := []; loading := true; toasts := [] |}.

Section Fetch.
Context {engine : Js.Runtime}.

(** The whole handler: the boards set so far stay when a later step
    throws; [setLoading(true)] at its start is undone by the [finally]
    block on every path. *)
Definition fetchLeaderboardData (b : Backend) (st : State) : State :=
  let failed (fs : list TopFiller) :=
    {| topFillers := fs; topPosters := topPosters st; loading := false;
       toasts := toasts st ++ ["Failed to load leaderboard data"] |} in
  match load_fillers b with
  | Js.Throw _ => failed (topFillers st)
  | Js.Ok fs =>
      match load_posters b with
      | Js.Throw _ => failed fs
      | Js.Ok ps =>
          {| topFillers := fs; topPosters := ps; loading := false;
             toasts := toasts st |}
      end
  end.
End Fetch.

End Leaderboard.

(** ** The fill-and-rate modal *)
Module FormFillModal.

Record User := { user_id : string }.

(** The object given to [insert]. *)
Record FillRow := {
  row_form_id : string;
  row_user_id : string;
  row_rating : Z;
  row_comment : option string
}.

Record State := {
  rating : Z;
  comment : string;
  hoveredRating : Z;
  isSubmitting : bool
}.

Definition initial : State :=
  {| rating := 0; comment := ""; hoveredRating := 0; isSubmitting := false |}.

Definition setRating (v : Z) (st : State) : State :=
  {| rating := v; comment := comment st; hoveredRating := hoveredRating st;
     isSubmitting := isSubmitting st |}.

Definition setComment (c : string) (st : State) : State :=
  {| rating := rating st; comment := c; hoveredRating := hoveredRating st;
     isSubmitting := isSubmitting st |}.

Definition setHoveredRating (v : Z) (st : State) : State :=
  {| rating := rating st; comment := comment st; hoveredRating := v;
     isSubmitting := isSubmitting st |}.

Definition setIsSubmitting (b : bool) (st : State) : State :=
  {| rating := rating st; comment := comment st; hoveredRating := hoveredRating st;
     isSubmitting := b |}.

(** What a handler does besides changing the state, in order. *)
Inductive Effect :=
| ToastError (text : string)
| ToastSuccess (text : string)
| Insert (row : FillRow)
| OnFormFilled
| OnClose.

Definition handleRatingClick (value : Z) (st : State) : State :=
  setRating value st.

Section Modal.
Context {engine : Js.Runtime}.

(** [comment.trim() || null] *)
Definition comment_or_null (c : string) : option string :=
  if Js.truthy (Js.trim c) then Some (Js.trim c) else None.

Variable user : option User.
Variable formId : string.
(** from('form_fills').insert(row).select() *)
Variable insert : FillRow -> Js.Awaited (list FillRow).

Definition handleSubmit (st : State) : State * list Effect :=
  match user with
  | None => (st, [ToastError "Please log in to fill forms"])
  | Some u =>
      if Z.eqb (rating st) 0 then (st, [ToastError "Please provide a rating"])
      else
        let row :=
          {| row_form_id := formId; row_user_id := user_id u;
             row_rating := rating st;
             row_comment := comment_or_null (comment st) |} in
        let saved : Js.Try unit :=
          r ← Js.await (insert row);
          match Js.error r with
          | Some e => Js.Throw e
          | None => Js.Ok tt
          end in
        match saved with
        | Js.Ok _ =>
            (setIsSubmitting false
               (setComment "" (setRating 0 (setIsSubmitting true st))),
             [Insert row; ToastSuccess "Thank you for your feedback!";
              OnFormFilled; OnClose])
        | Js.Throw e =>
            (setIsSubmitting false (setIsSubmitting true st),
             [Insert row;
              ToastError ("Failed to submit feedback: " ++ Js.message e)])
        end
  end.

Definition handleClose (st : State) : State * list Effect :=
  (setComment "" (setRating 0 st), [OnClose]).

(** The values of the star buttons, [[1, 2, 3, 4, 5].map(...)]. *)
Definition stars : list Z := [1; 2; 3; 4; 5].

(** What the user can do in the dialog; a star is named by its
    position in the row of buttons. *)
Inductive Event :=
| ClickStar (i : nat)
| EnterStar (i : nat)
| LeaveStar
| ChangeComment (text : string)
| Submit
| Close.

Definition handle (ev : Event) (st : State) : State * list Effect :=
  match ev with
  | ClickStar i =>
      match stars !! i with
      | Some value => (handleRatingClick value st, [])
      | None => (st, [])
      end
  | EnterStar i =>
      match stars !! i with
      | Some value => (setHoveredRating value st, [])
      | None => (st, [])
      end
  | LeaveStar => (setHoveredRating 0 st, [])
  | ChangeComment text => (setComment text st, [])
  | Submit => handleSubmit st
  | Close => handleClose st
  end.

(** The state after a run of events, and everything done on the way. *)
Fixpoint run (evs : list Event) (st : State) : State * list Effect :=
  match evs with
  | [] => (st, [])
  | ev :: evs' =>
      let '(st1, done1) := handle ev st in
      let '(st2, done2) := run evs' st1 in
      (st2, done1 ++ done2)
  end.
End Modal.

End FormFillModal.

(** ** The navigation shell: the dark-mode switch *)
Module Navigation.

(** The parts of the browser the component touches. *)
Record Browser := {
  localStorage : gmap string string;
  (* document.documentElement.classList *)
  classList : gset string
}.

Record State := { isDarkMode : bool }.

Definition initial : State := {| isDarkMode := false |}.

(** The effect run once on mount. *)
Definition initialize (w : State * Browser) : State * Browser :=
  let '(_, br) := w in
  let savedDarkMode := bool_decide (localStorage br !! "darkMode" = Some "true") in
  ({| isDarkMode := savedDarkMode |},
   if savedDarkMode
   then {| localStorage := localStorage br; classList := classList br ∪ {["dark"]} |}
   else br).

Definition toggleDarkMode (w : State * Browser) : State * Browser :=
  let '(st, br) := w in
  let newDarkMode := negb (isDarkMode st) in
  ({| isDarkMode := newDarkMode |},
   {| localStorage := <["darkMode" := Js.bool_toString newDarkMode]> (localStorage br);
      classList :=
        if newDarkMode then classList br ∪ {["dark"]} else classList br ∖ {["dark"]} |}).

(** What a page load starts from: the storage is as it was left, the
    document is a new one, whose root element carries no class. *)
Definition fresh_document (br : Browser) : Browser :=
  {| localStorage := localStorage br; classList := ∅ |}.

(** A page load: a fresh component mounted in a fresh document. *)
Definition reload (w : State * Browser) : State * Browser :=
  initialize (initial, fresh_document (snd w)).

End Navigation.

(** ** The rows of the leaderboard *)
Module LeaderboardView.

(** What [getRankIcon] returns: one of three icons, or the rank
    written after a hash sign. *)
Inductive Icon :=
| Trophy
| Medal
| Award
| RankSpan (rank : Z).

Definition getRankIcon (rank : Z) : Icon :=
  if Z.eqb rank 1 then Trophy
  else if Z.eqb rank 2 then Medal
  else if Z.eqb rank 3 then Award
  else RankSpan rank.

Definition getRankBadgeColor (rank : Z) : string :=
  if Z.eqb rank 1 then "bg-gradient-to-r from-yellow-400 to-yellow-600"
  else if Z.eqb rank 2 then "bg-gradient-to-r from-gray-300 to-gray-500"
  else if Z.eqb rank 3 then "bg-gradient-to-r from-amber-400 to-amber-600"
  else "bg-gradient-to-r from-blue-400 to-blue-600".

(** The content of the round badge of a row:
    [user.rank <= 3 ? getRankIcon(user.rank) : `#${user.rank}`]. *)
Inductive Badge :=
| IconBadge (icon : Icon)
| HashText (rank : Z).

Definition rankBadge (rank : Z) : Badge :=
  if Z.leb rank 3 then IconBadge (getRankIcon rank) else HashText rank.

(** Whether the row is tinted: [user.rank <= 3]. *)
Definition rowTinted (rank : Z) : bool := Z.leb rank 3.

(** The avatar text: [user.name.split(' ').map(n => n[0]).join('')]. *)
Definition initials (name : string) : string :=
  Js.join_chars (map Js.first_char (Js.split " " name)).

(** The achievements card: absent when both boards are empty;
    otherwise the name of the first filler and of the first poster,
    each only for a non-empty board. *)
Definition showcase (st : Leaderboard.State) : option (option string * option string) :=
  if ((0 <? length (Leaderboard.topFillers st))%nat
      || (0 <? length (Leaderboard.topPosters st))%nat)%bool
  then Some (if (0 <? length (Leaderboard.topFillers st))%nat
             then Leaderboard.name <$> head (Leaderboard.topFillers st)
             else None,
             if (0 <? length (Leaderboard.topPosters st))%nat
             then Leaderboard.poster_name <$> head (Leaderboard.topPosters st)
             else None)
  else None.

End LeaderboardView.

(** ** The rest of the fill-and-rate modal *)
Module FormFillModalView.

(** The address [openForm] opens: the form's own when it names a
    protocol, with 'https://' put before it otherwise. *)
Definition urlToOpen (formUrl : string) : string :=
  if negb (Js.startsWith formUrl "http://") && negb (Js.startsWith formUrl "https://")
  then "https://" +:+ formUrl
  else formUrl.

(** What [window.open] did. *)
Inductive Opening :=
| NewWindow
| NoWindow
| OpenThrew.

Inductive Effect :=
| ToastError (text : string)
| ToastSuccess (text : string)
| WindowOpen (url target features : string)
| LinkClick (href target rel : string).

Section OpenForm.
Variable window_open : string -> Opening.
(** Whether creating and clicking the fallback link went through. *)
Variable link_click : string -> bool.

Definition openForm (formUrl : string) : list Effect :=
  if negb (Js.truthy formUrl) then [ToastError "Form URL is not available"]
  else
    let url := urlToOpen formUrl in
    let opening := WindowOpen url "_blank" "noopener,noreferrer" in
    let failed := ToastError "Failed to open form. Please check the URL." in
    let opened := ToastSuccess "Form opened in new tab" in
    match window_open url with
    | NewWindow => [opening; opened]
    | NoWindow =>
        if link_click url
        then [opening; LinkClick url "_blank" "noopener noreferrer"; opened]
        else [opening; LinkClick url "_blank" "noopener noreferrer"; failed]
    | OpenThrew => [opening; failed]
    end.
End OpenForm.

(** [hoveredRating || rating] *)
Definition shownRating (st : FormFillModal.State) : Z :=
  if Z.eqb (FormFillModal.hoveredRating st) 0
  then FormFillModal.rating st
  else FormFillModal.hoveredRating st.

(** Whether the star of a value is filled:
    [value <= (hoveredRating || rating)]. *)
Definition starFilled (st : FormFillModal.State) (value : Z) : bool :=
  Z.leb value (shownRating st).

(** [disabled] of the submit button: [rating === 0 || isSubmitting]. *)
Definition submitDisabled (st : FormFillModal.State) : bool :=
  Z.eqb (FormFillModal.rating st) 0 || FormFillModal.isSubmitting st.

End FormFillModalView.

(** ** The links of the navigation shell *)
Module NavigationView.

Definition isActive (pathname path : string) : bool := String.eqb pathname path.

Inductive Variant := default_variant | ghost.

(** The page links of a logged-in user, in order. *)
Definition pages : list (string * string) :=
  [("/dashboard", "Dashboard"); ("/feed", "Feed"); ("/leaderboard", "Leaderboard");
   ("/post-form", "Post Form"); ("/profile", "Profile")].

Inductive Item :=
| PageLink (to label : string) (variant : Variant)
| LogoutButton
| LoginLink
| SignUpLink.

(** The right-hand side of the bar, after the dark-mode switch. *)
Definition items (logged_in : bool) (pathname : string) : list Item :=
  if logged_in
  then map (fun p => PageLink (fst p) (snd p)
                       (if isActive pathname (fst p) then default_variant else ghost))
           pages
       ++ [LogoutButton]
  else [LoginLink; SignUpLink].

Inductive Effect :=
| ToastError (text : string)
| ToastSuccess (text : string)
| Navigate (to : string) (replace : bool).

(** [handleLogout], given whether [logout()] went through. *)
Definition handleLogout (logout_ok : bool) : list Effect :=
  if logout_ok
  then [ToastSuccess "Logged out successfully"; Navigate "/" true]
  else [ToastError "Failed to logout"].

End NavigationView.

(** * Notions the properties are stated with *)
Section Notions.
Context {engine : Js.Runtime}.

(** The ranks 1, 2, ..., n as the indexed map numbers them. *)
Definition ranks (n : nat) : list Z := map (fun k => Z.of_nat k + 1) (seq 0 n).

(** How many of the fetched fill rows carry the user id [k]. *)
Definition occurrences (k : string) (rows : list string) : Z :=
  Z.of_nat (length (List.filter (String.eqb k) rows)).

(** The statistics of a user with [n] fills: none without a fill. *)
Definition stat_of (n : Z) : option Leaderboard.FillerStat :=
  if Z.eqb n 0 then None
  else Some {| Leaderboard.stat_formsFilled := n;
               Leaderboard.stat_points := 5 * n;
               Leaderboard.stat_badges := 0 |}.

(** The sum of a list of numbers. *)
Definition total (l : list Q) : Q := foldr Qplus 0%Q l.

(** The arithmetic mean: the sum divided by the number of items. *)
Definition mean (l : list Q) : Q :=
  (total l / inject_Z (Z.of_nat (length l)))%Q.

(** The mean, read as 0 where there is nothing to average. *)
Definition mean_or_0 (l : list Q) : Q :=
  match l with
  | [] => 0%Q
  | _ :: _ => mean l
  end.

(** The ratings of a form's fills. *)
Definition ratings (form : Feed.Form) : list Q :=
  map Feed.rating (Feed.form_fills form).

(** The ratings that are not null. *)
Definition present (rs : list (option Q)) : list Q := omap id rs.

(** The rating column of all fills of all forms of a user, as the two
    queries for that user deliver it. *)
Definition fetched_ratings (b : Leaderboard.Backend) (userId : string)
  : list (option Q) :=
  match Leaderboard.select_form_ids b userId with
  | Js.Resolved f =>
      match Js.data f with
      | Some ((_ :: _) as formIds) =>
          match Leaderboard.select_ratings b formIds with
          | Js.Resolved resp => default [] (Js.data resp)
          | Js.Rejected _ => []
          end
      | _ => []
      end
  | Js.Rejected _ => []
  end.

(** The forms query fails with [e]: the promise is rejected, or the
    response carries the error. *)
Definition forms_query_fails (b : Feed.Backend) (e : Js.Thrown) : Prop :=
  Feed.select_forms b = Js.Rejected e
  \/ exists r, Feed.select_forms b = Js.Resolved r /\ Js.error r = Some e.

(** The profile a lookup delivers, if any. *)
Definition lookup_data (b : Feed.Backend) (row : Feed.Form) : option Feed.Profile :=
  match Feed.select_profile b (Feed.user_id row) with
  | Js.Resolved r => Js.data r
  | Js.Rejected _ => None
  end.

(** The profile lookup for a row fails. *)
Definition lookup_fails (b : Feed.Backend) (row : Feed.Form) : Prop :=
  match Feed.select_profile b (Feed.user_id row) with
  | Js.Resolved r => Js.error r <> None
  | Js.Rejected _ => True
  end.

Definition try_again : Feed.Button :=
  {| Feed.label := "Try Again"; Feed.onClick := Feed.RunFetchForms |}.

(** [t] contains [s] case-insensitively: with the letters of both in
    lower case, [s] is a stretch of [t]. *)
Definition contains_ignoring_case (t s : string) : Prop :=
  exists pre post,
    Js.toLowerCase t = pre +:+ Js.toLowerCase s +:+ post.

(** The search predicate in the spec's words. *)
Definition shown (st : Feed.State) (form : Feed.Form) : Prop :=
  (contains_ignoring_case (Feed.title form) (Feed.searchTerm st)
   \/ exists d, Feed.description form = Some d
                /\ contains_ignoring_case d (Feed.searchTerm st))
  /\ (Feed.filterTag st = "all"
      \/ exists ts, Feed.tags form = Some ts /\ Feed.filterTag st ∈ ts).

(** A rating the stars can give, or none yet. *)
Definition rating_ok (st : FormFillModal.State) : Prop :=
  FormFillModal.rating st = 0 \/ 1 <= FormFillModal.rating st <= 5.

(** The form was created no later than the other, both creation
    dates being valid. *)
Definition created_no_later (getTime : string -> option Z) (a b : Feed.Form) : Prop :=
  exists ta tb,
    getTime (Feed.created_at a) = Some ta
    /\ getTime (Feed.created_at b) = Some tb
    /\ ta <= tb.

(** The form has a valid creation date. *)
Definition dated (getTime : string -> option Z) (form : Feed.Form) : Prop :=
  is_Some (getTime (Feed.created_at form)).

(** The form has an expiry date: neither null nor empty. *)
Definition has_expiry (form : Feed.Form) : bool :=
  Js.truthy_opt (Feed.expire_at form).

(** The time of the form's expiry date. *)
Definition expiry_time (getTime : string -> option Z) (form : Feed.Form) : option Z :=
  Feed.expire_at form ≫= getTime.

(** The expiry date of the form, if it has one, is valid. *)
Definition expiry_dated (getTime : string -> option Z) (form : Feed.Form) : Prop :=
  has_expiry form = true -> is_Some (expiry_time getTime form).

(** In the order of 'Expiring Soon': a form that does not expire
    follows every form, and two forms that expire follow their dates. *)
Definition expires_no_later (getTime : string -> option Z) (a b : Feed.Form) : Prop :=
  has_expiry b = false
  \/ (has_expiry a = true /\ has_expiry b = true
      /\ exists ta tb,
           expiry_time getTime a = Some ta
           /\ expiry_time getTime b = Some tb
           /\ ta <= tb).

(** The statistics of a user with [n] posted forms: none without a
    form. *)
Definition poster_stat_of (n : Z) : option Leaderboard.PosterStat :=
  if Z.eqb n 0 then None
  else Some {| Leaderboard.stat_formsPosted := n;
               Leaderboard.stat_totalResponses := 0;
               Leaderboard.stat_avgRating := 0 |}.

(** A quantity [g] of the values of an object, added up over its keys. *)
Definition osum {V : Type} (g : V -> Z) (o : list (string * V)) : Z :=
  foldr (fun kv acc => g (snd kv) + acc) 0 o.

(** The fills and the points counted over all users of the statistics. *)
Definition filled_total (stats : list (string * Leaderboard.FillerStat)) : Z :=
  osum Leaderboard.stat_formsFilled stats.

Definition points_total (stats : list (string * Leaderboard.FillerStat)) : Z :=
  osum Leaderboard.stat_points stats.

(** The fills credited on a board. *)
Definition board_fills (l : list Leaderboard.TopFiller) : Z :=
  foldr (fun e acc => Leaderboard.formsFilled e + acc) 0 l.

(** The entry the fillers' loop pushes for a profile and statistics. *)
Definition filler_entry (profile : Leaderboard.Profile) (s : Leaderboard.FillerStat)
  : Leaderboard.TopFiller :=
  {| Leaderboard.rank := 0;
     Leaderboard.name := Leaderboard.profile_name profile;
     Leaderboard.formsFilled := Leaderboard.stat_formsFilled s;
     Leaderboard.points := Leaderboard.stat_points s;
     Leaderboard.badges := 0 |}.

(** The message every failure of the leaderboard's load ends in. *)
Definition load_failed : string := "Failed to load leaderboard data".

(** The fills query fails: rejected, or answered with an error. *)
Definition fills_query_fails (b : Leaderboard.Backend) : Prop :=
  match Leaderboard.select_fill_user_ids b with
  | Js.Resolved r => Js.error r <> None
  | Js.Rejected _ => True
  end.

(** The query for the posters' forms fails. *)
Definition posters_query_fails (b : Leaderboard.Backend) : Prop :=
  match Leaderboard.select_form_user_ids b with
  | Js.Resolved r => Js.error r <> None
  | Js.Rejected _ => True
  end.

(** The address names a protocol. *)
Definition has_protocol (url : string) : Prop :=
  Js.startsWith url "http://" = true \/ Js.startsWith url "https://" = true.

(** The addresses handed to the browser, by [window.open] or by the
    fall-back link. *)
Definition opened_urls (effs : list FormFillModalView.Effect) : list string :=
  omap (fun eff =>
          match eff with
          | FormFillModalView.WindowOpen url _ _ => Some url
          | FormFillModalView.LinkClick href _ _ => Some href
          | _ => None
          end) effs.

(** The notifications among the effects. *)
Definition is_toast (eff : FormFillModalView.Effect) : bool :=
  match eff with
  | FormFillModalView.ToastError _ | FormFillModalView.ToastSuccess _ => true
  | _ => false
  end.

(** How the insert of a row ends: [None] when it is saved, the error
    otherwise. *)
Definition insert_outcome
           (insert : FormFillModal.FillRow -> Js.Awaited (list FormFillModal.FillRow))
           (row : FormFillModal.FillRow) : option Js.Thrown :=
  match insert row with
  | Js.Resolved r => Js.error r
  | Js.Rejected e => Some e
  end.

(** The row [handleSubmit] inserts for a user and a state. *)
Definition submitted_row (u : FormFillModal.User) (formId : string)
           (st : FormFillModal.State) : FormFillModal.FillRow :=
  {| FormFillModal.row_form_id := formId;
     FormFillModal.row_user_id := FormFillModal.user_id u;
     FormFillModal.row_rating := FormFillModal.rating st;
     FormFillModal.row_comment :=
       FormFillModal.comment_or_null (FormFillModal.comment st) |}.

(** A text of white space only. *)
Definition blank (s : string) : Prop :=
  Forall (fun c => Js.is_space c = true) (String.list_ascii_of_string s).

(** A text that does not begin with white space. *)
Definition starts_clean (s : string) : Prop :=
  match s with
  | EmptyString => True
  | String c _ => Js.is_space c = false
  end.

(** The star hovered over, if any, is one of the five. *)
Definition hover_ok (st : FormFillModal.State) : Prop :=
  0 <= FormFillModal.hoveredRating st <= 5.

(** State, storage and document agree on the mode. *)
Definition mode_consistent (w : Navigation.State * Navigation.Browser) : Prop :=
  Navigation.localStorage (snd w) !! "darkMode"
  = Some (Js.bool_toString (Navigation.isDarkMode (fst w)))
  /\ ("dark" ∈ Navigation.classList (snd w)
      <-> Navigation.isDarkMode (fst w) = true).
End Notions.

(** * Sample data *)
Module Sample.

(** An engine to run the samples on.  Their texts are ASCII, so the
    capitals to lower are A to Z and the white space is tab to
    carriage return and the space; halfway between two tenths it
    takes the one of larger magnitude. *)
Definition lower_ascii (c : ascii) : ascii :=
  let n := nat_of_ascii c in
  if ((65 <=? n)%nat && (n <=? 90)%nat)%bool then ascii_of_nat (n + 32) else c.

Fixpoint lower (s : string) : string :=
  match s with
  | EmptyString => EmptyString
  | String c s' => String (lower_ascii c) (lower s')
  end.

Definition round_tenths (q : Q) : Q :=
  (inject_Z (Qfloor (q * 10 + (1 # 2))) / 10)%Q.

Definition tenths (q : Q) : Q :=
  if Qle_bool 0 q then round_tenths q else (- round_tenths (- q))%Q.

Definition space (c : ascii) : bool :=
  let n := nat_of_ascii c in
  ((9 <=? n)%nat && (n <=? 13)%nat || (n =? 32)%nat)%bool.

Definition runtime : Js.Runtime.
Proof.
  assert (Hr : forall q : Q, (Qabs (round_tenths q - q) <= 1 # 20)%Q).
  { intros q. unfold round_tenths.
    pose proof (Qfloor_le (q * 10 + (1 # 2))) as Hlo.
    pose proof (Qlt_floor (q * 10 + (1 # 2))) as Hhi.
    rewrite inject_Z_plus in Hhi.
    set (z := inject_Z (Qfloor (q * 10 + (1 # 2)))) in *.
    change (inject_Z 1) with 1%Q in Hhi.
    assert (Hd : (z / 10 == z * (1 # 10))%Q) by field.
    apply Qabs_Qle_condition. rewrite Hd. split; lra. }
  refine {| Js.toLowerCase := lower; Js.toLowerCase_empty := eq_refl;
            Js.toFixed1 := tenths; Js.is_space := space;
            Js.toFixed1_tenths := _; Js.toFixed1_nearest := _ |}.
  - intros q. unfold tenths, round_tenths. destruct (Qle_bool 0 q).
    + exists (Qfloor (q * 10 + (1 # 2))). field.
    + exists (- Qfloor (- q * 10 + (1 # 2))). rewrite inject_Z_opp. field.
  - intros q. unfold tenths. destruct (Qle_bool 0 q); [apply Hr|].
    pose proof (Hr (- q)%Q) as H.
    apply Qabs_Qle_condition in H as [H1 H2].
    apply Qabs_Qle_condition. split; lra.
Defined.

(** A form with two fills, rated 4 and 5. *)
Definition campus : Feed.Form :=
  {| Feed.id := "f1"; Feed.title := "Campus Survey";
     Feed.description := Some "Food on campus";
     Feed.google_form_url := "https://forms.gle/a";
     Feed.tags := Some ["survey"; "academic"];
     Feed.created_at := "2025-06-01T10:00:00Z"; Feed.expire_at := None;
     Feed.user_id := "u1"; Feed.profiles := None;
     Feed.form_fills := [ {| Feed.rating := 4 |}; {| Feed.rating := 5 |} ] |}.

(** A form nobody has filled. *)
Definition fresh : Feed.Form :=
  {| Feed.id := "f2"; Feed.title := "Thesis feedback";
     Feed.description := None;
     Feed.google_form_url := "https://forms.gle/b";
     Feed.tags := None;
     Feed.created_at := "2025-06-02T10:00:00Z"; Feed.expire_at := None;
     Feed.user_id := "u2"; Feed.profiles := None;
     Feed.form_fills := [] |}.

Definition no_dates : string -> option Z := fun _ => None.

(** The error object of a refused query: not an Error instance. *)
Definition denied : Js.Thrown :=
  {| Js.instanceofError := false;
     Js.message := "permission denied for table forms" |}.

Definition timeout : Js.Thrown :=
  {| Js.instanceofError := true; Js.message := "Failed to fetch" |}.

(** A backend whose forms query is refused. *)
Definition feed_down : Feed.Backend :=
  {| Feed.select_forms :=
       Js.Resolved {| Js.data := None; Js.error := Some denied |};
     Feed.select_profile := fun _ => Js.Rejected timeout |}.

Definition feed_rows : Js.Response (list Feed.Form) :=
  {| Js.data := Some [campus; fresh]; Js.error := None |}.

(** A backend that delivers the forms and fails every profile lookup. *)
Definition feed_partial : Feed.Backend :=
  {| Feed.select_forms := Js.Resolved feed_rows;
     Feed.select_profile := fun _ => Js.Rejected timeout |}.

(** A feed that already shows one form. *)
Definition held : Feed.State := Feed.setLoading false (Feed.setForms [campus] Feed.initial).

Definition ok {A : Type} (x : A) : Js.Awaited A :=
  Js.Resolved {| Js.data := Some x; Js.error := None |}.

Definition nothing {A : Type} : Js.Awaited A :=
  Js.Resolved {| Js.data := None; Js.error := None |}.

(** Two users: u2 filled twice and u1 once; u1 posted one form, whose
    fills are rated 4, 4 and 5 and once not at all. *)
Definition board : Leaderboard.Backend :=
  {| Leaderboard.select_fill_user_ids := ok ["u2"; "u1"; "u2"; "u3"];
     Leaderboard.select_profile := fun userId =>
       if String.eqb userId "u1" then ok {| Leaderboard.profile_name := "Ada" |}
       else if String.eqb userId "u2" then ok {| Leaderboard.profile_name := "Bo" |}
       else nothing;
     Leaderboard.select_form_user_ids := ok ["u1"];
     Leaderboard.select_form_ids := fun userId =>
       if String.eqb userId "u1" then ok ["f1"] else ok [];
     Leaderboard.select_ratings := fun _ =>
       ok [Some 4%Q; None; Some 4%Q; Some 5%Q] |}.

Definition ada : FormFillModal.User := {| FormFillModal.user_id := "u1" |}.

Definition accept (row : FormFillModal.FillRow)
  : Js.Awaited (list FormFillModal.FillRow) := ok [row].

Definition rated3 : FormFillModal.State :=
  FormFillModal.setRating 3 FormFillModal.initial.

(** A form that expires. *)
Definition closing : Feed.Form :=
  {| Feed.id := "f3"; Feed.title := "Course evaluation";
     Feed.description := Some "";
     Feed.google_form_url := "forms.gle/c";
     Feed.tags := Some ["feedback"];
     Feed.created_at := "2025-05-20T08:00:00Z";
     Feed.expire_at := Some "2025-07-01T00:00:00Z";
     Feed.user_id := "u1"; Feed.profiles := None;
     Feed.form_fills := [ {| Feed.rating := 3 |} ] |}.

(** A clock that reads the dates of the sample forms, in days. *)
Definition clock (s : string) : option Z :=
  if String.eqb s "2025-05-20T08:00:00Z" then Some 20228
  else if String.eqb s "2025-06-01T10:00:00Z" then Some 20240
  else if String.eqb s "2025-06-02T10:00:00Z" then Some 20241
  else if String.eqb s "2025-07-01T00:00:00Z" then Some 20270
  else None.

(** The loaded feed under a sort setting. *)
Definition listing (by_ : string) : Feed.State :=
  {| Feed.searchTerm := ""; Feed.sortBy := by_; Feed.filterTag := "all";
     Feed.forms := [campus; fresh; closing];
     Feed.loading := false; Feed.error := None |}.

(** A leaderboard backend whose fills query is refused. *)
Definition board_down : Leaderboard.Backend :=
  {| Leaderboard.select_fill_user_ids :=
       Js.Resolved {| Js.data := None; Js.error := Some denied |};
     Leaderboard.select_profile := Leaderboard.select_profile board;
     Leaderboard.select_form_user_ids := Leaderboard.select_form_user_ids board;
     Leaderboard.select_form_ids := Leaderboard.select_form_ids board;
     Leaderboard.select_ratings := Leaderboard.select_ratings board |}.

(** An insert the backend refuses. *)
Definition refuse (row : FormFillModal.FillRow)
  : Js.Awaited (list FormFillModal.FillRow) :=
  Js.Resolved {| Js.data := None; Js.error := Some denied |}.

(** A rating of 3 with a comment between white space. *)
Definition commented : FormFillModal.State :=
  FormFillModal.setComment "  clear questions " rated3.

End Sample.

(** * Properties *)

(** No insert among effects that are notifications and callbacks. *)
Ltac no_insert :=
  let Hin := fresh "Hin" in
  intros Hin; exfalso;
  repeat (apply elem_of_cons in Hin as [Hin|Hin]; [discriminate Hin|]);
  by apply elem_of_nil in Hin.

Section Properties.
Context {engine : Js.Runtime}.

(** ** Sorting, slicing and indexed maps *)
Section SortFacts.
Context {A : Type} (before : A -> A -> bool).

Lemma insert_Permutation (x : A) (l : list A) :
  Permutation (Js.insert before x l) (x :: l).
Proof.
  induction l as [|y l IH]; simpl; [done|].
  destruct (before x y); [done|].
  rewrite IH. apply perm_swap.
Qed.

Lemma sort_Permutation (l : list A) : Permutation (Js.sort before l) l.
Proof.
  induction l as [|x l IH]; simpl; [done|].
  rewrite insert_Permutation. by constructor.
Qed.

Lemma sort_length (l : list A) : length (Js.sort before l) = length l.
Proof. apply Permutation_length, sort_Permutation. Qed.

Hypothesis before_total : forall a b, before a b = false -> before b a = true.
Hypothesis before_trans :
  forall a b c, before a b = true -> before b c = true -> before a c = true.

Lemma insert_sorted (x : A) (l : list A) :
  StronglySorted (fun a b => before a b = true) l ->
  StronglySorted (fun a b => before a b = true) (Js.insert before x l).
Proof.
  induction 1 as [|y l Hl IH Hy]; simpl.
  - repeat constructor.
  - destruct (before x y) eqn:Hxy.
    + constructor; [by constructor|].
      constructor; [done|].
      eapply Forall_impl; [exact Hy|]. intros z Hz. by eapply before_trans.
    + constructor; [done|].
      rewrite insert_Permutation. constructor; [by apply before_total|done].
Qed.

Lemma sort_sorted (l : list A) :
  StronglySorted (fun a b => before a b = true) (Js.sort before l).
Proof.
  induction l as [|x l IH]; simpl; [constructor|]. by apply insert_sorted.
Qed.
End SortFacts.

Lemma StronglySorted_weaken {A : Type} (R1 R2 : A -> A -> Prop) (l : list A) :
  (forall a b, R1 a b -> R2 a b) -> StronglySorted R1 l -> StronglySorted R2 l.
Proof.
  intros HR. induction 1 as [|x l Hl IH Hx]; constructor; [done|].
  eapply Forall_impl; [exact Hx|]. intros y. apply HR.
Qed.

Lemma StronglySorted_take {A : Type} (R : A -> A -> Prop) (n : nat) (l : list A) :
  StronglySorted R l -> StronglySorted R (take n l).
Proof.
  intros H. revert n. induction H as [|x l Hl IH Hx]; intros [|n]; simpl;
    try constructor; [apply IH|].
  by apply Forall_take.
Qed.

Lemma StronglySorted_by_key {A B : Type} (key : A -> B) (R : B -> B -> Prop) (l : list A) :
  StronglySorted (fun a b => R (key a) (key b)) l <-> StronglySorted R (map key l).
Proof.
  induction l as [|x l IH]; simpl.
  - split; constructor.
  - split; intros H; inversion H as [|? ? Hl Hx]; subst; constructor;
      try (by apply IH).
    + by apply Forall_fmap.
    + apply Forall_forall. intros y Hy. rewrite Forall_forall in Hx.
      apply Hx. by apply list_elem_of_fmap_2.
Qed.

Lemma mapi_from_length {A B : Type} (f : A -> Z -> B) (i : Z) (l : list A) :
  length (Js.mapi_from f i l) = length l.
Proof. revert i. induction l; intros; simpl; [done|]. by rewrite IHl. Qed.

Lemma mapi_from_map {A B C : Type} (f : A -> Z -> B) (g : B -> C) (h : A -> C) (i : Z)
      (l : list A) :
  (forall x k, g (f x k) = h x) ->
  map g (Js.mapi_from f i l) = map h l.
Proof.
  intros Hgh. revert i. induction l as [|x l IH]; intros; simpl; [done|].
  by rewrite Hgh, IH.
Qed.

Lemma mapi_from_lookup {A B : Type} (f : A -> Z -> B) (i : Z) (l : list A) (n : nat) :
  Js.mapi_from f i l !! n = (fun x => f x (i + Z.of_nat n)) <$> l !! n.
Proof.
  revert i n. induction l as [|x l IH]; intros i [|n]; simpl; try done.
  - by rewrite Z.add_0_r.
  - rewrite IH. by replace (i + 1 + Z.of_nat n) with (i + Z.pos (Pos.of_succ_nat n)) by lia.
Qed.

Lemma mapi_from_elem {A B : Type} (f : A -> Z -> B) (i : Z) (l : list A) (y : B) :
  y ∈ Js.mapi_from f i l -> exists x k, x ∈ l /\ y = f x k.
Proof.
  intros [n Hn]%list_elem_of_lookup. rewrite mapi_from_lookup in Hn.
  destruct (l !! n) as [x|] eqn:Hx; simplify_eq/=.
  exists x, (i + Z.of_nat n). split; [|done]. by eapply list_elem_of_lookup_2.
Qed.

Lemma mapi_from_ranks {A B : Type} (f : A -> Z -> B) (rk : B -> Z) (i : Z) (l : list A) :
  (forall x k, rk (f x k) = k + 1) ->
  map rk (Js.mapi_from f i l) = map (fun k => i + Z.of_nat k + 1) (seq 0 (length l)).
Proof.
  intros Hrk. revert i. induction l as [|x l IH]; intros; simpl; [done|].
  rewrite Hrk, IH, Z.add_0_r. f_equal.
  rewrite <- seq_shift, map_map. apply map_ext. intros; lia.
Qed.

Lemma keeps_order_Z (z : Z) : Js.keeps_order (Some (inject_Z z)) = true <-> z <= 0.
Proof.
  unfold Js.keeps_order. rewrite Qle_bool_iff. unfold Qle. simpl. lia.
Qed.

(** The pipeline [.sort(by count, descending).slice(0, 8).map(rank)]
    shared by both boards. *)
Section Top8.
Context {A : Type} (key rk : A -> Z) (f : A -> Z -> A).
Hypothesis f_key : forall x k, key (f x k) = key x.
Hypothesis f_rank : forall x k, rk (f x k) = k + 1.

Let before := fun a b : A => Js.keeps_order (Some (inject_Z (key b - key a))).
Let top8 := fun l : list A => Js.mapi f (Js.slice0 8 (Js.sort before l)).

Lemma before_descending (a b : A) : before a b = true <-> key b <= key a.
Proof. unfold before. rewrite keeps_order_Z. lia. Qed.

Lemma sort_descending (l : list A) :
  StronglySorted (fun a b => key b <= key a) (Js.sort before l).
Proof.
  eapply StronglySorted_weaken with (R1 := fun a b => before a b = true).
  - intros a b. by rewrite before_descending.
  - apply sort_sorted.
    + intros a b Hab. apply before_descending.
      destruct (before b a) eqn:E; [by apply before_descending in E|].
      apply not_true_iff_false in E, Hab.
      rewrite before_descending in E, Hab. lia.
    + intros a b c. rewrite !before_descending. lia.
Qed.

Lemma top8_length (l : list A) : length (top8 l) = (length l `min` 8)%nat.
Proof.
  unfold top8, Js.mapi, Js.slice0.
  rewrite mapi_from_length, length_take, sort_length. lia.
Qed.

Lemma top8_descending (l : list A) :
  StronglySorted (fun a b => key b <= key a) (top8 l).
Proof.
  apply (StronglySorted_by_key key (fun x y => y <= x)).
  unfold top8, Js.mapi. rewrite (mapi_from_map f key key 0 _ f_key).
  apply (StronglySorted_by_key key (fun x y => y <= x)).
  apply StronglySorted_take, sort_descending.
Qed.

Lemma top8_ranks (l : list A) : map rk (top8 l) = ranks (length (top8 l)).
Proof.
  unfold top8 at 1, Js.mapi. rewrite (mapi_from_ranks f rk 0 _ f_rank).
  unfold ranks. rewrite top8_length. unfold Js.slice0.
  rewrite length_take, sort_length, Nat.min_comm. apply map_ext. intros; lia.
Qed.

(** What is cut off counts no more than anything kept. *)
Lemma top8_cut (l : list A) :
  Forall (fun dropped =>
            Forall (fun kept => key dropped <= key kept) (top8 l))
         (drop 8 (Js.sort before l)).
Proof.
  pose proof (sort_descending l) as Hs.
  rewrite <- (take_drop 8 (Js.sort before l)) in Hs.
  apply Forall_forall. intros d Hd. apply Forall_forall. intros k Hk.
  unfold top8, Js.mapi, Js.slice0 in Hk.
  apply mapi_from_elem in Hk as (x & i & Hx & ->).
  rewrite f_key.
  exact (StronglySorted_app_1_elem_of _ _ _ _ _ Hs Hx Hd).
Qed.
End Top8.

(** ** Objects used as records of values *)
Section ObjFacts.
Context {V : Type}.
Implicit Types (o : list (string * V)) (k : string).

Lemma get_set o k v k' :
  Js.get (Js.set k v o) k' = if String.eqb k' k then Some v else Js.get o k'.
Proof.
  induction o as [|[k0 v0] o IH]; simpl.
  - by destruct (String.eqb k' k).
  - destruct (String.eqb k k0) eqn:E; simpl.
    + apply String.eqb_eq in E as ->. by destruct (String.eqb k' k0).
    + rewrite IH. destruct (String.eqb k' k0) eqn:E0; [|done].
      apply String.eqb_eq in E0 as ->.
      rewrite String.eqb_sym in E. by rewrite E.
Qed.

Lemma get_update o k f k' :
  Js.get (Js.update k f o) k'
  = if String.eqb k' k then f <$> Js.get o k' else Js.get o k'.
Proof.
  induction o as [|[k0 v0] o IH]; simpl.
  - by destruct (String.eqb k' k).
  - destruct (String.eqb k k0) eqn:E; simpl.
    + apply String.eqb_eq in E as ->. by destruct (String.eqb k' k0).
    + rewrite IH. destruct (String.eqb k' k0) eqn:E0; [|done].
      apply String.eqb_eq in E0 as ->.
      rewrite String.eqb_sym in E. by rewrite E.
Qed.

Lemma get_keys o k : k ∈ Js.keys o -> is_Some (Js.get o k).
Proof.
  induction o as [|[k0 v0] o IH]; simpl; [by intros ?%elem_of_nil|].
  intros [->|Hk]%elem_of_cons.
  - rewrite String.eqb_refl. by eexists.
  - destruct (String.eqb k k0); [by eexists|]. by apply IH.
Qed.
End ObjFacts.

(** ** The fillers' statistics *)

Lemma occurrences_nonneg k rows : 0 <= occurrences k rows.
Proof. unfold occurrences. lia. Qed.

Lemma occurrences_snoc k rows u :
  occurrences k (rows ++ [u])
  = occurrences k rows + (if String.eqb k u then 1 else 0).
Proof.
  unfold occurrences. rewrite List.filter_app, length_app. simpl.
  destruct (String.eqb k u); simpl; lia.
Qed.

Lemma get_count_fill o u k :
  Js.get (Leaderboard.count_fill o u) k
  = if String.eqb k u
    then Some
           (let s := default {| Leaderboard.stat_formsFilled := 0;
                                Leaderboard.stat_points := 0;
                                Leaderboard.stat_badges := 0 |} (Js.get o u) in
            {| Leaderboard.stat_formsFilled := Leaderboard.stat_formsFilled s + 1;
               Leaderboard.stat_points := Leaderboard.stat_points s + 5;
               Leaderboard.stat_badges := Leaderboard.stat_badges s |})
    else Js.get o k.
Proof.
  unfold Leaderboard.count_fill. rewrite !get_update.
  destruct (String.eqb k u) eqn:E.
  - apply String.eqb_eq in E as ->.
    destruct (Js.get o u) eqn:G; simpl; [by rewrite G|].
    by rewrite get_set, String.eqb_refl.
  - destruct (Js.get o u); [done|]. by rewrite get_set, E.
Qed.

Lemma fillerStats_counts (rows : list string) (k : string) :
  Js.get (Leaderboard.fillerStats (Some rows)) k = stat_of (occurrences k rows).
Proof.
  unfold Leaderboard.fillerStats.
  induction rows as [|u rows IH] using rev_ind in k |- *; [done|].
  rewrite fold_left_app. simpl. rewrite get_count_fill, occurrences_snoc.
  destruct (String.eqb k u) eqn:E; [|by rewrite IH, Z.add_0_r].
  apply String.eqb_eq in E as ->. rewrite IH.
  pose proof (occurrences_nonneg u rows).
  unfold stat_of.
  destruct (Z.eqb_spec (occurrences u rows) 0) as [->|?]; simpl.
  - done.
  - destruct (Z.eqb_spec (occurrences u rows + 1) 0); [lia|].
    do 2 f_equal; lia.
Qed.

Lemma fillerStats_points (fillersData : option (list string)) (k : string)
      (s : Leaderboard.FillerStat) :
  Js.get (Leaderboard.fillerStats fillersData) k = Some s ->
  Leaderboard.stat_points s = 5 * Leaderboard.stat_formsFilled s
  /\ 0 < Leaderboard.stat_formsFilled s.
Proof.
  destruct fillersData as [rows|]; [|done].
  rewrite fillerStats_counts. unfold stat_of.
  pose proof (occurrences_nonneg k rows).
  destruct (Z.eqb_spec (occurrences k rows) 0); [done|].
  intros [= <-]. simpl. lia.
Qed.

(** Every entry the loop pushes comes from a key, its profile and its
    statistics. *)
Lemma fillersWithNames_elem b stats ids entries e :
  Leaderboard.fillersWithNames b stats ids = Js.Ok entries ->
  e ∈ entries ->
  exists userId r profile s,
    userId ∈ ids
    /\ Leaderboard.select_profile b userId = Js.Resolved r
    /\ Js.data r = Some profile
    /\ Js.get stats userId = Some s
    /\ e = {| Leaderboard.rank := 0;
              Leaderboard.name := Leaderboard.profile_name profile;
              Leaderboard.formsFilled := Leaderboard.stat_formsFilled s;
              Leaderboard.points := Leaderboard.stat_points s;
              Leaderboard.badges := 0 |}.
Proof.
  revert entries. induction ids as [|userId rest IH]; intros entries; simpl.
  - intros [= <-] ?%elem_of_nil. done.
  - destruct (Leaderboard.select_profile b userId) as [r|] eqn:Hp; simpl; [|done].
    destruct (Leaderboard.fillersWithNames b stats rest) as [more|] eqn:Hrest.
    2:{ destruct (Js.data r); [destruct (Js.get stats userId)|]; done. }
    assert (Hmore : e ∈ more ->
      exists userId0 r0 profile s, userId0 ∈ userId :: rest
        /\ Leaderboard.select_profile b userId0 = Js.Resolved r0
        /\ Js.data r0 = Some profile /\ Js.get stats userId0 = Some s
        /\ e = {| Leaderboard.rank := 0;
                  Leaderboard.name := Leaderboard.profile_name profile;
                  Leaderboard.formsFilled := Leaderboard.stat_formsFilled s;
                  Leaderboard.points := Leaderboard.stat_points s;
                  Leaderboard.badges := 0 |}).
    { intros He. destruct (IH more eq_refl He) as (u & r0 & p & s & Hu & ?).
      exists u, r0, p, s. split; [by right|done]. }
    destruct (Js.data r) as [profile|] eqn:Hd; simpl.
    + destruct (Js.get stats userId) as [s|] eqn:Hs; simpl; [|done].
      intros [= <-] [->|He]%elem_of_cons; [|by apply Hmore].
      exists userId, r, profile, s. split; [by left|done].
    + intros [= <-]. apply Hmore.
Qed.

(** ** The two boards *)

Lemma load_fillers_Ok b fs :
  Leaderboard.load_fillers b = Js.Ok fs ->
  exists r entries,
    Leaderboard.select_fill_user_ids b = Js.Resolved r
    /\ Js.error r = None
    /\ Leaderboard.fillersWithNames b (Leaderboard.fillerStats (Js.data r))
         (Js.keys (Leaderboard.fillerStats (Js.data r))) = Js.Ok entries
    /\ fs = Leaderboard.sortedFillers entries.
Proof.
  unfold Leaderboard.load_fillers.
  destruct (Leaderboard.select_fill_user_ids b) as [r|]; simpl; [|done].
  destruct (Js.error r) eqn:Herr; [done|].
  destruct (Leaderboard.fillersWithNames _ _ _) as [entries|] eqn:E; simpl; [|done].
  intros [= <-]. by exists r, entries.
Qed.

Lemma load_posters_Ok b ps :
  Leaderboard.load_posters b = Js.Ok ps ->
  exists r entries,
    Leaderboard.select_form_user_ids b = Js.Resolved r
    /\ Js.error r = None
    /\ Leaderboard.postersWithNames b (Leaderboard.posterStats (Js.data r))
         (Js.keys (Leaderboard.posterStats (Js.data r))) = Js.Ok entries
    /\ ps = Leaderboard.sortedPosters entries.
Proof.
  unfold Leaderboard.load_posters.
  destruct (Leaderboard.select_form_user_ids b) as [r|]; simpl; [|done].
  destruct (Js.error r) eqn:Herr; [done|].
  destruct (Leaderboard.postersWithNames _ _ _) as [entries|] eqn:E; simpl; [|done].
  intros [= <-]. by exists r, entries.
Qed.

Lemma fetch_topFillers b st fs :
  Leaderboard.load_fillers b = Js.Ok fs ->
  Leaderboard.topFillers (Leaderboard.fetchLeaderboardData b st) = fs.
Proof.
  intros H. unfold Leaderboard.fetchLeaderboardData. rewrite H.
  by destruct (Leaderboard.load_posters b).
Qed.

Lemma fetch_topPosters b st fs ps :
  Leaderboard.load_fillers b = Js.Ok fs ->
  Leaderboard.load_posters b = Js.Ok ps ->
  Leaderboard.topPosters (Leaderboard.fetchLeaderboardData b st) = ps.
Proof.
  intros H1 H2. unfold Leaderboard.fetchLeaderboardData. by rewrite H1, H2.
Qed.

Lemma sortedFillers_elem entries e :
  e ∈ Leaderboard.sortedFillers entries ->
  exists x k, x ∈ entries /\ e = Leaderboard.with_rank x k.
Proof.
  unfold Leaderboard.sortedFillers, Js.mapi, Js.slice0.
  intros (x & k & Hx & ->)%mapi_from_elem.
  exists x, k. split; [|done].
  apply elem_of_take in Hx as (i & Hi & _).
  apply list_elem_of_lookup_2 in Hi.
  by rewrite sort_Permutation in Hi.
Qed.

Lemma sortedPosters_elem entries e :
  e ∈ Leaderboard.sortedPosters entries ->
  exists x k, x ∈ entries /\ e = Leaderboard.with_poster_rank x k.
Proof.
  unfold Leaderboard.sortedPosters, Js.mapi, Js.slice0.
  intros (x & k & Hx & ->)%mapi_from_elem.
  exists x, k. split; [|done].
  apply elem_of_take in Hx as (i & Hi & _).
  apply list_elem_of_lookup_2 in Hi.
  by rewrite sort_Permutation in Hi.
Qed.

(** C3: each board, as the view stores it after a load, is the
    aggregated entries sorted by descending count (formsFilled for
    fillers, formsPosted for posters), cut to at most 8 entries and
    ranked 1, 2, ..., n in that order; what is cut off counts no more
    than anything kept. *)
Theorem boards_sorted_truncated_ranked
        (b : Leaderboard.Backend) (st : Leaderboard.State)
        (fs : list Leaderboard.TopFiller) (ps : list Leaderboard.TopPoster) :
  Leaderboard.load_fillers b = Js.Ok fs ->
  Leaderboard.load_posters b = Js.Ok ps ->
  let st' := Leaderboard.fetchLeaderboardData b st in
  (Leaderboard.topFillers st' = fs
   /\ (exists r entries sorted,
         Leaderboard.select_fill_user_ids b = Js.Resolved r
         /\ Leaderboard.fillersWithNames b (Leaderboard.fillerStats (Js.data r))
              (Js.keys (Leaderboard.fillerStats (Js.data r))) = Js.Ok entries
         /\ Permutation sorted entries
         /\ fs = Js.mapi Leaderboard.with_rank (take 8 sorted)
         /\ Forall (fun dropped =>
                      Forall (fun kept => Leaderboard.formsFilled dropped
                                          <= Leaderboard.formsFilled kept) fs)
                   (drop 8 sorted))
   /\ StronglySorted
        (fun x y => Leaderboard.formsFilled y <= Leaderboard.formsFilled x) fs
   /\ (length fs <= 8)%nat
   /\ map Leaderboard.rank fs = ranks (length fs))
  /\
  (Leaderboard.topPosters st' = ps
   /\ (exists r entries sorted,
         Leaderboard.select_form_user_ids b = Js.Resolved r
         /\ Leaderboard.postersWithNames b (Leaderboard.posterStats (Js.data r))
              (Js.keys (Leaderboard.posterStats (Js.data r))) = Js.Ok entries
         /\ Permutation sorted entries
         /\ ps = Js.mapi Leaderboard.with_poster_rank (take 8 sorted)
         /\ Forall (fun dropped =>
                      Forall (fun kept => Leaderboard.formsPosted dropped
                                          <= Leaderboard.formsPosted kept) ps)
                   (drop 8 sorted))
   /\ StronglySorted
        (fun x y => Leaderboard.formsPosted y <= Leaderboard.formsPosted x) ps
   /\ (length ps <= 8)%nat
   /\ map Leaderboard.poster_rank ps = ranks (length ps)).
Proof.
  intros Hf Hp st'. split.
  - split; [by apply fetch_topFillers|].
    destruct (load_fillers_Ok _ _ Hf) as (r & entries & Hr & _ & He & ->).
    split; [|split; [|split]].
    + eexists r, entries, _. split; [done|]. split; [done|].
      split; [apply sort_Permutation|]. split; [reflexivity|].
      apply (top8_cut Leaderboard.formsFilled Leaderboard.with_rank). done.
    + apply (top8_descending Leaderboard.formsFilled Leaderboard.with_rank). done.
    + unfold Leaderboard.sortedFillers.
      rewrite (top8_length Leaderboard.formsFilled Leaderboard.with_rank). lia.
    + apply (top8_ranks Leaderboard.formsFilled Leaderboard.rank
                        Leaderboard.with_rank); done.
  - split; [by eapply fetch_topPosters|].
    destruct (load_posters_Ok _ _ Hp) as (r & entries & Hr & _ & He & ->).
    split; [|split; [|split]].
    + eexists r, entries, _. split; [done|]. split; [done|].
      split; [apply sort_Permutation|]. split; [reflexivity|].
      apply (top8_cut Leaderboard.formsPosted Leaderboard.with_poster_rank). done.
    + apply (top8_descending Leaderboard.formsPosted Leaderboard.with_poster_rank).
      done.
    + unfold Leaderboard.sortedPosters.
      rewrite (top8_length Leaderboard.formsPosted Leaderboard.with_poster_rank). lia.
    + apply (top8_ranks Leaderboard.formsPosted Leaderboard.poster_rank
                        Leaderboard.with_poster_rank); done.
Qed.

(** C10: every entry of the fillers board has points = 5 * formsFilled
    and badges = 0; its count is the number of fetched fill rows of one
    user, each row adding one fill and five points for that user. *)
Theorem fillers_points_five_per_fill
        (b : Leaderboard.Backend) (st : Leaderboard.State)
        (fs : list Leaderboard.TopFiller) :
  Leaderboard.load_fillers b = Js.Ok fs ->
  Leaderboard.topFillers (Leaderboard.fetchLeaderboardData b st) = fs
  /\ Forall (fun e =>
               Leaderboard.points e = 5 * Leaderboard.formsFilled e
               /\ Leaderboard.badges e = 0
               /\ exists r userId,
                    Leaderboard.select_fill_user_ids b = Js.Resolved r
                    /\ Leaderboard.formsFilled e
                       = occurrences userId (default [] (Js.data r))
                    /\ 0 < Leaderboard.formsFilled e) fs
  /\ (forall rows u k,
        Js.get (Leaderboard.fillerStats (Some (rows ++ [u]))) k
        = if String.eqb k u
          then stat_of (occurrences u rows + 1)
          else Js.get (Leaderboard.fillerStats (Some rows)) k).
Proof.
  intros Hf. split; [by apply fetch_topFillers|]. split.
  - destruct (load_fillers_Ok _ _ Hf) as (r & entries & Hr & _ & He & ->).
    apply Forall_forall. intros e (x & k & Hx & ->)%sortedFillers_elem.
    destruct (fillersWithNames_elem _ _ _ _ _ He Hx)
      as (userId & r0 & profile & s & _ & _ & _ & Hs & ->).
    simpl. destruct (fillerStats_points _ _ _ Hs) as [Hpts Hpos].
    split; [done|]. split; [done|].
    exists r, userId. split; [done|]. split; [|done].
    destruct (Js.data r) as [rows|]; [|done]. simpl.
    rewrite fillerStats_counts in Hs. unfold stat_of in Hs.
    destruct (Z.eqb (occurrences userId rows) 0); [done|]. by injection Hs as <-.
  - intros rows u k. rewrite !fillerStats_counts, occurrences_snoc.
    destruct (String.eqb k u) eqn:E.
    + by apply String.eqb_eq in E as ->.
    + by rewrite Z.add_0_r.
Qed.

(** ** Averages *)

Lemma length_number_nonzero (n : nat) :
  Qeq_bool (inject_Z (Z.of_nat (S n))) 0 = false.
Proof.
  apply not_true_iff_false. rewrite Qeq_bool_iff. unfold Qeq. simpl. lia.
Qed.

Lemma sum_ratings_from (fills : list Feed.Fill) (a : Q) :
  (fold_left (fun sum fill => sum + Feed.rating fill) fills a
   == a + total (map Feed.rating fills))%Q.
Proof.
  revert a. induction fills as [|f fills IH]; intros a; simpl.
  - ring.
  - rewrite IH. ring.
Qed.

Lemma sum_ratings_total (fills : list Feed.Fill) :
  (Feed.sum_ratings fills == total (map Feed.rating fills))%Q.
Proof. unfold Feed.sum_ratings. rewrite sum_ratings_from. ring. Qed.

Lemma averageRating_mean (form : Feed.Form) :
  Feed.form_fills form <> [] ->
  exists q, Feed.averageRating form = Some q /\ (q == mean (ratings form))%Q.
Proof.
  unfold Feed.averageRating, ratings, mean, Feed.length_number, Js.div.
  destruct (Feed.form_fills form) as [|f fills]; [done|]. intros _.
  rewrite length_map. cbn [length Nat.ltb Nat.leb].
  rewrite length_number_nonzero. eexists. split; [reflexivity|].
  by rewrite sum_ratings_total.
Qed.

Lemma averageRating_empty (form : Feed.Form) :
  Feed.form_fills form = [] -> Feed.averageRating form = Some 0%Q.
Proof. unfold Feed.averageRating. by intros ->. Qed.

Lemma sortRating_averageRating (form : Feed.Form) :
  Feed.sortRating form = Feed.averageRating form.
Proof. reflexivity. Qed.

Lemma averageRating_key (form : Feed.Form) :
  exists q, Feed.averageRating form = Some q
            /\ (q == mean_or_0 (ratings form))%Q.
Proof.
  destruct (Feed.form_fills form) as [|f fills] eqn:E.
  - exists 0%Q. split; [by apply averageRating_empty|].
    unfold ratings. by rewrite E.
  - destruct (averageRating_mean form) as (q & Hq & Hm); [by rewrite E|].
    exists q. split; [done|]. rewrite Hm. unfold ratings. rewrite E. reflexivity.
Qed.

Lemma compare_rating (getTime : string -> option Z) (a b : Feed.Form) :
  exists d, Feed.compareForms getTime "rating" a b = Some d
            /\ (d == mean_or_0 (ratings b) - mean_or_0 (ratings a))%Q.
Proof.
  unfold Feed.compareForms. cbn [String.eqb Ascii.eqb Bool.eqb].
  change (Feed.sortRating a) with (Feed.averageRating a).
  change (Feed.sortRating b) with (Feed.averageRating b).
  destruct (averageRating_key a) as (qa & -> & Ha).
  destruct (averageRating_key b) as (qb & -> & Hb).
  simpl. eexists. split; [reflexivity|]. by rewrite Ha, Hb.
Qed.

Lemma sorted_by_rating (getTime : string -> option Z) (st : Feed.State) :
  Feed.sortBy st = "rating" ->
  StronglySorted
    (fun a b => (mean_or_0 (ratings b) <= mean_or_0 (ratings a))%Q)
    (Feed.sortedForms getTime st).
Proof.
  intros Hby. unfold Feed.sortedForms. rewrite Hby.
  set (before := fun a b => Js.keeps_order (Feed.compareForms getTime "rating" a b)).
  assert (Hb : forall a b,
             before a b = true
             <-> (mean_or_0 (ratings b) <= mean_or_0 (ratings a))%Q).
  { intros a b. unfold before.
    destruct (compare_rating getTime a b) as (d & -> & Hd).
    unfold Js.keeps_order. rewrite Qle_bool_iff, Hd. split; intros; lra. }
  eapply StronglySorted_weaken with (R1 := fun a b => before a b = true).
  - intros a b. by rewrite Hb.
  - apply sort_sorted.
    + intros a b Hab. apply Hb.
      destruct (before b a) eqn:E; [by apply Hb in E|].
      apply not_true_iff_false in E, Hab. rewrite Hb in E, Hab. lra.
    + intros a b c. rewrite !Hb. intros; lra.
Qed.

(** C1: for a form with at least one fill, the average the feed
    computes is the arithmetic mean of the fills' ratings, on the card
    and as the key of the 'Highest Rated' comparator, by which the
    sorted list is in descending order. *)
Theorem feed_average_is_mean
        (getTime : string -> option Z) (form : Feed.Form) :
  Feed.form_fills form <> [] ->
  exists q,
    (q == total (ratings form) / inject_Z (Z.of_nat (length (ratings form))))%Q
    /\ Feed.averageRating form = Some q
    /\ Feed.card_averageRating (Feed.card form) = Some q
    /\ Feed.sortRating form = Some q
    /\ (forall other, Feed.form_fills other <> [] ->
          exists d,
            Feed.compareForms getTime "rating" form other = Some d
            /\ (d == mean (ratings other) - mean (ratings form))%Q)
    /\ (forall st, Feed.sortBy st = "rating" ->
          StronglySorted
            (fun a b => (mean_or_0 (ratings b) <= mean_or_0 (ratings a))%Q)
            (Feed.sortedForms getTime st)).
Proof.
  intros Hne. destruct (averageRating_mean form Hne) as (q & Hq & Hm).
  exists q. repeat split; try done.
  - intros other Ho.
    destruct (compare_rating getTime form other) as (d & Hd & Hk).
    exists d. split; [done|]. rewrite Hk. unfold ratings, mean_or_0.
    destruct (Feed.form_fills form); [done|].
    destruct (Feed.form_fills other); [done|]. reflexivity.
  - intros st. apply sorted_by_rating.
Qed.

Lemma rated_sum_from (rs : list (option Q)) (a : Q) :
  (fold_left (fun sum r => sum + Leaderboard.rating_or_0 r)
             (List.filter Leaderboard.has_rating rs) a
   == a + total (present rs))%Q.
Proof.
  revert a. induction rs as [|[q|] rs IH]; intros a; simpl.
  - ring.
  - rewrite IH. unfold present at 2. simpl. fold (present rs).
    destruct (Qeq_bool q 0) eqn:E.
    + apply Qeq_bool_eq in E. rewrite E. ring.
    + ring.
  - apply IH.
Qed.

Lemma rated_length (rs : list (option Q)) :
  length (List.filter Leaderboard.has_rating rs) = length (present rs).
Proof.
  induction rs as [|[q|] rs IH]; simpl; [done| |done].
  unfold present. simpl. by f_equal.
Qed.

Lemma response_stats_avg (responses : option (list (option Q))) :
  exists q,
    snd (Leaderboard.response_stats responses) = Some q
    /\ (q == mean_or_0 (present (default [] responses)))%Q.
Proof.
  unfold Leaderboard.response_stats, Leaderboard.ratingsWithValues. cbn [snd].
  destruct responses as [rs|]; simpl; [|by exists 0%Q].
  pose proof (rated_length rs) as Hlen.
  pose proof (rated_sum_from rs 0) as Hsum.
  destruct (List.filter Leaderboard.has_rating rs) as [|r rated];
    destruct (present rs) as [|p ps]; try done.
  - by exists 0%Q.
  - cbn [length Nat.ltb Nat.leb]. unfold Js.div.
    rewrite length_number_nonzero. eexists. split; [reflexivity|].
    change (S (length rated)) with (length (r :: rated)).
    unfold mean_or_0, mean. rewrite Hsum, Hlen. field.
    pose proof (length_number_nonzero (length ps)) as Hnz.
    apply not_true_iff_false in Hnz. by rewrite Qeq_bool_iff in Hnz.
Qed.

Lemma response_stats_unrated (responses : option (list (option Q))) :
  Leaderboard.ratingsWithValues responses = [] ->
  snd (Leaderboard.response_stats responses) = Some 0%Q.
Proof. unfold Leaderboard.response_stats. by intros ->. Qed.

Lemma poster_responses_avg b userId ta :
  Leaderboard.poster_responses b userId = Js.Ok ta ->
  exists q,
    snd ta = Some q
    /\ (q == mean_or_0 (present (fetched_ratings b userId)))%Q.
Proof.
  unfold Leaderboard.poster_responses, fetched_ratings.
  destruct (Leaderboard.select_form_ids b userId) as [f|]; simpl; [|done].
  destruct (Js.data f) as [[|i ids]|].
  - intros [= <-]. by exists 0%Q.
  - destruct (Leaderboard.select_ratings b (i :: ids)) as [resp|]; simpl; [|done].
    intros [= <-]. apply response_stats_avg.
  - intros [= <-]. by exists 0%Q.
Qed.

(** C8: a form without fills has average 0, on the card and as sort
    key, and a poster without rated responses has average 0; no average
    is ever the outcome of a division by zero: each is a finite number
    for every form and for every set of response rows. *)
Theorem no_fills_average_zero
        (form : Feed.Form) (responses : option (list (option Q))) :
  Feed.form_fills form = [] ->
  Leaderboard.ratingsWithValues responses = [] ->
  Feed.averageRating form = Some 0%Q
  /\ Feed.card_averageRating (Feed.card form) = Some 0%Q
  /\ Feed.sortRating form = Some 0%Q
  /\ snd (Leaderboard.response_stats responses) = Some 0%Q
  /\ (forall f, is_Some (Feed.averageRating f) /\ is_Some (Feed.sortRating f))
  /\ (forall rs, is_Some (snd (Leaderboard.response_stats rs)))
  /\ (forall a b, Js.div a b = None <-> (b == 0)%Q).
Proof.
  intros Hf Hr.
  repeat split; try (by apply averageRating_empty);
    try (by apply response_stats_unrated).
  - destruct (averageRating_key f) as (q & -> & _). by eexists.
  - change (Feed.sortRating f) with (Feed.averageRating f).
    destruct (averageRating_key f) as (q & -> & _). by eexists.
  - intros rs. destruct (response_stats_avg rs) as (q & -> & _). by eexists.
  - unfold Js.div. destruct (Qeq_bool b 0) eqn:E; [|done].
    intros _. by apply Qeq_bool_eq.
  - unfold Js.div. intros E%Qeq_bool_iff. by rewrite E.
Qed.

(** ** Rounding to one decimal *)

Lemma toFixed1_near (q m : Q) :
  (q == m)%Q -> (Qabs (Js.toFixed1 q - m) <= 1 # 20)%Q.
Proof.
  intros Hm. pose proof (Js.toFixed1_nearest q) as H.
  apply Qabs_Qle_condition in H as [H1 H2].
  apply Qabs_Qle_condition. split; lra.
Qed.

(** Between two whole numbers a mean and its rounding lie together. *)
Lemma toFixed1_within (lo hi : Z) (q : Q) :
  (inject_Z lo <= q <= inject_Z hi)%Q ->
  (inject_Z lo <= Js.toFixed1 q <= inject_Z hi)%Q.
Proof.
  intros [Hlo Hhi].
  destruct (Js.toFixed1_tenths q) as (n & Hn).
  pose proof (Js.toFixed1_nearest q) as H.
  apply Qabs_Qle_condition in H as [H1 H2].
  assert (Hv : (Js.toFixed1 q == inject_Z n * (1 # 10))%Q) by lra.
  assert (Hl : (10 * lo < n + 1)%Z).
  { rewrite Zlt_Qlt, inject_Z_plus, inject_Z_mult.
    change (inject_Z 10) with 10%Q. change (inject_Z 1) with 1%Q. lra. }
  assert (Hh : (n < 10 * hi + 1)%Z).
  { rewrite Zlt_Qlt, inject_Z_plus, inject_Z_mult.
    change (inject_Z 10) with 10%Q. change (inject_Z 1) with 1%Q. lra. }
  assert (Hl' : (10 * lo <= n)%Z) by lia.
  assert (Hh' : (n <= 10 * hi)%Z) by lia.
  rewrite Zle_Qle, inject_Z_mult in Hl', Hh'.
  change (inject_Z 10) with 10%Q in Hl', Hh'.
  rewrite Hv. split; lra.
Qed.

Lemma toFixed1_zero (q : Q) : (q == 0)%Q -> (Js.toFixed1 q == 0)%Q.
Proof.
  intros Hq.
  pose proof (toFixed1_within 0 0 q) as H.
  change (inject_Z 0) with 0%Q in H.
  destruct H as [H1 H2]; [split; lra|]. lra.
Qed.

(** ** The posters' averages *)

Lemma postersWithNames_elem b stats ids entries e :
  Leaderboard.postersWithNames b stats ids = Js.Ok entries ->
  e ∈ entries ->
  exists userId r profile ta s,
    userId ∈ ids
    /\ Leaderboard.select_profile b userId = Js.Resolved r
    /\ Js.data r = Some profile
    /\ Leaderboard.poster_responses b userId = Js.Ok ta
    /\ Js.get stats userId = Some s
    /\ e = {| Leaderboard.poster_rank := 0;
              Leaderboard.poster_name := Leaderboard.profile_name profile;
              Leaderboard.formsPosted := Leaderboard.stat_formsPosted s;
              Leaderboard.totalResponses := fst ta;
              Leaderboard.avgRating := Js.toFixed1_number (snd ta) |}.
Proof.
  revert entries. induction ids as [|userId rest IH]; intros entries; simpl.
  - intros [= <-] ?%elem_of_nil. done.
  - destruct (Leaderboard.select_profile b userId) as [r|] eqn:Hp; simpl; [|done].
    destruct (Leaderboard.postersWithNames b stats rest) as [more|] eqn:Hrest.
    2:{ destruct (Js.data r); [|done].
        destruct (Leaderboard.poster_responses b userId); [|done].
        simpl. by destruct (Js.get stats userId). }
    assert (Hmore : e ∈ more ->
      exists userId0 r0 profile ta s, userId0 ∈ userId :: rest
        /\ Leaderboard.select_profile b userId0 = Js.Resolved r0
        /\ Js.data r0 = Some profile
        /\ Leaderboard.poster_responses b userId0 = Js.Ok ta
        /\ Js.get stats userId0 = Some s
        /\ e = {| Leaderboard.poster_rank := 0;
                  Leaderboard.poster_name := Leaderboard.profile_name profile;
                  Leaderboard.formsPosted := Leaderboard.stat_formsPosted s;
                  Leaderboard.totalResponses := fst ta;
                  Leaderboard.avgRating := Js.toFixed1_number (snd ta) |}).
    { intros He. destruct (IH more eq_refl He) as (u & r0 & p & ta & s & Hu & ?).
      exists u, r0, p, ta, s. split; [by right|done]. }
    destruct (Js.data r) as [profile|] eqn:Hd; simpl.
    + destruct (Leaderboard.poster_responses b userId) as [ta|] eqn:Hta; simpl;
        [|done].
      destruct (Js.get stats userId) as [s|] eqn:Hs; simpl; [|done].
      intros [= <-] [->|He]%elem_of_cons; [|by apply Hmore].
      exists userId, r, profile, ta, s. split; [by left|done].
    + intros [= <-]. apply Hmore.
Qed.

(** C2, as the code has it: the average of a poster on the board is
    the arithmetic mean of the non-null ratings over all fills of all
    the user's forms rounded to one decimal place by the engine: a
    multiple of one tenth within 0.05 of the mean (either neighbour
    when the mean lies halfway between two), printed in the row when
    positive; it is 0 when there is no such rating, and the row then
    reads 'N/A'. *)
Theorem posters_average_rounded_mean
        (b : Leaderboard.Backend) (st : Leaderboard.State)
        (fs : list Leaderboard.TopFiller) (ps : list Leaderboard.TopPoster) :
  Leaderboard.load_fillers b = Js.Ok fs ->
  Leaderboard.load_posters b = Js.Ok ps ->
  Forall
    (fun e =>
       exists userId r profile,
         Leaderboard.select_profile b userId = Js.Resolved r
         /\ Js.data r = Some profile
         /\ Leaderboard.poster_name e = Leaderboard.profile_name profile
         /\ let m := mean_or_0 (present (fetched_ratings b userId)) in
            exists v q : Q,
              Leaderboard.avgRating e = Some v
              /\ (q == m)%Q
              /\ v = Js.toFixed1 q
              /\ (Qabs (v - m) <= 1 # 20)%Q
              /\ (exists n : Z, (v * 10 == inject_Z n)%Q)
              /\ (present (fetched_ratings b userId) = [] ->
                  (v == 0)%Q
                  /\ Leaderboard.ratingCell e = Leaderboard.TextCell "N/A")
              /\ ((0 < v)%Q ->
                  Leaderboard.ratingCell e = Leaderboard.NumberCell v))
    (Leaderboard.topPosters (Leaderboard.fetchLeaderboardData b st)).
Proof.
  intros Hf Hp. rewrite (fetch_topPosters _ _ _ _ Hf Hp).
  destruct (load_posters_Ok _ _ Hp) as (r & entries & Hr & _ & He & ->).
  apply Forall_forall. intros e (x & k & Hx & ->)%sortedPosters_elem.
  destruct (postersWithNames_elem _ _ _ _ _ He Hx)
    as (userId & r0 & profile & ta & s & _ & Hprof & Hd & Hta & _ & ->).
  exists userId, r0, profile. split; [done|]. split; [done|]. split; [done|].
  destruct (poster_responses_avg _ _ _ Hta) as (q & Hq & Hm).
  cbn zeta. exists (Js.toFixed1 q), q.
  split; [simpl; by rewrite Hq|]. split; [done|]. split; [done|].
  split; [by apply toFixed1_near|]. split; [apply Js.toFixed1_tenths|].
  unfold Leaderboard.ratingCell.
  cbn [Leaderboard.avgRating Leaderboard.with_poster_rank].
  rewrite Hq. cbn [Js.toFixed1_number].
  split.
  - intros Hnone. rewrite Hnone in Hm.
    assert (H0 : (Js.toFixed1 q == 0)%Q) by (apply toFixed1_zero; exact Hm).
    split; [done|].
    assert (E : Qle_bool (Js.toFixed1 q) 0 = true)
      by (apply Qle_bool_iff; lra).
    by rewrite E.
  - intros Hpos. destruct (Qle_bool _ 0) eqn:E; [|done].
    apply Qle_bool_iff in E. lra.
Qed.

(** ** Loading the feed *)

Lemma load_forms_fails b e :
  forms_query_fails b e -> Feed.load_forms b = Js.Throw e.
Proof.
  unfold Feed.load_forms. intros [->|(r & -> & Hr)]; simpl; [done|].
  by rewrite Hr.
Qed.

Lemma load_forms_succeeds b r :
  Feed.select_forms b = Js.Resolved r ->
  Js.error r = None ->
  Feed.load_forms b = Js.Ok (map (Feed.attach_profile b) (default [] (Js.data r))).
Proof.
  unfold Feed.load_forms. intros -> Hr. simpl. rewrite Hr.
  by destruct (Js.data r) as [[|row rows]|].
Qed.

Lemma fetchForms_failed b st e :
  forms_query_fails b e ->
  Feed.fetchForms b st =
  {| Feed.searchTerm := Feed.searchTerm st; Feed.sortBy := Feed.sortBy st;
     Feed.filterTag := Feed.filterTag st; Feed.forms := Feed.forms st;
     Feed.loading := false; Feed.error := Some (Feed.error_text e) |}.
Proof.
  intros H. unfold Feed.fetchForms. by rewrite (load_forms_fails _ _ H).
Qed.

Lemma fetchForms_loaded b st r :
  Feed.select_forms b = Js.Resolved r ->
  Js.error r = None ->
  Feed.fetchForms b st =
  {| Feed.searchTerm := Feed.searchTerm st; Feed.sortBy := Feed.sortBy st;
     Feed.filterTag := Feed.filterTag st;
     Feed.forms := map (Feed.attach_profile b) (default [] (Js.data r));
     Feed.loading := false; Feed.error := None |}.
Proof.
  intros H1 H2. unfold Feed.fetchForms. by rewrite (load_forms_succeeds _ _ H1 H2).
Qed.

Lemma truthy_nonempty (s : string) : Js.truthy s = true <-> s <> "".
Proof. by destruct s. Qed.

(** C4, as the code has it: when the forms query fails, the error
    state holds the failure's message if the failure is an Error
    instance and the fixed text 'Failed to load forms' otherwise, the
    forms held before and the search, sort and filter settings are
    unchanged, loading is over, and the error view with its 'Try Again'
    button, which runs the fetch again, is rendered whenever that text
    is not empty. *)
Theorem forms_query_failure_error_state
        (getTime : string -> option Z) (b : Feed.Backend) (st : Feed.State)
        (e : Js.Thrown) :
  forms_query_fails b e ->
  let st' := Feed.fetchForms b st in
  Feed.error st'
  = Some (if Js.instanceofError e then Js.message e else "Failed to load forms")
  /\ Feed.forms st' = Feed.forms st
  /\ Feed.searchTerm st' = Feed.searchTerm st
  /\ Feed.sortBy st' = Feed.sortBy st
  /\ Feed.filterTag st' = Feed.filterTag st
  /\ Feed.loading st' = false
  /\ (Feed.error_text e <> "" ->
      Feed.render getTime st' = Feed.ErrorView (Feed.error_text e) try_again)
  /\ (Js.instanceofError e = false ->
      Feed.render getTime st' = Feed.ErrorView "Failed to load forms" try_again).
Proof.
  intros H st'. unfold st'. rewrite (fetchForms_failed _ _ _ H). simpl.
  repeat split; try done.
  - intros Hne%truthy_nonempty. unfold Feed.render. simpl. by rewrite Hne.
  - intros Hi. unfold Feed.render, Feed.error_text. simpl. by rewrite Hi.
Qed.

(** C5, as the code has it: a failure of the forms query is surfaced
    as the error state, and as the error view with its 'Try Again'
    button whenever the text held is not empty; a failed profile lookup
    is not: when the forms query succeeds the error state stays null
    whatever the lookups do, the feed is rendered, every row is kept,
    in order, and a row carries the profile its lookup delivered or,
    when it delivered none, the placeholder profile named
    'Unknown User'. *)
Theorem profile_failure_substituted
        (getTime : string -> option Z) (b : Feed.Backend) (st : Feed.State)
        (r : Js.Response (list Feed.Form)) :
  Feed.select_forms b = Js.Resolved r ->
  Js.error r = None ->
  let st' := Feed.fetchForms b st in
  let rows := default [] (Js.data r) in
  Feed.error st' = None
  /\ Feed.loading st' = false
  /\ Feed.render getTime st' = Feed.feedView getTime st'
  /\ Feed.forms st'
     = map (fun row =>
              Feed.with_profiles row
                (default Feed.unknown_user (lookup_data b row))) rows
  /\ (forall row, lookup_data b row = None ->
        Feed.attach_profile b row = Feed.with_profiles row Feed.unknown_user)
  /\ (forall row, row ∈ rows -> lookup_data b row = None ->
        Feed.with_profiles row Feed.unknown_user ∈ Feed.forms st')
  /\ (forall b' st0 e, forms_query_fails b' e ->
        Feed.error (Feed.fetchForms b' st0) = Some (Feed.error_text e)
        /\ Feed.loading (Feed.fetchForms b' st0) = false
        /\ (Feed.error_text e <> "" ->
            Feed.render getTime (Feed.fetchForms b' st0)
            = Feed.ErrorView (Feed.error_text e) try_again)).
Proof.
  intros H1 H2 st' rows. unfold st'. rewrite (fetchForms_loaded _ _ _ H1 H2).
  assert (Ha : forall row,
             Feed.attach_profile b row
             = Feed.with_profiles row
                 (default Feed.unknown_user (lookup_data b row))).
  { intros row. unfold Feed.attach_profile, lookup_data.
    by destruct (Feed.select_profile b (Feed.user_id row)). }
  cbn [Feed.error Feed.loading Feed.forms].
  split; [done|]. split; [done|]. split; [done|].
  split; [apply map_ext, Ha|].
  split; [intros row Hrow; by rewrite Ha, Hrow|].
  split.
  - intros row Hin Hrow. apply list_elem_of_fmap. exists row.
    split; [by rewrite Ha, Hrow|done].
  - intros b' st0 e He. rewrite (fetchForms_failed _ _ _ He).
    split; [done|]. split; [done|].
    intros Hne%truthy_nonempty. unfold Feed.render. simpl. by rewrite Hne.
Qed.

(** ** Searching and filtering *)

Lemma startsWith_spec (t s : string) :
  Js.startsWith t s = true <-> exists post, t = s +:+ post.
Proof.
  revert t. induction s as [|a s IH]; intros t.
  - destruct t; simpl; (split; [by eexists|done]).
  - destruct t as [|b t]; simpl; [split; [done|by intros [? ?]]|].
    destruct (ascii_dec a b) as [->|Hab].
    + rewrite IH. split; intros [post H]; exists post; [by rewrite H|].
      by injection H.
    + split; [done|]. intros [post [= ? ?]]. done.
Qed.

Lemma includes_unfold (t s : string) :
  Js.includes t s
  = (Js.startsWith t s
     || match t with
        | EmptyString => false
        | String _ t' => Js.includes t' s
        end)%bool.
Proof. by destruct t. Qed.

Lemma includes_spec (t s : string) :
  Js.includes t s = true <-> exists pre post, t = pre +:+ s +:+ post.
Proof.
  induction t as [|b t IH]; rewrite includes_unfold, orb_true_iff, startsWith_spec.
  - split.
    + intros [[post H]|]; [|done]. by exists "", post.
    + intros (pre & post & H). left. destruct pre; [by exists post|done].
  - rewrite IH. split.
    + intros [[post H]|(pre & post & H)].
      * by exists "", post.
      * exists (String b pre), post. simpl. by rewrite H.
    + intros (pre & post & H). destruct pre as [|c pre]; simpl in H.
      * left. by exists post.
      * right. injection H as _ H. by exists pre, post.
Qed.

Lemma includes_ignoring_case (t s : string) :
  Js.includes (Js.toLowerCase t) (Js.toLowerCase s) = true
  <-> contains_ignoring_case t s.
Proof. apply includes_spec. Qed.

(** Only a term without a letter left is found in the empty text. *)
Lemma contains_in_empty (s : string) :
  contains_ignoring_case "" s -> Js.toLowerCase s = "".
Proof.
  intros (pre & post & H). rewrite Js.toLowerCase_empty in H.
  destruct pre; [|done]. simpl in H. by destruct (Js.toLowerCase s).
Qed.

Lemma contains_empty (t s : string) :
  Js.toLowerCase s = "" -> contains_ignoring_case t s.
Proof. intros Hs. exists "", (Js.toLowerCase t). by rewrite Hs. Qed.

Lemma array_includes_elem (l : list string) (x : string) :
  Js.array_includes l x = true <-> x ∈ l.
Proof.
  unfold Js.array_includes. rewrite existsb_exists. split.
  - intros (y & Hy & ->%String.eqb_eq). by apply list_elem_of_In.
  - intros H. exists x. split; [by apply list_elem_of_In|apply String.eqb_refl].
Qed.

Lemma matchesSearch_spec (term : string) (form : Feed.Form) :
  Feed.matchesSearch term form = true
  <-> contains_ignoring_case (Feed.title form) term
      \/ exists d, Feed.description form = Some d
                   /\ contains_ignoring_case d term.
Proof.
  unfold Feed.matchesSearch. rewrite orb_true_iff, includes_ignoring_case.
  split; (intros [H|H]; [by left|]).
  - destruct (Feed.description form) as [d|]; [|done].
    apply andb_true_iff in H as [_ H%includes_ignoring_case].
    right. by exists d.
  - destruct H as (d & -> & H).
    destruct d as [|c d].
    + left. by apply contains_empty, contains_in_empty.
    + right. cbn [Js.truthy andb]. by apply includes_ignoring_case.
Qed.

Lemma matchesTag_spec (tag : string) (form : Feed.Form) :
  Feed.matchesTag tag form = true
  <-> tag = "all" \/ exists ts, Feed.tags form = Some ts /\ tag ∈ ts.
Proof.
  unfold Feed.matchesTag. rewrite orb_true_iff, String.eqb_eq.
  split; (intros [H|H]; [by left|right]).
  - destruct (Feed.tags form) as [ts|]; [|done].
    exists ts. split; [done|]. by apply array_includes_elem.
  - destruct H as (ts & -> & H). by apply array_includes_elem.
Qed.

Lemma filter_sublist {A : Type} (p : A -> bool) (l : list A) :
  sublist (List.filter p l) l.
Proof.
  induction l as [|x l IH]; simpl; [constructor|].
  destruct (p x); by constructor.
Qed.

Lemma filteredForms_elem (st : Feed.State) (form : Feed.Form) :
  form ∈ Feed.filteredForms st <-> form ∈ Feed.forms st /\ shown st form.
Proof.
  unfold Feed.filteredForms, shown.
  rewrite !list_elem_of_In, filter_In, andb_true_iff,
    matchesSearch_spec, matchesTag_spec. done.
Qed.

(** C7: a form is in the list the feed shows exactly when it is one
    of the loaded forms, its title or its non-null description contains
    the search term case-insensitively (the term in lower case is a
    stretch of the text in lower case, whatever letters the engine
    knows), and the tag filter is 'all' or is among the form's tags;
    sorting only reorders the filtered list, and filtering only drops
    forms from the loaded list. *)
Theorem feed_shows_matching_forms
        (getTime : string -> option Z) (st : Feed.State) :
  (forall form,
     form ∈ Feed.sortedForms getTime st <-> form ∈ Feed.forms st /\ shown st form)
  /\ (forall form,
        form ∈ Feed.filteredForms st <-> form ∈ Feed.forms st /\ shown st form)
  /\ Permutation (Feed.sortedForms getTime st) (Feed.filteredForms st)
  /\ sublist (Feed.filteredForms st) (Feed.forms st)
  /\ (forall term form,
        Feed.matchesSearch term form = true
        <-> Js.includes (Js.toLowerCase (Feed.title form)) (Js.toLowerCase term) = true
            \/ exists d, Feed.description form = Some d
                 /\ Js.includes (Js.toLowerCase d) (Js.toLowerCase term) = true).
Proof.
  assert (Hperm : Permutation (Feed.sortedForms getTime st) (Feed.filteredForms st))
    by apply sort_Permutation.
  split; [|split; [|split; [|split]]].
  - intros form. rewrite Hperm. apply filteredForms_elem.
  - apply filteredForms_elem.
  - done.
  - apply filter_sublist.
  - intros term form. rewrite matchesSearch_spec, !includes_ignoring_case.
    split; (intros [H|(d & Hd & H)]; [by left|right; exists d]);
      by rewrite includes_ignoring_case in *.
Qed.

(** ** The fill-and-rate modal *)

Section ModalFacts.
Variable user : option FormFillModal.User.
Variable formId : string.
Variable insert : FormFillModal.FillRow -> Js.Awaited (list FormFillModal.FillRow).

Abbreviation handleSubmit := (FormFillModal.handleSubmit user formId insert).
Abbreviation handle := (FormFillModal.handle user formId insert).
Abbreviation run := (FormFillModal.run user formId insert).

Lemma stars_range (i : nat) (value : Z) :
  FormFillModal.stars !! i = Some value -> 1 <= value <= 5.
Proof.
  do 5 (destruct i as [|i]; [intros [= <-]; lia|]). done.
Qed.

Lemma handleSubmit_refused (st : FormFillModal.State) :
  user = None \/ FormFillModal.rating st = 0 ->
  exists text, handleSubmit st = (st, [FormFillModal.ToastError text]).
Proof.
  unfold FormFillModal.handleSubmit. intros [->|Hr].
  - by eexists.
  - destruct user; [|by eexists]. rewrite Hr. by eexists.
Qed.

Lemma handleSubmit_attempt (st : FormFillModal.State) (u : FormFillModal.User) :
  user = Some u -> FormFillModal.rating st <> 0 ->
  exists st' rest,
    handleSubmit st =
    (st', FormFillModal.Insert
            {| FormFillModal.row_form_id := formId;
               FormFillModal.row_user_id := FormFillModal.user_id u;
               FormFillModal.row_rating := FormFillModal.rating st;
               FormFillModal.row_comment :=
                 FormFillModal.comment_or_null (FormFillModal.comment st) |}
          :: rest)
    /\ (forall row, FormFillModal.Insert row ∉ rest)
    /\ (FormFillModal.rating st' = 0
        \/ FormFillModal.rating st' = FormFillModal.rating st).
Proof.
  unfold FormFillModal.handleSubmit. intros -> Hr.
  destruct (Z.eqb_spec (FormFillModal.rating st) 0) as [|_]; [done|].
  match goal with |- context [Js.await ?c] => destruct c as [r|e] end; simpl.
  - destruct (Js.error r); simpl; eexists _, _;
      (split; [reflexivity|]); (split; [|by auto]); intros row; no_insert.
  - eexists _, _. split; [reflexivity|]. split; [|by auto].
    intros row. no_insert.
Qed.

Lemma handle_rating_ok (ev : FormFillModal.Event) (st : FormFillModal.State) :
  rating_ok st ->
  rating_ok (fst (handle ev st))
  /\ forall row, FormFillModal.Insert row ∈ snd (handle ev st) ->
                 1 <= FormFillModal.row_rating row <= 5.
Proof.
  intros Hst.
  assert (Hnil : forall row, FormFillModal.Insert row ∈ [] ->
                             1 <= FormFillModal.row_rating row <= 5)
    by (by intros ? ?%elem_of_nil).
  destruct ev as [i|i| | | |]; simpl; try done.
  - destruct (FormFillModal.stars !! i) as [value|] eqn:E; simpl; [|done].
    split; [|done]. right. by eapply stars_range.
  - by destruct (FormFillModal.stars !! i).
  - destruct (decide (user = None \/ FormFillModal.rating st = 0)) as [H|H].
    + destruct (handleSubmit_refused st H) as (text & ->).
      split; [done|]. simpl. intros row. no_insert.
    + assert (exists u, user = Some u) as [u Hu].
      { destruct user as [u|]; [by exists u|]. exfalso. apply H. by left. }
      assert (Hz : FormFillModal.rating st <> 0) by (intros ?; apply H; by right).
      destruct (handleSubmit_attempt st u Hu Hz) as (st' & rest & -> & Hno & Hr).
      simpl. split.
      * destruct Hr as [Hr|Hr]; [by left|]. unfold rating_ok. by rewrite Hr.
      * intros row [[= ->]|Hin]%elem_of_cons; [|by apply Hno in Hin].
        simpl. destruct Hst; lia.
  - split; [by left|]. intros row. no_insert.
Qed.

Lemma run_rating_ok (evs : list FormFillModal.Event) (st : FormFillModal.State) :
  rating_ok st ->
  rating_ok (fst (run evs st))
  /\ forall row, FormFillModal.Insert row ∈ snd (run evs st) ->
                 1 <= FormFillModal.row_rating row <= 5.
Proof.
  revert st. induction evs as [|ev evs IH]; intros st Hst; simpl.
  - split; [done|]. by intros ? ?%elem_of_nil.
  - destruct (handle_rating_ok ev st Hst) as [H1 H2].
    destruct (FormFillModal.handle user formId insert ev st) as [st1 done1].
    destruct (IH st1 H1) as [H3 H4].
    destruct (FormFillModal.run user formId insert evs st1) as [st2 done2].
    simpl in *. split; [done|].
    intros row [?|?]%elem_of_app; auto.
Qed.
End ModalFacts.

(** C9: submitting attempts the insert exactly when a user is logged
    in and the rating is not 0; otherwise it only shows an error
    notification and changes nothing; a star button sets a rating
    between 1 and 5, so that through any use of the dialog the rating
    is 0 or between 1 and 5 and every row inserted has a rating
    between 1 and 5. *)
Theorem modal_inserts_iff_user_and_rating
        (user : option FormFillModal.User) (formId : string)
        (insert : FormFillModal.FillRow -> Js.Awaited (list FormFillModal.FillRow))
        (st : FormFillModal.State) :
  let out := FormFillModal.handleSubmit user formId insert st in
  ((exists row, FormFillModal.Insert row ∈ snd out)
   <-> user <> None /\ FormFillModal.rating st <> 0)
  /\ (user = None \/ FormFillModal.rating st = 0 ->
      exists text, out = (st, [FormFillModal.ToastError text]))
  /\ (forall i value,
        FormFillModal.stars !! i = Some value ->
        1 <= FormFillModal.rating
               (fst (FormFillModal.handle user formId insert
                       (FormFillModal.ClickStar i) st)) <= 5)
  /\ (forall evs,
        rating_ok (fst (FormFillModal.run user formId insert evs
                          FormFillModal.initial))
        /\ forall row,
             FormFillModal.Insert row
               ∈ snd (FormFillModal.run user formId insert evs
                        FormFillModal.initial) ->
             1 <= FormFillModal.row_rating row <= 5).
Proof.
  intros out. split; [|split; [|split]].
  - split.
    + intros [row Hrow].
      destruct (decide (user = None \/ FormFillModal.rating st = 0)) as [H|H].
      * destruct (handleSubmit_refused user formId insert st H) as (text & Ht).
        unfold out in Hrow. rewrite Ht in Hrow. simpl in Hrow.
        apply elem_of_cons in Hrow as [?|?%elem_of_nil]; done.
      * split; intros ?; apply H; auto.
    + intros [Hu Hr]. destruct user as [u|] eqn:E; [|done].
      destruct (handleSubmit_attempt (Some u) formId insert st u eq_refl Hr)
        as (st' & rest & Hs & _).
      unfold out. rewrite Hs. eexists. simpl. by left.
  - apply handleSubmit_refused.
  - intros i value Hi. simpl. rewrite Hi. simpl. by eapply stars_range.
  - intros evs. apply run_rating_ok. by left.
Qed.

(** ** The dark-mode switch *)

(** C6: toggling stores the text of the new mode, 'true' or 'false',
    under 'darkMode' and leaves every other key alone; initialization
    turns dark mode on exactly when the stored value is 'true'; so a
    reload after a toggle restores the mode toggled to. *)
Theorem dark_mode_round_trip (w : Navigation.State * Navigation.Browser) :
  let w' := Navigation.toggleDarkMode w in
  let mode := Navigation.isDarkMode (fst w') in
  mode = negb (Navigation.isDarkMode (fst w))
  /\ Navigation.localStorage (snd w') !! "darkMode"
     = Some (if mode then "true" else "false")
  /\ (forall k, k <> "darkMode" ->
        Navigation.localStorage (snd w') !! k
        = Navigation.localStorage (snd w) !! k)
  /\ (forall st br,
        Navigation.isDarkMode (fst (Navigation.initialize (st, br))) = true
        <-> Navigation.localStorage br !! "darkMode" = Some "true")
  /\ Navigation.isDarkMode (fst (Navigation.reload w')) = mode
  /\ Navigation.localStorage (snd (Navigation.reload w'))
     = Navigation.localStorage (snd w')
  /\ ("dark" ∈ Navigation.classList (snd w') <-> mode = true)
  /\ ("dark" ∈ Navigation.classList (snd (Navigation.reload w')) <-> mode = true).
Proof.
  destruct w as [[m] [ls cl]]. simpl.
  split; [done|]. split; [by destruct m; simpl; rewrite lookup_insert_eq|].
  split; [by intros k Hk; rewrite lookup_insert_ne|].
  split; [intros _ br; by rewrite bool_decide_eq_true|].
  destruct m; simpl; rewrite lookup_insert_eq; simpl;
    rewrite ?elem_of_union, ?elem_of_difference, ?elem_of_singleton;
    repeat split; try done; try (by intros [_ ?]); by right.
Qed.

End Properties.

(** * The properties on the sample data *)
Section OnSample.
#[local] Existing Instance Sample.runtime.

Example sample_board_fillers :
  Leaderboard.load_fillers Sample.board
  = Js.Ok
      [ {| Leaderboard.rank := 1; Leaderboard.name := "Bo";
           Leaderboard.formsFilled := 2; Leaderboard.points := 10;
           Leaderboard.badges := 0 |};
        {| Leaderboard.rank := 2; Leaderboard.name := "Ada";
           Leaderboard.formsFilled := 1; Leaderboard.points := 5;
           Leaderboard.badges := 0 |} ].
Proof. reflexivity. Qed.

Example sample_board_posters :
  Leaderboard.load_posters Sample.board
  = Js.Ok
      [ {| Leaderboard.poster_rank := 1; Leaderboard.poster_name := "Ada";
           Leaderboard.formsPosted := 1; Leaderboard.totalResponses := 4;
           Leaderboard.avgRating := Some (43 # 10) |} ].
Proof. vm_compute. reflexivity. Qed.

Example sample_feed_order :
  map Feed.id
      (Feed.sortedForms Sample.no_dates
         {| Feed.searchTerm := ""; Feed.sortBy := "rating"; Feed.filterTag := "all";
            Feed.forms := [Sample.fresh; Sample.campus];
            Feed.loading := false; Feed.error := None |})
  = ["f1"; "f2"].
Proof. reflexivity. Qed.

Example sample_feed_search :
  map Feed.id
      (Feed.filteredForms
         {| Feed.searchTerm := "FOOD"; Feed.sortBy := "newest";
            Feed.filterTag := "survey";
            Feed.forms := [Sample.fresh; Sample.campus];
            Feed.loading := false; Feed.error := None |})
  = ["f1"].
Proof. reflexivity. Qed.

(** An Error instance with an empty message leaves a falsy error
    state: the feed is rendered, not the error view. *)
Example empty_message_no_error_view :
  let b := {| Feed.select_forms :=
                Js.Rejected {| Js.instanceofError := true; Js.message := "" |};
              Feed.select_profile := fun _ => Sample.nothing |} in
  let st' := Feed.fetchForms b Sample.held in
  Feed.error st' = Some ""
  /\ Feed.render Sample.no_dates st' = Feed.feedView Sample.no_dates st'.
Proof. split; reflexivity. Qed.

Lemma feed_average_is_mean_witness :
  Feed.form_fills Sample.campus <> []
  /\ exists q,
       (q == 9 # 2)%Q
       /\ Feed.averageRating Sample.campus = Some q
       /\ Feed.card_averageRating (Feed.card Sample.campus) = Some q
       /\ Feed.sortRating Sample.campus = Some q.
Proof.
  assert (H : Feed.form_fills Sample.campus <> []) by discriminate.
  split; [exact H|].
  destruct (feed_average_is_mean Sample.no_dates Sample.campus H)
    as (q & Hq & Ha & Hc & Hs & _).
  exists q. split; [|done]. rewrite Hq. by vm_compute.
Defined.

(** C2 as stated fails: the three non-null ratings 4, 4 and 5 have
    mean 13/3, and the board shows 4.3. *)
Lemma posters_average_not_the_mean :
  let st' := Leaderboard.fetchLeaderboardData Sample.board Leaderboard.initial in
  exists e v,
    Leaderboard.topPosters st' = [e]
    /\ Leaderboard.poster_name e = "Ada"
    /\ present (fetched_ratings Sample.board "u1") = [4; 4; 5]%Q
    /\ Leaderboard.avgRating e = Some v
    /\ Leaderboard.ratingCell e = Leaderboard.NumberCell v
    /\ (v == 43 # 10)%Q
    /\ ~ (v == mean (present (fetched_ratings Sample.board "u1")))%Q.
Proof.
  eexists _, _. split; [by vm_compute|]. split; [done|]. split; [done|].
  split; [done|]. split; [done|]. split; [done|]. by vm_compute.
Qed.

Lemma posters_average_rounded_mean_witness :
  Forall
    (fun e => exists v, Leaderboard.avgRating e = Some v
                        /\ exists n : Z, (v * 10 == inject_Z n)%Q)
    (Leaderboard.topPosters
       (Leaderboard.fetchLeaderboardData Sample.board Leaderboard.initial)).
Proof.
  eapply Forall_impl;
    [exact (posters_average_rounded_mean Sample.board Leaderboard.initial _ _
              sample_board_fillers sample_board_posters)|].
  intros e (userId & r & profile & _ & _ & _ & v & q & Ha & _ & _ & _ & Hn & _).
  exists v. split; [exact Ha|exact Hn].
Defined.

Lemma boards_sorted_truncated_ranked_witness :
  let st' := Leaderboard.fetchLeaderboardData Sample.board Leaderboard.initial in
  map Leaderboard.rank (Leaderboard.topFillers st') = [1; 2]
  /\ map Leaderboard.formsFilled (Leaderboard.topFillers st') = [2; 1]
  /\ StronglySorted
       (fun x y => Leaderboard.formsFilled y <= Leaderboard.formsFilled x)
       (Leaderboard.topFillers st')
  /\ map Leaderboard.poster_rank (Leaderboard.topPosters st') = ranks 1.
Proof.
  destruct (boards_sorted_truncated_ranked Sample.board Leaderboard.initial _ _
              sample_board_fillers sample_board_posters)
    as [(Hf & _ & Hs & _ & Hr) (Hp & _ & _ & _ & Hq)].
  cbv zeta. rewrite Hf, Hp. split; [exact Hr|]. split; [reflexivity|].
  split; [exact Hs|exact Hq].
Defined.

Lemma fillers_points_five_per_fill_witness :
  Forall (fun e => Leaderboard.points e = 5 * Leaderboard.formsFilled e
                   /\ Leaderboard.badges e = 0)
         (Leaderboard.topFillers
            (Leaderboard.fetchLeaderboardData Sample.board Leaderboard.initial))
  /\ map Leaderboard.points
         (Leaderboard.topFillers
            (Leaderboard.fetchLeaderboardData Sample.board Leaderboard.initial))
     = [10; 5].
Proof.
  destruct (fillers_points_five_per_fill Sample.board Leaderboard.initial _
              sample_board_fillers) as (Hf & Hall & _).
  rewrite Hf. split; [|reflexivity].
  eapply Forall_impl; [exact Hall|]. intros e (H1 & H2 & _). by split.
Defined.

(** C4 as stated fails: the refused query's message is not what the
    error state holds. *)
Lemma forms_failure_message_not_stored :
  forms_query_fails Sample.feed_down Sample.denied
  /\ Feed.error (Feed.fetchForms Sample.feed_down Sample.held)
     = Some "Failed to load forms"
  /\ Feed.error (Feed.fetchForms Sample.feed_down Sample.held)
     <> Some (Js.message Sample.denied).
Proof.
  split; [right; by eexists|]. split; [reflexivity|discriminate].
Qed.

Lemma forms_query_failure_error_state_witness :
  forms_query_fails Sample.feed_down Sample.denied
  /\ Feed.forms (Feed.fetchForms Sample.feed_down Sample.held) = [Sample.campus]
  /\ Feed.render Sample.no_dates (Feed.fetchForms Sample.feed_down Sample.held)
     = Feed.ErrorView "Failed to load forms" try_again.
Proof.
  assert (H : forms_query_fails Sample.feed_down Sample.denied)
    by (right; by eexists).
  split; [exact H|].
  destruct (forms_query_failure_error_state Sample.no_dates Sample.feed_down
              Sample.held Sample.denied H) as (_ & Hf & _ & _ & _ & _ & _ & Hv).
  split; [exact Hf|]. by apply Hv.
Defined.

(** C5 as stated fails: both profile lookups fail, and the feed keeps
    both forms, each with the placeholder profile, with no error state
    and no error view. *)
Lemma profile_failure_not_surfaced :
  let st' := Feed.fetchForms Sample.feed_partial Feed.initial in
  Forall (lookup_fails Sample.feed_partial) [Sample.campus; Sample.fresh]
  /\ Feed.error st' = None
  /\ map Feed.profiles (Feed.forms st')
     = [Some Feed.unknown_user; Some Feed.unknown_user]
  /\ forall text button, Feed.render Sample.no_dates st' <> Feed.ErrorView text button.
Proof.
  split; [by repeat constructor|]. split; [reflexivity|]. split; [reflexivity|].
  intros text button. discriminate.
Qed.

Lemma profile_failure_substituted_witness :
  Feed.select_forms Sample.feed_partial = Js.Resolved Sample.feed_rows
  /\ Js.error Sample.feed_rows = None
  /\ Feed.error (Feed.fetchForms Sample.feed_partial Feed.initial) = None
  /\ map Feed.id (Feed.forms (Feed.fetchForms Sample.feed_partial Feed.initial))
     = ["f1"; "f2"].
Proof.
  split; [reflexivity|]. split; [reflexivity|].
  destruct (profile_failure_substituted Sample.no_dates Sample.feed_partial
              Feed.initial Sample.feed_rows eq_refl eq_refl)
    as (He & _ & _ & Hf & _).
  split; [exact He|]. rewrite Hf. reflexivity.
Defined.

Lemma no_fills_average_zero_witness :
  Feed.form_fills Sample.fresh = []
  /\ Leaderboard.ratingsWithValues (Some [None; None]) = []
  /\ Feed.averageRating Sample.fresh = Some 0%Q
  /\ snd (Leaderboard.response_stats (Some [None; None])) = Some 0%Q.
Proof.
  split; [reflexivity|]. split; [reflexivity|].
  destruct (no_fills_average_zero Sample.fresh (Some [None; None]) eq_refl eq_refl)
    as (Ha & _ & _ & Hr & _).
  split; [exact Ha|exact Hr].
Defined.

Example sample_submit :
  snd (FormFillModal.handleSubmit (Some Sample.ada) "f1" Sample.accept Sample.rated3)
  = [ FormFillModal.Insert
        {| FormFillModal.row_form_id := "f1"; FormFillModal.row_user_id := "u1";
           FormFillModal.row_rating := 3; FormFillModal.row_comment := None |};
      FormFillModal.ToastSuccess "Thank you for your feedback!";
      FormFillModal.OnFormFilled; FormFillModal.OnClose ].
Proof. reflexivity. Qed.

Example sample_submit_unrated :
  FormFillModal.handleSubmit (Some Sample.ada) "f1" Sample.accept FormFillModal.initial
  = (FormFillModal.initial, [FormFillModal.ToastError "Please provide a rating"]).
Proof. reflexivity. Qed.

Example sample_toggle_reload :
  let w := (Navigation.initial,
            {| Navigation.localStorage := ∅; Navigation.classList := ∅ |}) in
  Navigation.isDarkMode (fst (Navigation.reload (Navigation.toggleDarkMode w))) = true
  /\ Navigation.isDarkMode
       (fst (Navigation.reload
               (Navigation.toggleDarkMode (Navigation.toggleDarkMode w)))) = false.
Proof. split; reflexivity. Qed.

Lemma feed_shows_matching_forms_witness :
  let st := {| Feed.searchTerm := "FOOD"; Feed.sortBy := "rating";
               Feed.filterTag := "survey";
               Feed.forms := [Sample.fresh; Sample.campus];
               Feed.loading := false; Feed.error := None |} in
  Sample.campus ∈ Feed.forms st /\ shown st Sample.campus
  /\ ~ shown st Sample.fresh.
Proof.
  intros st.
  destruct (feed_shows_matching_forms Sample.no_dates st) as (Hs & _).
  assert (Hin : Sample.campus ∈ Feed.sortedForms Sample.no_dates st)
    by (vm_compute; by left).
  apply Hs in Hin as [Hf Hc]. split; [exact Hf|]. split; [exact Hc|].
  intros Hfresh.
  assert (Hout : Sample.fresh ∈ Feed.sortedForms Sample.no_dates st)
    by (apply Hs; split; [by left|exact Hfresh]).
  vm_compute in Hout.
  apply elem_of_cons in Hout as [Hout|Hout%elem_of_nil]; [discriminate|done].
Defined.

Lemma modal_inserts_iff_user_and_rating_witness :
  (exists row,
     FormFillModal.Insert row
       ∈ snd (FormFillModal.handleSubmit (Some Sample.ada) "f1" Sample.accept
                Sample.rated3))
  /\ (forall row,
        FormFillModal.Insert row
          ∉ snd (FormFillModal.handleSubmit None "f1" Sample.accept Sample.rated3)).
Proof.
  split.
  - apply (modal_inserts_iff_user_and_rating (Some Sample.ada) "f1" Sample.accept
             Sample.rated3).
    split; discriminate.
  - intros row Hin.
    assert (H : exists row0,
               FormFillModal.Insert row0
                 ∈ snd (FormFillModal.handleSubmit None "f1" Sample.accept
                          Sample.rated3)) by (by exists row).
    apply (modal_inserts_iff_user_and_rating None "f1" Sample.accept Sample.rated3)
      in H as [H _].
    by apply H.
Defined.

Lemma dark_mode_round_trip_witness :
  let w := (Navigation.initial,
            {| Navigation.localStorage := ∅; Navigation.classList := ∅ |}) in
  Navigation.localStorage (snd (Navigation.toggleDarkMode w)) !! "darkMode"
  = Some "true"
  /\ Navigation.isDarkMode (fst (Navigation.reload (Navigation.toggleDarkMode w)))
     = true.
Proof.
  intros w.
  destruct (dark_mode_round_trip w) as (_ & Hs & _ & _ & Hr & _).
  split; [exact Hs|exact Hr].
Defined.

End OnSample.

(** * Further properties of the views *)
Section FurtherProperties.
Context {engine : Js.Runtime}.

(** ** Sorting by a comparator that orders the items at hand *)
Section SortOn.
Context {A : Type} (before : A -> A -> bool) (P : A -> Prop) (R : A -> A -> Prop).
Hypothesis before_R : forall a b, P a -> P b -> (before a b = true <-> R a b).
Hypothesis R_total : forall a b, P a -> P b -> R a b \/ R b a.
Hypothesis R_trans : forall a b c, P a -> P b -> P c -> R a b -> R b c -> R a c.

Lemma insert_sorted_on (x : A) (l : list A) :
  P x -> Forall P l -> StronglySorted R l ->
  StronglySorted R (Js.insert before x l).
Proof.
  intros Hx Hl Hs. induction Hs as [|y l Hs IH Hy]; simpl.
  - repeat constructor.
  - apply Forall_cons in Hl as [Py Pl].
    destruct (before x y) eqn:Hxy.
    + apply before_R in Hxy; [|done..].
      constructor; [by constructor|]. constructor; [done|].
      rewrite Forall_forall in Hy, Pl. apply Forall_forall. intros z Hz.
      eapply R_trans; [exact Hx|exact Py|by apply Pl|done|by apply Hy].
    + constructor; [by apply IH|].
      rewrite insert_Permutation. constructor; [|done].
      destruct (R_total x y Hx Py) as [Hr|Hr]; [|done].
      apply before_R in Hr; [congruence|done..].
  Qed.

Lemma sort_sorted_on (l : list A) :
  Forall P l -> StronglySorted R (Js.sort before l).
Proof.
  induction 1 as [|x l Hx Hl IH]; simpl; [constructor|].
  apply insert_sorted_on; [done| |done].
  by rewrite sort_Permutation.
Qed.
End SortOn.

Lemma keeps_order_times (ta tb : Z) :
  Js.keeps_order (Js.sub (Some (inject_Z ta)) (Some (inject_Z tb))) = true
  <-> ta <= tb.
Proof.
  unfold Js.keeps_order, Js.sub. rewrite Qle_bool_iff. unfold Qle. simpl. lia.
Qed.

Lemma filteredForms_Forall (P : Feed.Form -> Prop) (st : Feed.State) :
  Forall P (Feed.forms st) -> Forall P (Feed.filteredForms st).
Proof.
  unfold Feed.filteredForms. rewrite !Forall_forall. intros H form Hin.
  apply H. apply list_elem_of_In. apply list_elem_of_In in Hin.
  by apply filter_In in Hin as [? _].
Qed.

Lemma compare_oldest getTime (a b : Feed.Form) :
  dated getTime a -> dated getTime b ->
  Js.keeps_order (Feed.compareForms getTime "oldest" a b) = true
  <-> created_no_later getTime a b.
Proof.
  intros [ta Ha] [tb Hb]. unfold created_no_later.
  unfold Feed.compareForms, Feed.time. cbn [String.eqb Ascii.eqb Bool.eqb].
  rewrite Ha, Hb. cbn [fmap option_fmap option_map]. rewrite keeps_order_times.
  split; [by exists ta, tb|]. intros (ta' & tb' & [= <-] & [= <-] & H). done.
Qed.

Lemma compare_newest getTime (by_ : string) (a b : Feed.Form) :
  by_ <> "oldest" -> by_ <> "rating" -> by_ <> "expiring" ->
  dated getTime a -> dated getTime b ->
  Js.keeps_order (Feed.compareForms getTime by_ a b) = true
  <-> created_no_later getTime b a.
Proof.
  intros H1%String.eqb_neq H2%String.eqb_neq H3%String.eqb_neq [ta Ha] [tb Hb].
  unfold created_no_later, Feed.compareForms, Feed.time.
  rewrite H1, H2, H3, Ha, Hb. cbn [fmap option_fmap option_map].
  rewrite keeps_order_times.
  split; [by exists tb, ta|]. intros (ta' & tb' & [= <-] & [= <-] & H). done.
Qed.

Lemma created_no_later_total getTime (a b : Feed.Form) :
  dated getTime a -> dated getTime b ->
  created_no_later getTime a b \/ created_no_later getTime b a.
Proof.
  intros [ta Ha] [tb Hb]. destruct (Z.le_ge_cases ta tb).
  - left. by exists ta, tb.
  - right. by exists tb, ta.
Qed.

Lemma created_no_later_trans getTime (a b c : Feed.Form) :
  created_no_later getTime a b -> created_no_later getTime b c ->
  created_no_later getTime a c.
Proof.
  intros (ta & tb & Ha & Hb & Hab) (tb' & tc & Hb' & Hc & Hbc).
  exists ta, tc. split; [done|]. split; [done|]. simplify_eq. lia.
Qed.

(** X1: when every loaded form has a valid creation date, 'Oldest
    First' lists the matching forms from the earliest to the latest
    creation time and every other setting that is not 'rating' or
    'expiring', 'Newest First' among them, from the latest to the
    earliest. *)
Theorem feed_sorted_by_creation_time
        (getTime : string -> option Z) (st : Feed.State) :
  Forall (dated getTime) (Feed.forms st) ->
  (Feed.sortBy st = "oldest" ->
   StronglySorted (created_no_later getTime) (Feed.sortedForms getTime st))
  /\ (Feed.sortBy st <> "oldest" -> Feed.sortBy st <> "rating" ->
      Feed.sortBy st <> "expiring" ->
      StronglySorted (fun a b => created_no_later getTime b a)
                     (Feed.sortedForms getTime st)).
Proof.
  intros Hd%filteredForms_Forall. unfold Feed.sortedForms. split.
  - intros ->.
    apply (sort_sorted_on _ (dated getTime)); [| | |done].
    + intros a b Ha Hb. by apply compare_oldest.
    + intros a b Ha Hb. by apply created_no_later_total.
    + intros a b c _ _ _. apply created_no_later_trans.
  - intros H1 H2 H3.
    apply (sort_sorted_on _ (dated getTime)); [| | |done].
    + intros a b Ha Hb. by apply compare_newest.
    + intros a b Ha Hb. destruct (created_no_later_total getTime a b); auto.
    + intros a b c _ _ _ Hab Hbc. by eapply created_no_later_trans.
Qed.

Lemma has_expiry_time getTime (form : Feed.Form) :
  has_expiry form = true -> expiry_dated getTime form ->
  exists s t, Feed.expire_at form = Some s /\ Js.truthy s = true
              /\ getTime s = Some t /\ expiry_time getTime form = Some t.
Proof.
  intros He Hd. destruct (Hd He) as [t Ht].
  unfold has_expiry, expiry_time in *.
  destruct (Feed.expire_at form) as [s|]; [|done]. by exists s, t.
Qed.

Lemma compare_expiring getTime (a b : Feed.Form) :
  expiry_dated getTime a -> expiry_dated getTime b ->
  Js.keeps_order (Feed.compareForms getTime "expiring" a b) = true
  <-> expires_no_later getTime a b.
Proof.
  intros Ha Hb. unfold Feed.compareForms, expires_no_later.
  cbn [String.eqb Ascii.eqb Bool.eqb].
  fold (has_expiry a) (has_expiry b).
  destruct (has_expiry a) eqn:Ea, (has_expiry b) eqn:Eb; cbn [negb andb].
  - destruct (has_expiry_time getTime a Ea Ha) as (sa & ta & Hsa & _ & Hta & Hxa).
    destruct (has_expiry_time getTime b Eb Hb) as (sb & tb & Hsb & _ & Htb & Hxb).
    rewrite Hsa, Hsb. unfold Feed.time_opt, Feed.time. rewrite Hta, Htb.
    cbn [fmap option_fmap option_map]. rewrite keeps_order_times, Hxa, Hxb.
    split.
    + intros H. right. split; [done|]. split; [done|]. by exists ta, tb.
    + intros [?|(_ & _ & ta' & tb' & [= <-] & [= <-] & H)]; done.
  - split; [by left|done].
  - split; [done|]. intros [?|(? & _)]; done.
  - split; [by left|done].
Qed.

Lemma expires_no_later_total getTime (a b : Feed.Form) :
  expiry_dated getTime a -> expiry_dated getTime b ->
  expires_no_later getTime a b \/ expires_no_later getTime b a.
Proof.
  intros Ha Hb. unfold expires_no_later.
  destruct (has_expiry a) eqn:Ea; [|by right; left].
  destruct (has_expiry b) eqn:Eb; [|by left; left].
  destruct (has_expiry_time getTime a Ea Ha) as (_ & ta & _ & _ & _ & Hxa).
  destruct (has_expiry_time getTime b Eb Hb) as (_ & tb & _ & _ & _ & Hxb).
  destruct (Z.le_ge_cases ta tb).
  - left. right. split; [done|]. split; [done|]. by exists ta, tb.
  - right. right. split; [done|]. split; [done|]. by exists tb, ta.
Qed.

Lemma expires_no_later_trans getTime (a b c : Feed.Form) :
  expires_no_later getTime a b -> expires_no_later getTime b c ->
  expires_no_later getTime a c.
Proof.
  unfold expires_no_later.
  intros Hab [Hc|(Eb & Ec & tb & tc & Hb & Hc & Hbc)]; [by left|].
  destruct Hab as [Hb'|(Ea & _ & ta & tb' & Ha & Hb' & Hab)]; [congruence|].
  right. split; [done|]. split; [done|]. exists ta, tc.
  split; [done|]. split; [done|]. simplify_eq. lia.
Qed.

(** X2: under 'Expiring Soon', when the expiry dates present are
    valid, the matching forms that expire come first, from the
    earliest to the latest expiry, and every form without an expiry
    date, null or empty, comes after all of them. *)
Theorem feed_sorted_by_expiry (getTime : string -> option Z) (st : Feed.State) :
  Forall (expiry_dated getTime) (Feed.forms st) ->
  Feed.sortBy st = "expiring" ->
  StronglySorted (expires_no_later getTime) (Feed.sortedForms getTime st)
  /\ (forall i j a b,
        Feed.sortedForms getTime st !! i = Some a ->
        Feed.sortedForms getTime st !! j = Some b ->
        has_expiry a = false -> has_expiry b = true -> (j < i)%nat).
Proof.
  intros Hd%filteredForms_Forall Hby.
  assert (Hs : StronglySorted (expires_no_later getTime)
                              (Feed.sortedForms getTime st)).
  { unfold Feed.sortedForms. rewrite Hby.
    apply (sort_sorted_on _ (expiry_dated getTime)); [| | |done].
    - intros a b Ha Hb. by apply compare_expiring.
    - intros a b Ha Hb. by apply expires_no_later_total.
    - intros a b c _ _ _. apply expires_no_later_trans. }
  split; [done|].
  intros i j a b Hi Hj Ea Eb.
  destruct (decide (j < i)%nat) as [|Hge]; [done|]. exfalso.
  destruct (decide (i = j)) as [->|Hne]; [congruence|].
  assert (Hlt : (i < j)%nat) by lia.
  assert (Hab : expires_no_later getTime a b).
  { clear -Hs Hi Hj Hlt.
    revert i j Hi Hj Hlt.
    induction Hs as [|x l Hs IH Hx]; intros i j Hi Hj Hlt; [done|].
    destruct i as [|i], j as [|j]; try lia; simpl in *.
    - injection Hi as ->. rewrite Forall_forall in Hx. apply Hx.
      by eapply list_elem_of_lookup_2.
    - apply (IH i j); [done..|lia]. }
  destruct Hab as [?|(? & _)]; congruence.
Qed.

(** ** Refreshing the feed *)

Lemma fetchForms_shape (b : Feed.Backend) (st : Feed.State) :
  Feed.fetchForms b st =
  {| Feed.searchTerm := Feed.searchTerm st; Feed.sortBy := Feed.sortBy st;
     Feed.filterTag := Feed.filterTag st;
     Feed.forms := match Feed.load_forms b with
                   | Js.Ok fs => fs
                   | Js.Throw _ => Feed.forms st
                   end;
     Feed.loading := false;
     Feed.error := match Feed.load_forms b with
                   | Js.Ok _ => None
                   | Js.Throw e => Some (Feed.error_text e)
                   end |}.
Proof. unfold Feed.fetchForms. by destruct (Feed.load_forms b). Qed.

Lemma load_forms_profiles (b : Feed.Backend) (fs : list Feed.Form) :
  Feed.load_forms b = Js.Ok fs ->
  Forall (fun form => Feed.profiles form <> None) fs.
Proof.
  unfold Feed.load_forms.
  destruct (Feed.select_forms b) as [r|]; simpl; [|done].
  destruct (Js.error r); [done|].
  destruct (Js.data r) as [[|row rows]|]; intros [= <-]; try constructor.
  - unfold Feed.attach_profile.
    by destruct (Feed.select_profile b (Feed.user_id row)).
  - apply Forall_forall. intros form (row' & -> & _)%list_elem_of_fmap.
    unfold Feed.attach_profile.
    by destruct (Feed.select_profile b (Feed.user_id row')).
Qed.

(** X3: a refresh that succeeds gives a state that depends on the
    search, sort and filter settings only, not on the forms or the
    error held before: 'Try Again' after a failure recovers exactly
    what a first load would have given, with no error, not loading,
    and every form carrying a profile.  A refresh repeated against the
    same answers changes nothing, whether it succeeds or fails. *)
Theorem refresh_recovers (getTime : string -> option Z)
        (good bad : Feed.Backend) (st : Feed.State)
        (r : Js.Response (list Feed.Form)) :
  Feed.select_forms good = Js.Resolved r ->
  Js.error r = None ->
  Feed.fetchForms good (Feed.fetchForms bad st) = Feed.fetchForms good st
  /\ Feed.error (Feed.fetchForms good (Feed.fetchForms bad st)) = None
  /\ Feed.render getTime (Feed.fetchForms good (Feed.fetchForms bad st))
     = Feed.feedView getTime (Feed.fetchForms good st)
  /\ Forall (fun form => Feed.profiles form <> None)
            (Feed.forms (Feed.fetchForms good st))
  /\ (forall b st0,
        Feed.fetchForms b (Feed.fetchForms b st0) = Feed.fetchForms b st0).
Proof.
  intros H1 H2.
  pose proof (load_forms_succeeds good r H1 H2) as Hl.
  assert (Heq : Feed.fetchForms good (Feed.fetchForms bad st)
                = Feed.fetchForms good st).
  { rewrite !(fetchForms_shape good), (fetchForms_shape bad), Hl. done. }
  split; [done|]. rewrite Heq. rewrite (fetchForms_shape good), Hl.
  split; [done|]. split; [done|]. split.
  - cbn [Feed.forms]. by apply (load_forms_profiles good).
  - intros b st0. rewrite !(fetchForms_shape b).
    by destruct (Feed.load_forms b).
Qed.

Lemma includes_empty (t : string) : Js.includes t "" = true.
Proof. apply includes_spec. by exists "", t. Qed.

Lemma filter_all {A : Type} (p : A -> bool) (l : list A) :
  (forall x, x ∈ l -> p x = true) -> List.filter p l = l.
Proof.
  induction l as [|x l IH]; intros H; simpl; [done|].
  rewrite (H x) by (by left). f_equal. apply IH. intros y Hy. apply H. by right.
Qed.

(** X4: when the forms query delivers no rows, null or an empty list,
    the feed holds no forms and shows the 'No forms found' notice with
    no card; in general, once loading is over and no error is held, the
    view has one card per matching form, and the notice is shown
    exactly when no loaded form matches the search and the tag. *)
Theorem feed_empty_notice (getTime : string -> option Z) (st : Feed.State) :
  Feed.loading st = false ->
  Feed.error st = None ->
  exists cards notice,
    Feed.render getTime st
    = Feed.FeedView {| Feed.label := "Refresh"; Feed.onClick := Feed.RunFetchForms |}
                    cards notice
    /\ length cards = length (Feed.filteredForms st)
    /\ (notice = true <-> forall form, form ∈ Feed.forms st -> ~ shown st form)
    /\ (notice = true <-> cards = [])
    /\ (forall b st0 r,
          Feed.select_forms b = Js.Resolved r -> Js.error r = None ->
          Js.data r = None \/ Js.data r = Some [] ->
          Feed.forms (Feed.fetchForms b st0) = []
          /\ Feed.render getTime (Feed.fetchForms b st0)
             = Feed.FeedView
                 {| Feed.label := "Refresh"; Feed.onClick := Feed.RunFetchForms |}
                 [] true).
Proof.
  intros Hl He. unfold Feed.render, Feed.feedView. rewrite Hl, He.
  eexists _, _. split; [reflexivity|].
  assert (Hlen : length (Feed.sortedForms getTime st)
                 = length (Feed.filteredForms st)) by apply sort_length.
  split; [by rewrite length_map|]. cbn [negb andb]. rewrite andb_true_r.
  rewrite Nat.eqb_eq, Hlen. split; [|split].
  - rewrite length_zero_iff_nil. split.
    + intros Hnil form Hin Hs.
      assert (Hf : form ∈ Feed.filteredForms st) by (by apply filteredForms_elem).
      rewrite Hnil in Hf. by apply elem_of_nil in Hf.
    + intros H. destruct (Feed.filteredForms st) as [|form fs] eqn:E; [done|].
      exfalso. assert (Hf : form ∈ Feed.filteredForms st) by (rewrite E; by left).
      apply filteredForms_elem in Hf as [Hin Hs]. by apply (H form).
  - rewrite <- Hlen, <- (length_map Feed.card). apply length_zero_iff_nil.
  - intros b st0 r H1 H2 Hd.
    rewrite (fetchForms_loaded _ _ _ H1 H2).
    by destruct Hd as [->| ->].
Qed.

(** X5: with an empty search term and the tag filter 'all' every
    loaded form is listed, in the order loaded; two search terms that
    are the same text once in lower case find the same forms; and
    under a tag other than 'all' a form whose tags are null is never
    listed. *)
Theorem feed_filter_edges (st : Feed.State) :
  (Feed.searchTerm st = "" -> Feed.filterTag st = "all" ->
   Feed.filteredForms st = Feed.forms st)
  /\ (forall term term',
        Js.toLowerCase term = Js.toLowerCase term' ->
        (forall form,
           Feed.matchesSearch term form = Feed.matchesSearch term' form)
        /\ (Feed.searchTerm st = term ->
            Feed.filteredForms st
            = Feed.filteredForms
                {| Feed.searchTerm := term'; Feed.sortBy := Feed.sortBy st;
                   Feed.filterTag := Feed.filterTag st;
                   Feed.forms := Feed.forms st; Feed.loading := Feed.loading st;
                   Feed.error := Feed.error st |}))
  /\ (forall form,
        Feed.filterTag st <> "all" -> Feed.tags form = None ->
        form ∉ Feed.filteredForms st).
Proof.
  split; [|split].
  - intros Hs Ht. unfold Feed.filteredForms. rewrite Hs, Ht.
    apply filter_all. intros form _.
    unfold Feed.matchesSearch, Feed.matchesTag. simpl.
    by rewrite Js.toLowerCase_empty, includes_empty.
  - intros term term' H.
    assert (Hm : forall form,
               Feed.matchesSearch term form = Feed.matchesSearch term' form).
    { intros form. unfold Feed.matchesSearch. by rewrite H. }
    split; [done|]. intros Hs. unfold Feed.filteredForms. rewrite Hs.
    cbn [Feed.searchTerm Feed.filterTag Feed.forms].
    apply filter_ext. intros form. by rewrite Hm.
  - intros form Hne Hnull Hin.
    apply filteredForms_elem in Hin as (_ & _ & [?|(ts & Hts & _)]); congruence.
Qed.

(** ** Averages stay within the ratings *)

Lemma length_number_succ (n : nat) :
  (inject_Z (Z.of_nat (S n)) == inject_Z (Z.of_nat n) + 1)%Q.
Proof. rewrite Nat2Z.inj_succ. unfold Z.succ. by rewrite inject_Z_plus. Qed.

Lemma total_bounds (l : list Q) (lo hi : Q) :
  Forall (fun x => (lo <= x <= hi)%Q) l ->
  (inject_Z (Z.of_nat (length l)) * lo <= total l
   /\ total l <= inject_Z (Z.of_nat (length l)) * hi)%Q.
Proof.
  induction 1 as [|x l [Hlo Hhi] Hl [IH1 IH2]].
  - cbn [length total foldr]. change (inject_Z (Z.of_nat 0)) with 0%Q.
    split; lra.
  - cbn [length total foldr]. fold (total l). rewrite length_number_succ.
    set (n := inject_Z (Z.of_nat (length l))) in *.
    assert (E1 : ((n + 1) * lo == n * lo + lo)%Q) by ring.
    assert (E2 : ((n + 1) * hi == n * hi + hi)%Q) by ring.
    rewrite E1, E2. split; lra.
Qed.

Lemma length_number_pos (n : nat) : (0 < inject_Z (Z.of_nat (S n)))%Q.
Proof. unfold Qlt. simpl. lia. Qed.

Lemma mean_bounds (l : list Q) (lo hi : Q) :
  l <> [] ->
  Forall (fun x => (lo <= x <= hi)%Q) l ->
  (lo <= mean l <= hi)%Q.
Proof.
  intros Hne Hl. destruct (total_bounds l lo hi Hl) as [H1 H2].
  destruct l as [|x l]; [done|]. unfold mean.
  pose proof (length_number_pos (length l)) as Hpos.
  split.
  - apply Qle_shift_div_l; [done|]. lra.
  - apply Qle_shift_div_r; [done|]. lra.
Qed.

(** X6: the average on a form's card lies between the smallest and
    the largest rating of its fills: with every rating between two
    bounds and at least one fill, so is the average, and the card's
    fill count is the number of fills. *)
Theorem feed_average_within_ratings (form : Feed.Form) (lo hi : Q) :
  Feed.form_fills form <> [] ->
  Forall (fun fill => (lo <= Feed.rating fill <= hi)%Q) (Feed.form_fills form) ->
  exists q,
    Feed.card_averageRating (Feed.card form) = Some q
    /\ (lo <= q <= hi)%Q
    /\ 0 < Feed.fillCount (Feed.card form)
    /\ (q * inject_Z (Feed.fillCount (Feed.card form)) == total (ratings form))%Q.
Proof.
  intros Hne Hall.
  destruct (averageRating_mean form Hne) as (q & Hq & Hm).
  exists q. split; [done|].
  assert (Hr : ratings form <> []).
  { unfold ratings. by destruct (Feed.form_fills form). }
  assert (Hb : Forall (fun x => (lo <= x <= hi)%Q) (ratings form)).
  { unfold ratings. by apply Forall_fmap. }
  split; [rewrite Hm; by apply mean_bounds|].
  cbn [Feed.fillCount Feed.card].
  split; [destruct (Feed.form_fills form); [done|simpl; lia]|].
  rewrite Hm. unfold mean, ratings. rewrite length_map.
  destruct (Feed.form_fills form) as [|f fills]; [done|].
  field. pose proof (length_number_pos (length fills)). simpl in *. lra.
Qed.

(** ** The leaderboard's load: failures *)

Lemma get_Some_keys {V : Type} (o : list (string * V)) (k : string) (v : V) :
  Js.get o k = Some v -> k ∈ Js.keys o.
Proof.
  induction o as [|[k0 v0] o IH]; simpl; [done|].
  destruct (String.eqb k k0) eqn:E.
  - apply String.eqb_eq in E as ->. intros _. by left.
  - intros H. right. by apply IH.
Qed.

Lemma occurrences_pos (k : string) (rows : list string) :
  k ∈ rows <-> 0 < occurrences k rows.
Proof.
  unfold occurrences. split.
  - intros Hin%list_elem_of_In.
    assert (Hf : In k (List.filter (String.eqb k) rows))
      by (apply filter_In; split; [done|apply String.eqb_refl]).
    destruct (List.filter (String.eqb k) rows); [done|]. simpl. lia.
  - intros Hpos. destruct (List.filter (String.eqb k) rows) as [|x l] eqn:E;
      [simpl in Hpos; lia|].
    assert (Hx : In x (List.filter (String.eqb k) rows)) by (rewrite E; by left).
    apply filter_In in Hx as [Hx ->%String.eqb_eq]. by apply list_elem_of_In.
Qed.

Lemma load_fillers_fails (b : Leaderboard.Backend) :
  fills_query_fails b -> exists e, Leaderboard.load_fillers b = Js.Throw e.
Proof.
  unfold fills_query_fails, Leaderboard.load_fillers.
  destruct (Leaderboard.select_fill_user_ids b) as [r|e]; simpl; [|by eexists].
  destruct (Js.error r) as [e|]; [by eexists|done].
Qed.

Lemma load_posters_fails (b : Leaderboard.Backend) :
  posters_query_fails b -> exists e, Leaderboard.load_posters b = Js.Throw e.
Proof.
  unfold posters_query_fails, Leaderboard.load_posters.
  destruct (Leaderboard.select_form_user_ids b) as [r|e]; simpl; [|by eexists].
  destruct (Js.error r) as [e|]; [by eexists|done].
Qed.

Lemma fillersWithNames_rejected b stats ids userId e :
  userId ∈ ids ->
  Leaderboard.select_profile b userId = Js.Rejected e ->
  exists e', Leaderboard.fillersWithNames b stats ids = Js.Throw e'.
Proof.
  induction ids as [|u ids IH]; [by intros ?%elem_of_nil|].
  intros [->|Hin]%elem_of_cons Hrej; simpl.
  - rewrite Hrej. by eexists.
  - destruct (IH Hin Hrej) as [e' He'].
    destruct (Leaderboard.select_profile b u) as [r|]; simpl; [|by eexists].
    rewrite He'.
    destruct (Js.data r); [destruct (Js.get stats u)|]; simpl; by eexists.
Qed.

(** X7: a load of the leaderboard that fails never loses a board: when
    the fills query fails both boards stay as they were; when the
    fillers are loaded and the query for the posters' forms fails, the
    new fillers board is shown beside the old posters board; in both
    cases exactly one 'Failed to load leaderboard data' notification
    is added and loading is over.  A rejected profile lookup fails the
    load in the same way. *)
Theorem leaderboard_failure_keeps_boards
        (b : Leaderboard.Backend) (st : Leaderboard.State) :
  (fills_query_fails b ->
   Leaderboard.fetchLeaderboardData b st
   = {| Leaderboard.topFillers := Leaderboard.topFillers st;
        Leaderboard.topPosters := Leaderboard.topPosters st;
        Leaderboard.loading := false;
        Leaderboard.toasts := Leaderboard.toasts st ++ [load_failed] |})
  /\ (forall fs,
        Leaderboard.load_fillers b = Js.Ok fs ->
        posters_query_fails b ->
        Leaderboard.fetchLeaderboardData b st
        = {| Leaderboard.topFillers := fs;
             Leaderboard.topPosters := Leaderboard.topPosters st;
             Leaderboard.loading := false;
             Leaderboard.toasts := Leaderboard.toasts st ++ [load_failed] |})
  /\ (forall r userId e,
        Leaderboard.select_fill_user_ids b = Js.Resolved r ->
        Js.error r = None ->
        userId ∈ default [] (Js.data r) ->
        Leaderboard.select_profile b userId = Js.Rejected e ->
        Leaderboard.fetchLeaderboardData b st
        = {| Leaderboard.topFillers := Leaderboard.topFillers st;
             Leaderboard.topPosters := Leaderboard.topPosters st;
             Leaderboard.loading := false;
             Leaderboard.toasts := Leaderboard.toasts st ++ [load_failed] |})
  /\ Leaderboard.loading (Leaderboard.fetchLeaderboardData b st) = false.
Proof.
  split; [|split; [|split]].
  - intros [e He]%load_fillers_fails.
    unfold Leaderboard.fetchLeaderboardData. by rewrite He.
  - intros fs Hf [e He]%load_posters_fails.
    unfold Leaderboard.fetchLeaderboardData. by rewrite Hf, He.
  - intros r userId e Hr He Hin Hrej.
    assert (Hk : userId ∈ Js.keys (Leaderboard.fillerStats (Js.data r))).
    { destruct (Js.data r) as [rows|]; [|by apply elem_of_nil in Hin].
      simpl in Hin.
      pose proof (fillerStats_counts rows userId) as Hg.
      assert (Hpos : occurrences userId rows <> 0)
        by (apply occurrences_pos in Hin; lia).
      unfold stat_of in Hg. destruct (Z.eqb_spec (occurrences userId rows) 0); [done|].
      by eapply get_Some_keys. }
    destruct (fillersWithNames_rejected b (Leaderboard.fillerStats (Js.data r))
                _ _ _ Hk Hrej) as [e' He'].
    unfold Leaderboard.fetchLeaderboardData, Leaderboard.load_fillers.
    rewrite Hr. simpl. rewrite He. by rewrite He'.
  - unfold Leaderboard.fetchLeaderboardData.
    by destruct (Leaderboard.load_fillers b), (Leaderboard.load_posters b).
Qed.

(** ** Keys and sums of an object of statistics *)
Section ObjSums.
Context {V : Type} (g : V -> Z).
Implicit Types (o : list (string * V)) (k : string).

Lemma keys_update o k f : Js.keys (Js.update k f o) = Js.keys o.
Proof.
  induction o as [|[k0 v0] o IH]; simpl; [done|].
  destruct (String.eqb k k0); simpl; [done|]. f_equal. exact IH.
Qed.

Lemma get_None_keys o k : Js.get o k = None <-> k ∉ Js.keys o.
Proof.
  split.
  - intros Hn Hin. apply get_keys in Hin as [v Hv]. congruence.
  - intros Hn. destruct (Js.get o k) as [v|] eqn:E; [|done].
    exfalso. apply Hn. by eapply get_Some_keys.
Qed.

Lemma keys_set_new o k v : Js.get o k = None -> Js.keys (Js.set k v o) = Js.keys o ++ [k].
Proof.
  induction o as [|[k0 v0] o IH]; simpl; [done|].
  destruct (String.eqb k k0); [done|]. intros H. simpl. f_equal. by apply IH.
Qed.

Lemma osum_update o k f v :
  Js.get o k = Some v -> osum g (Js.update k f o) = osum g o - g v + g (f v).
Proof.
  induction o as [|[k0 v0] o IH]; simpl; [done|].
  destruct (String.eqb k k0); simpl.
  - intros [= ->]. lia.
  - intros H. rewrite (IH H). lia.
Qed.

Lemma osum_set_new o k v : Js.get o k = None -> osum g (Js.set k v o) = osum g o + g v.
Proof.
  induction o as [|[k0 v0] o IH]; simpl; [lia|].
  destruct (String.eqb k k0); [done|]. intros H. simpl. rewrite (IH H). lia.
Qed.
End ObjSums.

Lemma keys_count_fill o u :
  Js.keys (Leaderboard.count_fill o u)
  = match Js.get o u with
    | Some _ => Js.keys o
    | None => Js.keys o ++ [u]
    end.
Proof.
  unfold Leaderboard.count_fill. rewrite !keys_update.
  destruct (Js.get o u) eqn:E; [done|]. by apply keys_set_new.
Qed.

Lemma osum_count_fill (g : Leaderboard.FillerStat -> Z) (d : Z) o u :
  (forall s, g {| Leaderboard.stat_formsFilled := Leaderboard.stat_formsFilled s + 1;
                  Leaderboard.stat_points := Leaderboard.stat_points s + 5;
                  Leaderboard.stat_badges := Leaderboard.stat_badges s |}
             = g s + d) ->
  (forall s, g {| Leaderboard.stat_formsFilled := Leaderboard.stat_formsFilled s + 1;
                  Leaderboard.stat_points := Leaderboard.stat_points s;
                  Leaderboard.stat_badges := Leaderboard.stat_badges s |}
             + g {| Leaderboard.stat_formsFilled := Leaderboard.stat_formsFilled s;
                    Leaderboard.stat_points := Leaderboard.stat_points s + 5;
                    Leaderboard.stat_badges := Leaderboard.stat_badges s |}
             = 2 * g s + d) ->
  g {| Leaderboard.stat_formsFilled := 0; Leaderboard.stat_points := 0;
       Leaderboard.stat_badges := 0 |} = 0 ->
  osum g (Leaderboard.count_fill o u) = osum g o + d.
Proof.
  intros Hboth Hsplit Hzero. unfold Leaderboard.count_fill.
  set (zero := {| Leaderboard.stat_formsFilled := 0; Leaderboard.stat_points := 0;
                  Leaderboard.stat_badges := 0 |}) in *.
  set (f1 := fun s => {| Leaderboard.stat_formsFilled := Leaderboard.stat_formsFilled s + 1;
                         Leaderboard.stat_points := Leaderboard.stat_points s;
                         Leaderboard.stat_badges := Leaderboard.stat_badges s |}).
  set (f2 := fun s => {| Leaderboard.stat_formsFilled := Leaderboard.stat_formsFilled s;
                         Leaderboard.stat_points := Leaderboard.stat_points s + 5;
                         Leaderboard.stat_badges := Leaderboard.stat_badges s |}).
  assert (Hstep : forall o' s, Js.get o' u = Some s ->
            osum g (Js.update u f2 (Js.update u f1 o')) = osum g o' + d).
  { intros o' s Hs.
    rewrite (osum_update g _ u f2 (f1 s)),  (osum_update g o' u f1 s Hs).
    - specialize (Hboth s). change (g (f2 (f1 s)) = g s + d) in Hboth. lia.
    - rewrite get_update, String.eqb_refl, Hs. done. }
  destruct (Js.get o u) as [s|] eqn:E.
  - by apply (Hstep o s).
  - rewrite (Hstep (Js.set u zero o) zero).
    + rewrite (osum_set_new g o u zero E). lia.
    + by rewrite get_set, String.eqb_refl.
Qed.

Lemma fillerStats_keys (rows : list string) :
  NoDup (Js.keys (Leaderboard.fillerStats (Some rows)))
  /\ forall k, k ∈ Js.keys (Leaderboard.fillerStats (Some rows)) <-> k ∈ rows.
Proof.
  unfold Leaderboard.fillerStats.
  induction rows as [|u rows [IH1 IH2]] using rev_ind.
  - split; [constructor|done].
  - rewrite fold_left_app. simpl. rewrite keys_count_fill.
    destruct (Js.get _ u) eqn:E.
    + split; [done|]. intros k. rewrite IH2, elem_of_app, list_elem_of_singleton.
      split; [by left|]. intros [?| ->]; [done|].
      apply IH2. by eapply get_Some_keys.
    + apply get_None_keys in E. split.
      * apply NoDup_app. split; [done|]. split; [|apply NoDup_singleton].
        intros k Hk ->%list_elem_of_singleton. done.
      * intros k. rewrite !elem_of_app, IH2. done.
Qed.

Lemma fillerStats_totals (rows : list string) :
  osum Leaderboard.stat_formsFilled (Leaderboard.fillerStats (Some rows))
  = Z.of_nat (length rows)
  /\ osum Leaderboard.stat_points (Leaderboard.fillerStats (Some rows))
     = 5 * Z.of_nat (length rows).
Proof.
  unfold Leaderboard.fillerStats.
  induction rows as [|u rows [IH1 IH2]] using rev_ind; [done|].
  rewrite fold_left_app, length_app. simpl.
  rewrite (osum_count_fill Leaderboard.stat_formsFilled 1); [|simpl; lia..|done].
  rewrite (osum_count_fill Leaderboard.stat_points 5); [|simpl; lia..|done].
  rewrite IH1, IH2. lia.
Qed.

(** X8: the statistics of the fillers conserve the fetched rows: over
    all users the fills counted add up to the number of rows and the
    points to five times that number; each user id among the rows has
    exactly one entry, and no other id has one. *)
Theorem fills_conserved (rows : list string) :
  let stats := Leaderboard.fillerStats (Some rows) in
  filled_total stats = Z.of_nat (length rows)
  /\ points_total stats = 5 * Z.of_nat (length rows)
  /\ NoDup (Js.keys stats)
  /\ (forall k, k ∈ Js.keys stats <-> k ∈ rows).
Proof.
  cbv zeta. unfold filled_total, points_total.
  split; [apply fillerStats_totals|]. split; [apply fillerStats_totals|].
  apply fillerStats_keys.
Qed.

(** ** What the fillers board holds *)

Lemma board_fills_mapi (i : Z) (l : list Leaderboard.TopFiller) :
  board_fills (Js.mapi_from Leaderboard.with_rank i l) = board_fills l.
Proof.
  revert i. induction l as [|x l IH]; intros i; simpl; [done|]. by rewrite IH.
Qed.

Lemma board_fills_take (n : nat) (l : list Leaderboard.TopFiller) :
  Forall (fun e => 0 <= Leaderboard.formsFilled e) l ->
  0 <= board_fills (take n l) <= board_fills l.
Proof.
  intros H. revert n. induction H as [|x l Hx Hl IH]; intros [|n]; simpl; try lia.
  - specialize (IH 0%nat). destruct l; simpl in *; lia.
  - specialize (IH n). lia.
Qed.

Lemma board_fills_Permutation (l l' : list Leaderboard.TopFiller) :
  Permutation l l' -> board_fills l = board_fills l'.
Proof. induction 1; simpl; lia. Qed.

Lemma fillersWithNames_complete b stats ids entries userId r profile s :
  Leaderboard.fillersWithNames b stats ids = Js.Ok entries ->
  userId ∈ ids ->
  Leaderboard.select_profile b userId = Js.Resolved r ->
  Js.data r = Some profile ->
  Js.get stats userId = Some s ->
  filler_entry profile s ∈ entries.
Proof.
  revert entries. induction ids as [|u ids IH]; intros entries Hok Hin Hr Hd Hs;
    [by apply elem_of_nil in Hin|].
  simpl in Hok.
  destruct (Leaderboard.select_profile b u) as [ru|] eqn:Hu; simpl in Hok; [|done].
  destruct (Leaderboard.fillersWithNames b stats ids) as [more|] eqn:Hmore.
  2:{ destruct (Js.data ru); [destruct (Js.get stats u)|]; done. }
  assert (Htail : userId ∈ ids -> filler_entry profile s ∈ more)
    by (intros ?; by apply IH).
  apply elem_of_cons in Hin as [->|Hin].
  - rewrite Hr in Hu. injection Hu as <-. rewrite Hd, Hs in Hok. simpl in Hok.
    injection Hok as <-. by left.
  - destruct (Js.data ru); simpl in Hok.
    + destruct (Js.get stats u); simpl in Hok; [|done].
      injection Hok as <-. right. by apply Htail.
    + injection Hok as <-. by apply Htail.
Qed.

Lemma fillersWithNames_length b stats ids entries :
  Leaderboard.fillersWithNames b stats ids = Js.Ok entries ->
  (length entries <= length ids)%nat.
Proof.
  revert entries. induction ids as [|u ids IH]; intros entries; simpl.
  - by intros [= <-].
  - destruct (Leaderboard.select_profile b u) as [ru|]; simpl; [|done].
    destruct (Leaderboard.fillersWithNames b stats ids) as [more|].
    2:{ destruct (Js.data ru); [destruct (Js.get stats u)|]; done. }
    specialize (IH more eq_refl).
    destruct (Js.data ru); simpl.
    + destruct (Js.get stats u); simpl; [|done]. intros [= <-]. simpl. lia.
    + intros [= <-]. lia.
Qed.

Lemma fillersWithNames_fills b stats ids entries :
  Leaderboard.fillersWithNames b stats ids = Js.Ok entries ->
  (forall k s, Js.get stats k = Some s -> 0 <= Leaderboard.stat_formsFilled s) ->
  board_fills entries
  <= foldr (fun k acc =>
              default 0 (Leaderboard.stat_formsFilled <$> Js.get stats k) + acc)
           0 ids.
Proof.
  intros Hok Hpos. revert entries Hok.
  induction ids as [|u ids IH]; intros entries; simpl.
  - by intros [= <-].
  - destruct (Leaderboard.select_profile b u) as [ru|]; simpl; [|done].
    destruct (Leaderboard.fillersWithNames b stats ids) as [more|].
    2:{ destruct (Js.data ru); [destruct (Js.get stats u)|]; done. }
    specialize (IH more eq_refl).
    destruct (Js.get stats u) as [s|] eqn:Hs; simpl.
    + specialize (Hpos u s Hs).
      destruct (Js.data ru); simpl; intros [= <-]; simpl; lia.
    + destruct (Js.data ru); simpl; [done|]. intros [= <-]. lia.
Qed.

Lemma keys_fills {V : Type} (g : V -> Z) (o : list (string * V)) :
  NoDup (Js.keys o) ->
  foldr (fun k acc => default 0 (g <$> Js.get o k) + acc) 0 (Js.keys o) = osum g o.
Proof.
  induction o as [|[k0 v0] o IH]; [done|].
  intros Hnd. apply NoDup_cons in Hnd as [Hk0 Hnd]. simpl.
  rewrite String.eqb_refl. simpl. f_equal. rewrite <- (IH Hnd).
  assert (Hgen : forall ids, k0 ∉ ids ->
            foldr (fun k acc =>
                     default 0 (g <$> (if String.eqb k k0 then Some v0
                                       else Js.get o k)) + acc) 0 ids
            = foldr (fun k acc => default 0 (g <$> Js.get o k) + acc) 0 ids).
  { induction ids as [|k ids IHids]; intros Hni; simpl; [done|].
    apply not_elem_of_cons in Hni as [Hne Hni].
    apply not_eq_sym, String.eqb_neq in Hne. rewrite Hne, IHids; done. }
  by apply Hgen.
Qed.

Lemma sortedFillers_fills (entries : list Leaderboard.TopFiller) :
  Forall (fun e => 0 <= Leaderboard.formsFilled e) entries ->
  0 <= board_fills (Leaderboard.sortedFillers entries) <= board_fills entries.
Proof.
  intros Hpos. unfold Leaderboard.sortedFillers, Js.mapi, Js.slice0.
  rewrite board_fills_mapi.
  set (sorted := Js.sort _ entries).
  assert (Hperm : Permutation sorted entries) by apply sort_Permutation.
  rewrite <- (board_fills_Permutation _ _ Hperm).
  apply board_fills_take. by rewrite Hperm.
Qed.

Lemma rank_at (ranks_of : list Z) (i : nat) (n : nat) (z : Z) :
  ranks_of = ranks n -> ranks_of !! i = Some z -> z = Z.of_nat i + 1.
Proof.
  intros -> H. unfold ranks in H. rewrite list_lookup_fmap in H.
  destruct (seq 0 n !! i) as [k|] eqn:E; [|done].
  apply lookup_seq in E as [Hk _]. simpl in H, Hk. injection H as <-. lia.
Qed.

(** X9: a board of fillers never credits more fills than the fills
    query delivered rows: the counts on the board add up to at most
    the number of rows, users without a profile and users below the
    eighth place being left out. *)
Theorem board_fills_at_most_rows
        (b : Leaderboard.Backend) (st : Leaderboard.State)
        (fs : list Leaderboard.TopFiller) :
  Leaderboard.load_fillers b = Js.Ok fs ->
  exists r,
    Leaderboard.select_fill_user_ids b = Js.Resolved r
    /\ 0 <= board_fills (Leaderboard.topFillers (Leaderboard.fetchLeaderboardData b st))
       <= Z.of_nat (length (default [] (Js.data r))).
Proof.
  intros Hf. rewrite (fetch_topFillers _ _ _ Hf).
  destruct (load_fillers_Ok _ _ Hf) as (r & entries & Hr & _ & He & ->).
  exists r. split; [done|].
  assert (Hstat : forall k s,
             Js.get (Leaderboard.fillerStats (Js.data r)) k = Some s ->
             0 <= Leaderboard.stat_formsFilled s).
  { intros k s Hs. apply fillerStats_points in Hs. lia. }
  assert (Hpos : Forall (fun e => 0 <= Leaderboard.formsFilled e) entries).
  { apply Forall_forall. intros e Hin.
    destruct (fillersWithNames_elem _ _ _ _ _ He Hin)
      as (u & r0 & p & s & _ & _ & _ & Hs & ->). simpl. by eapply Hstat. }
  pose proof (sortedFillers_fills entries Hpos) as [H0 H1].
  pose proof (fillersWithNames_fills _ _ _ _ He Hstat) as H2.
  split; [done|].
  destruct (Js.data r) as [rows|]; cbn [default].
  - destruct (fillerStats_totals rows) as [Htot _].
    destruct (fillerStats_keys rows) as [Hnd _].
    rewrite (keys_fills Leaderboard.stat_formsFilled _ Hnd) in H2. unfold id. lia.
  - simpl in H2. simpl. lia.
Qed.

Lemma sortedFillers_keeps (entries : list Leaderboard.TopFiller)
      (x : Leaderboard.TopFiller) :
  (length entries <= 8)%nat ->
  x ∈ entries ->
  exists k, Leaderboard.with_rank x k ∈ Leaderboard.sortedFillers entries.
Proof.
  intros Hlen Hx. unfold Leaderboard.sortedFillers, Js.mapi, Js.slice0.
  rewrite take_ge by (rewrite sort_length; lia).
  rewrite <- (sort_Permutation
                (fun a b => Js.keeps_order (Leaderboard.compareFillers a b)) entries)
    in Hx.
  apply list_elem_of_lookup in Hx as [i Hi].
  exists (0 + Z.of_nat i). eapply list_elem_of_lookup_2.
  rewrite mapi_from_lookup, Hi. done.
Qed.

(** X10: when at most eight users have fills, nobody with a profile
    is left off the fillers board: every user id among the fetched
    rows whose profile lookup delivers a profile has an entry under
    that profile's name, with the user's number of rows as fills and
    five times that number as points. *)
Theorem small_board_complete
        (b : Leaderboard.Backend) (st : Leaderboard.State)
        (fs : list Leaderboard.TopFiller) (r : Js.Response (list string))
        (userId : string) (rp : Js.Response Leaderboard.Profile)
        (profile : Leaderboard.Profile) :
  Leaderboard.load_fillers b = Js.Ok fs ->
  Leaderboard.select_fill_user_ids b = Js.Resolved r ->
  (length (Js.keys (Leaderboard.fillerStats (Js.data r))) <= 8)%nat ->
  userId ∈ default [] (Js.data r) ->
  Leaderboard.select_profile b userId = Js.Resolved rp ->
  Js.data rp = Some profile ->
  exists e,
    e ∈ Leaderboard.topFillers (Leaderboard.fetchLeaderboardData b st)
    /\ Leaderboard.name e = Leaderboard.profile_name profile
    /\ Leaderboard.formsFilled e = occurrences userId (default [] (Js.data r))
    /\ Leaderboard.points e = 5 * occurrences userId (default [] (Js.data r)).
Proof.
  intros Hf Hr Hlen Hin Hrp Hd. rewrite (fetch_topFillers _ _ _ Hf).
  destruct (load_fillers_Ok _ _ Hf) as (r' & entries & Hr' & _ & He & ->).
  rewrite Hr in Hr'. injection Hr' as <-.
  destruct (Js.data r) as [rows|] eqn:Hrows; [|by apply elem_of_nil in Hin].
  cbn [default] in *. unfold id in *.
  pose proof (fillerStats_counts rows userId) as Hs.
  apply occurrences_pos in Hin. unfold stat_of in Hs.
  destruct (Z.eqb_spec (occurrences userId rows) 0) as [|_]; [lia|].
  assert (Hk : userId ∈ Js.keys (Leaderboard.fillerStats (Some rows)))
    by (by eapply get_Some_keys).
  pose proof (fillersWithNames_complete _ _ _ _ _ _ _ _ He Hk Hrp Hd Hs) as Hx.
  pose proof (fillersWithNames_length _ _ _ _ He) as Hle.
  assert (H8 : (length entries <= 8)%nat) by lia.
  destruct (sortedFillers_keeps entries _ H8 Hx) as [k Hk'].
  eexists. split; [exact Hk'|]. done.
Qed.

(** X11: the first row of the fillers board, which the achievements
    card names as top form filler, has rank 1 and at least as many
    fills as every user with fills and a profile, whether that user
    made it onto the board or not. *)
Theorem top_filler_has_most
        (b : Leaderboard.Backend) (st : Leaderboard.State)
        (fs : list Leaderboard.TopFiller) (top : Leaderboard.TopFiller) :
  Leaderboard.load_fillers b = Js.Ok fs ->
  head fs = Some top ->
  let st' := Leaderboard.fetchLeaderboardData b st in
  Leaderboard.rank top = 1
  /\ fst <$> LeaderboardView.showcase st' = Some (Some (Leaderboard.name top))
  /\ (forall r userId rp profile,
        Leaderboard.select_fill_user_ids b = Js.Resolved r ->
        userId ∈ default [] (Js.data r) ->
        Leaderboard.select_profile b userId = Js.Resolved rp ->
        Js.data rp = Some profile ->
        occurrences userId (default [] (Js.data r)) <= Leaderboard.formsFilled top).
Proof.
  intros Hf Htop st'.
  assert (Hfs : Leaderboard.topFillers st' = fs) by (by apply fetch_topFillers).
  destruct (load_fillers_Ok _ _ Hf) as (r & entries & Hr & _ & He & Hfs').
  assert (Hranks : map Leaderboard.rank (Leaderboard.sortedFillers entries)
                   = ranks (length (Leaderboard.sortedFillers entries)))
    by (apply (top8_ranks Leaderboard.formsFilled Leaderboard.rank
                          Leaderboard.with_rank); done).
  assert (Hdesc : StronglySorted
                    (fun x y => Leaderboard.formsFilled y <= Leaderboard.formsFilled x)
                    (Leaderboard.sortedFillers entries))
    by (apply (top8_descending Leaderboard.formsFilled Leaderboard.with_rank); done).
  assert (Hcut : Forall
                   (fun dropped =>
                      Forall (fun kept => Leaderboard.formsFilled dropped
                                          <= Leaderboard.formsFilled kept)
                             (Leaderboard.sortedFillers entries))
                   (drop 8 (Js.sort
                              (fun a b => Js.keeps_order
                                            (Leaderboard.compareFillers a b))
                              entries)))
    by (apply (top8_cut Leaderboard.formsFilled Leaderboard.with_rank); done).
  rewrite <- Hfs' in Hranks, Hdesc, Hcut.
  destruct fs as [|top' rest]; [done|]. injection Htop as ->.
  split; [|split].
  - apply (rank_at (map Leaderboard.rank (top :: rest)) 0 _ _ Hranks). done.
  - unfold LeaderboardView.showcase. rewrite Hfs. done.
  - intros r' userId rp profile Hr' Hin Hrp Hd.
    rewrite Hr in Hr'. injection Hr' as <-.
    destruct (Js.data r) as [rows|] eqn:Hrows; [|by apply elem_of_nil in Hin].
    cbn [default] in *. unfold id in *.
    pose proof (fillerStats_counts rows userId) as Hs.
    apply occurrences_pos in Hin. unfold stat_of in Hs.
    destruct (Z.eqb_spec (occurrences userId rows) 0) as [|_]; [lia|].
    assert (Hk : userId ∈ Js.keys (Leaderboard.fillerStats (Some rows)))
      by (by eapply get_Some_keys).
    pose proof (fillersWithNames_complete _ _ _ _ _ _ _ _ He Hk Hrp Hd Hs) as Hx.
    set (sorted := Js.sort (fun a b => Js.keeps_order (Leaderboard.compareFillers a b))
                           entries) in *.
    assert (Hxs : filler_entry profile
                    {| Leaderboard.stat_formsFilled := occurrences userId rows;
                       Leaderboard.stat_points := 5 * occurrences userId rows;
                       Leaderboard.stat_badges := 0 |} ∈ sorted)
      by (unfold sorted; by rewrite sort_Permutation).
    rewrite <- (take_drop 8 sorted) in Hxs.
    apply elem_of_app in Hxs as [Hkept|Hdropped].
    + apply list_elem_of_lookup in Hkept as [i Hi].
      assert (Hin' : Leaderboard.with_rank
                       (filler_entry profile
                          {| Leaderboard.stat_formsFilled := occurrences userId rows;
                             Leaderboard.stat_points := 5 * occurrences userId rows;
                             Leaderboard.stat_badges := 0 |}) (0 + Z.of_nat i)
                     ∈ top :: rest).
      { rewrite Hfs'. unfold Leaderboard.sortedFillers, Js.mapi, Js.slice0.
        eapply list_elem_of_lookup_2. rewrite mapi_from_lookup.
        fold sorted. by rewrite Hi. }
      apply elem_of_cons in Hin' as [Heq|Hin'].
      * rewrite <- Heq. simpl. lia.
      * inversion_clear Hdesc as [|? ? _ Hall]. rewrite Forall_forall in Hall.
        apply Hall in Hin'. simpl in Hin'. done.
    + rewrite Forall_forall in Hcut. specialize (Hcut _ Hdropped).
      rewrite Forall_forall in Hcut. specialize (Hcut top ltac:(by left)).
      simpl in Hcut. done.
Qed.

Lemma rankBadge_at (i : nat) :
  LeaderboardView.rankBadge (Z.of_nat i + 1)
  = match i with
    | 0%nat => LeaderboardView.IconBadge LeaderboardView.Trophy
    | 1%nat => LeaderboardView.IconBadge LeaderboardView.Medal
    | 2%nat => LeaderboardView.IconBadge LeaderboardView.Award
    | _ => LeaderboardView.HashText (Z.of_nat i + 1)
    end.
Proof.
  destruct i as [|[|[|i]]]; try reflexivity.
  unfold LeaderboardView.rankBadge.
  destruct (Z.leb_spec (Z.of_nat (S (S (S i))) + 1) 3); [lia|done].
Qed.

(** X12: on both boards the round badge of a row depends on its place
    alone: the first three rows show the trophy, the medal and the
    award on a yellow, a gray and an amber ground, in this order, and
    are tinted; every later row shows its rank after a hash sign on a
    blue ground and is not tinted; the fall-back of [getRankIcon], a
    rank as icon, is never what a row shows. *)
Theorem board_badges_by_place
        (b : Leaderboard.Backend)
        (fs : list Leaderboard.TopFiller) (ps : list Leaderboard.TopPoster) :
  Leaderboard.load_fillers b = Js.Ok fs ->
  Leaderboard.load_posters b = Js.Ok ps ->
  let expected (i : nat) :=
    match i with
    | 0%nat => LeaderboardView.IconBadge LeaderboardView.Trophy
    | 1%nat => LeaderboardView.IconBadge LeaderboardView.Medal
    | 2%nat => LeaderboardView.IconBadge LeaderboardView.Award
    | _ => LeaderboardView.HashText (Z.of_nat i + 1)
    end in
  let ground (i : nat) :=
    match i with
    | 0%nat => "bg-gradient-to-r from-yellow-400 to-yellow-600"
    | 1%nat => "bg-gradient-to-r from-gray-300 to-gray-500"
    | 2%nat => "bg-gradient-to-r from-amber-400 to-amber-600"
    | _ => "bg-gradient-to-r from-blue-400 to-blue-600"
    end in
  (forall i e, fs !! i = Some e ->
     LeaderboardView.rankBadge (Leaderboard.rank e) = expected i
     /\ LeaderboardView.rowTinted (Leaderboard.rank e) = (i <? 3)%nat
     /\ LeaderboardView.getRankBadgeColor (Leaderboard.rank e) = ground i
     /\ forall z, LeaderboardView.rankBadge (Leaderboard.rank e)
                  <> LeaderboardView.IconBadge (LeaderboardView.RankSpan z))
  /\ (forall i e, ps !! i = Some e ->
        LeaderboardView.rankBadge (Leaderboard.poster_rank e) = expected i
        /\ LeaderboardView.rowTinted (Leaderboard.poster_rank e) = (i <? 3)%nat
        /\ LeaderboardView.getRankBadgeColor (Leaderboard.poster_rank e) = ground i
        /\ forall z, LeaderboardView.rankBadge (Leaderboard.poster_rank e)
                     <> LeaderboardView.IconBadge (LeaderboardView.RankSpan z)).
Proof.
  intros Hf Hp expected ground.
  destruct (load_fillers_Ok _ _ Hf) as (_ & fe & _ & _ & _ & ->).
  destruct (load_posters_Ok _ _ Hp) as (_ & pe & _ & _ & _ & ->).
  assert (Hgen : forall (i : nat) (z : Z),
            z = Z.of_nat i + 1 ->
            LeaderboardView.rankBadge z = expected i
            /\ LeaderboardView.rowTinted z = (i <? 3)%nat
            /\ LeaderboardView.getRankBadgeColor z = ground i
            /\ forall z', LeaderboardView.rankBadge z
                          <> LeaderboardView.IconBadge (LeaderboardView.RankSpan z')).
  { intros i z ->. rewrite rankBadge_at. split; [done|]. split; [|split].
    - unfold LeaderboardView.rowTinted.
      destruct i as [|[|[|i]]]; try reflexivity.
      apply Z.leb_gt. lia.
    - unfold LeaderboardView.getRankBadgeColor.
      destruct i as [|[|[|i]]]; try reflexivity.
      destruct (Z.eqb_spec (Z.of_nat (S (S (S i))) + 1) 1); [lia|].
      destruct (Z.eqb_spec (Z.of_nat (S (S (S i))) + 1) 2); [lia|].
      destruct (Z.eqb_spec (Z.of_nat (S (S (S i))) + 1) 3); [lia|]. done.
    - by destruct i as [|[|[|i]]]. }
  split; intros i e Hi; apply Hgen.
  - eapply (rank_at (map Leaderboard.rank (Leaderboard.sortedFillers fe))).
    + apply (top8_ranks Leaderboard.formsFilled Leaderboard.rank
                        Leaderboard.with_rank); done.
    + by rewrite list_lookup_fmap, Hi.
  - eapply (rank_at (map Leaderboard.poster_rank (Leaderboard.sortedPosters pe))).
    + apply (top8_ranks Leaderboard.formsPosted Leaderboard.poster_rank
                        Leaderboard.with_poster_rank); done.
    + by rewrite list_lookup_fmap, Hi.
Qed.

(** ** What the posters board holds *)

Lemma get_count_form o u k :
  Js.get (Leaderboard.count_form o u) k
  = if String.eqb k u
    then Some
           (let s := default {| Leaderboard.stat_formsPosted := 0;
                                Leaderboard.stat_totalResponses := 0;
                                Leaderboard.stat_avgRating := 0 |} (Js.get o u) in
            {| Leaderboard.stat_formsPosted := Leaderboard.stat_formsPosted s + 1;
               Leaderboard.stat_totalResponses := Leaderboard.stat_totalResponses s;
               Leaderboard.stat_avgRating := Leaderboard.stat_avgRating s |})
    else Js.get o k.
Proof.
  unfold Leaderboard.count_form. rewrite get_update.
  destruct (String.eqb k u) eqn:E.
  - apply String.eqb_eq in E as ->.
    destruct (Js.get o u) eqn:G; simpl; [by rewrite G|].
    by rewrite get_set, String.eqb_refl.
  - destruct (Js.get o u); [done|]. by rewrite get_set, E.
Qed.

Lemma posterStats_counts (rows : list string) (k : string) :
  Js.get (Leaderboard.posterStats (Some rows)) k
  = poster_stat_of (occurrences k rows).
Proof.
  unfold Leaderboard.posterStats.
  induction rows as [|u rows IH] using rev_ind in k |- *; [done|].
  rewrite fold_left_app. simpl. rewrite get_count_form, occurrences_snoc.
  destruct (String.eqb k u) eqn:E; [|by rewrite IH, Z.add_0_r].
  apply String.eqb_eq in E as ->. rewrite IH.
  pose proof (occurrences_nonneg u rows).
  unfold poster_stat_of.
  destruct (Z.eqb_spec (occurrences u rows) 0) as [->|?]; simpl.
  - done.
  - destruct (Z.eqb_spec (occurrences u rows + 1) 0); [lia|]. done.
Qed.

Lemma poster_responses_total b userId ta :
  Leaderboard.poster_responses b userId = Js.Ok ta ->
  fst ta = Z.of_nat (length (fetched_ratings b userId)).
Proof.
  unfold Leaderboard.poster_responses, fetched_ratings.
  destruct (Leaderboard.select_form_ids b userId) as [f|]; simpl; [|done].
  destruct (Js.data f) as [[|i ids]|].
  - by intros [= <-].
  - destruct (Leaderboard.select_ratings b (i :: ids)) as [resp|]; simpl; [|done].
    intros [= <-]. unfold Leaderboard.response_stats. simpl.
    by destruct (Js.data resp).
  - by intros [= <-].
Qed.

Lemma present_length (rs : list (option Q)) : (length (present rs) <= length rs)%nat.
Proof.
  induction rs as [|[q|] rs IH]; simpl; [done| |]; unfold present in *; simpl; lia.
Qed.

(** Every entry of a loaded posters board, with the user it stands for. *)
Lemma board_poster_entry b ps e :
  Leaderboard.load_posters b = Js.Ok ps ->
  e ∈ ps ->
  exists r userId rp profile,
    Leaderboard.select_form_user_ids b = Js.Resolved r
    /\ Leaderboard.select_profile b userId = Js.Resolved rp
    /\ Js.data rp = Some profile
    /\ Leaderboard.poster_name e = Leaderboard.profile_name profile
    /\ Leaderboard.formsPosted e = occurrences userId (default [] (Js.data r))
    /\ 0 < Leaderboard.formsPosted e
    /\ Leaderboard.totalResponses e = Z.of_nat (length (fetched_ratings b userId))
    /\ exists q,
         (q == mean_or_0 (present (fetched_ratings b userId)))%Q
         /\ Leaderboard.avgRating e = Some (Js.toFixed1 q).
Proof.
  intros Hp Hin.
  destruct (load_posters_Ok _ _ Hp) as (r & entries & Hr & _ & He & ->).
  apply sortedPosters_elem in Hin as (x & k & Hx & ->).
  destruct (postersWithNames_elem _ _ _ _ _ He Hx)
    as (userId & rp & profile & ta & s & _ & Hrp & Hd & Hta & Hs & ->).
  exists r, userId, rp, profile. split; [done|]. split; [done|]. split; [done|].
  split; [done|]. simpl.
  destruct (poster_responses_avg _ _ _ Hta) as (q & Hq & Hm).
  rewrite (poster_responses_total _ _ _ Hta), Hq. simpl.
  destruct (Js.data r) as [rows|]; [|done]. simpl.
  rewrite posterStats_counts in Hs. unfold poster_stat_of in Hs.
  pose proof (occurrences_nonneg userId rows).
  destruct (Z.eqb_spec (occurrences userId rows) 0); [done|].
  injection Hs as <-. simpl. split; [done|]. split; [lia|].
  split; [done|]. by exists q.
Qed.

(** X13: an entry of the posters board counts, for one user with a
    profile, the rows of the forms query that carry the user's id as
    forms posted, at least one, and all rows of the ratings query for
    the user's forms as responses, rated or not: the ratings averaged
    are never more than the responses. *)
Theorem posters_counts
        (b : Leaderboard.Backend) (st : Leaderboard.State)
        (fs : list Leaderboard.TopFiller) (ps : list Leaderboard.TopPoster) :
  Leaderboard.load_fillers b = Js.Ok fs ->
  Leaderboard.load_posters b = Js.Ok ps ->
  Forall
    (fun e =>
       exists r userId rp profile,
         Leaderboard.select_form_user_ids b = Js.Resolved r
         /\ Leaderboard.select_profile b userId = Js.Resolved rp
         /\ Js.data rp = Some profile
         /\ Leaderboard.poster_name e = Leaderboard.profile_name profile
         /\ Leaderboard.formsPosted e = occurrences userId (default [] (Js.data r))
         /\ 0 < Leaderboard.formsPosted e
         /\ Leaderboard.totalResponses e
            = Z.of_nat (length (fetched_ratings b userId))
         /\ Z.of_nat (length (present (fetched_ratings b userId)))
            <= Leaderboard.totalResponses e)
    (Leaderboard.topPosters (Leaderboard.fetchLeaderboardData b st)).
Proof.
  intros Hf Hp. rewrite (fetch_topPosters _ _ _ _ Hf Hp).
  apply Forall_forall. intros e Hin.
  destruct (board_poster_entry _ _ _ Hp Hin)
    as (r & userId & rp & profile & H1 & H2 & H3 & H4 & H5 & H6 & H7 & _).
  exists r, userId, rp, profile. repeat (split; [done|]).
  rewrite H7. pose proof (present_length (fetched_ratings b userId)). lia.
Qed.


(** ** The avatar text *)

Lemma split_nonempty (sep : ascii) (s : string) : Js.split sep s <> [].
Proof.
  induction s as [|c s IH]; simpl; [done|].
  destruct (Ascii.eqb c sep); [done|]. by destruct (Js.split sep s).
Qed.

Lemma split_words (sep : ascii) (s : string) :
  Forall (fun w => forall c, c ∈ String.list_ascii_of_string w ->
                             c <> sep /\ c ∈ String.list_ascii_of_string s)
         (Js.split sep s).
Proof.
  induction s as [|c s IH]; simpl.
  - constructor; [|constructor]. by intros c ?%elem_of_nil.
  - destruct (Ascii.eqb_spec c sep) as [->|Hne].
    + constructor; [by intros c ?%elem_of_nil|].
      eapply Forall_impl; [exact IH|]. intros w Hw c Hc.
      destruct (Hw c Hc). split; [done|by right].
    + pose proof (split_nonempty sep s) as Hsp.
      destruct (Js.split sep s) as [|w ws]; [done|].
      apply Forall_cons in IH as [Hw Hws]. constructor.
      * simpl. intros c' [->|Hc]%elem_of_cons; [split; [done|by left]|].
        destruct (Hw c' Hc). split; [done|by right].
      * eapply Forall_impl; [exact Hws|]. intros w' Hw' c' Hc'.
        destruct (Hw' c' Hc'). split; [done|by right].
Qed.

Lemma join_first_chars (ws : list string) (c : ascii) :
  c ∈ String.list_ascii_of_string (Js.join_chars (map Js.first_char ws)) ->
  exists w, w ∈ ws /\ Js.first_char w = Some c.
Proof.
  induction ws as [|w ws IH]; simpl; [by intros ?%elem_of_nil|].
  destruct w as [|c0 w]; simpl.
  - intros (w' & ? & ?)%IH. exists w'. split; [by right|done].
  - intros [->|(w' & ? & ?)%IH]%elem_of_cons.
    + exists (String c0 w). split; [by left|done].
    + exists w'. split; [by right|done].
Qed.

Lemma join_first_chars_empty (ws : list string) :
  Js.join_chars (map Js.first_char ws) = "" <-> Forall (fun w => w = "") ws.
Proof.
  induction ws as [|w ws IH]; simpl; [split; [constructor|done]|].
  destruct w as [|c0 w]; simpl.
  - rewrite IH. split; [by constructor|]. by intros [_ ?]%Forall_cons.
  - split; [done|]. by intros [? _]%Forall_cons.
Qed.

Lemma split_blank (sep : ascii) (s : string) :
  Forall (fun w => w = "") (Js.split sep s)
  <-> Forall (fun c => c = sep) (String.list_ascii_of_string s).
Proof.
  induction s as [|c s IH]; simpl.
  - split; intros _; repeat constructor.
  - destruct (Ascii.eqb_spec c sep) as [->|Hne].
    + rewrite !Forall_cons, IH. split; intros [_ H]; by split.
    + destruct (Js.split sep s) as [|w ws]; (split; [|by intros [? _]%Forall_cons]).
      * by intros [? _]%Forall_cons.
      * by intros [? _]%Forall_cons.
Qed.

Lemma join_first_chars_length (ws : list string) :
  (length (String.list_ascii_of_string (Js.join_chars (map Js.first_char ws)))
   <= length ws)%nat.
Proof.
  induction ws as [|[|c w] ws IH]; simpl; lia.
Qed.

(** X15: the avatar text of a row is made of letters of the name, the
    first letter of each word between spaces, and never holds a space;
    it is empty exactly when the name is empty or all spaces, and a
    name without a space gives its first letter alone. *)
Theorem initials_of_name (name : string) :
  (forall c, c ∈ String.list_ascii_of_string (LeaderboardView.initials name) ->
             c <> " "%char /\ c ∈ String.list_ascii_of_string name)
  /\ (LeaderboardView.initials name = ""
      <-> Forall (fun c => c = " "%char) (String.list_ascii_of_string name))
  /\ (forall c rest,
        name = String c rest ->
        " "%char ∉ String.list_ascii_of_string name ->
        LeaderboardView.initials name = String c "").
Proof.
  unfold LeaderboardView.initials. split; [|split].
  - intros c (w & Hw & Hc)%join_first_chars.
    pose proof (split_words " " name) as Hall. rewrite Forall_forall in Hall.
    apply (Hall w Hw). destruct w as [|c0 w]; [done|].
    injection Hc as ->. by left.
  - by rewrite join_first_chars_empty, split_blank.
  - intros c rest -> Hns.
    assert (Hgen : forall s, " "%char ∉ String.list_ascii_of_string s -> Js.split " " s = [s]).
    { induction s as [|c0 s IH]; [done|]. simpl. intros Hni.
      apply not_elem_of_cons in Hni as [Hne Hni].
      destruct (Ascii.eqb_spec c0 " "); [congruence|]. by rewrite IH. }
    by rewrite (Hgen _ Hns).
Qed.

(** ** Opening the form *)

Lemma startsWith_append (s t : string) : Js.startsWith (s +:+ t) s = true.
Proof. apply startsWith_spec. by exists t. Qed.

Lemma urlToOpen_protocol (formUrl : string) :
  has_protocol (FormFillModalView.urlToOpen formUrl).
Proof.
  unfold FormFillModalView.urlToOpen, has_protocol.
  destruct (Js.startsWith formUrl "http://") eqn:E1; [by left|].
  destruct (Js.startsWith formUrl "https://") eqn:E2; [by right|].
  right. apply startsWith_append.
Qed.

Lemma urlToOpen_kept (formUrl : string) :
  has_protocol formUrl -> FormFillModalView.urlToOpen formUrl = formUrl.
Proof.
  unfold FormFillModalView.urlToOpen. intros [-> | ->]; [done|].
  by rewrite andb_false_r.
Qed.

(** X16: [openForm] never hands the browser an address without a
    protocol: every address it opens, in the new window or through the
    fall-back link, is the form's address with 'https://' put before
    it unless it already begins with 'http://' or 'https://', and
    putting the protocol is idempotent; an empty address opens nothing
    and only reports 'Form URL is not available'; in every case
    exactly one notification is shown. *)
Theorem openForm_addresses
        (window_open : string -> FormFillModalView.Opening)
        (link_click : string -> bool) (formUrl : string) :
  let effs := FormFillModalView.openForm window_open link_click formUrl in
  Forall (fun url => url = FormFillModalView.urlToOpen formUrl /\ has_protocol url)
         (opened_urls effs)
  /\ (formUrl = "" ->
      effs = [FormFillModalView.ToastError "Form URL is not available"])
  /\ (formUrl <> "" -> opened_urls effs <> [])
  /\ (has_protocol formUrl -> FormFillModalView.urlToOpen formUrl = formUrl)
  /\ FormFillModalView.urlToOpen (FormFillModalView.urlToOpen formUrl)
     = FormFillModalView.urlToOpen formUrl
  /\ length (List.filter is_toast effs) = 1%nat.
Proof.
  intros effs. unfold effs, FormFillModalView.openForm.
  pose proof (urlToOpen_protocol formUrl) as Hp.
  split; [|split; [|split; [|split; [|split]]]].
  - destruct formUrl as [|c u]; [constructor|]. cbn [Js.truthy negb].
    destruct (window_open _); [| destruct (link_click _) |];
      unfold opened_urls; cbn [omap list_omap];
      repeat (apply Forall_cons; split; [by split|]); constructor.
  - by intros ->.
  - destruct formUrl as [|c u]; [done|]. intros _. cbn [Js.truthy negb].
    destruct (window_open _); [| destruct (link_click _) |]; done.
  - apply urlToOpen_kept.
  - by apply urlToOpen_kept.
  - destruct formUrl as [|c u]; [done|]. cbn [Js.truthy negb].
    destruct (window_open _); [| destruct (link_click _) |]; done.
Qed.

(** ** Submitting a rating *)

(** X17: a submission that reaches the insert ends in one of two
    ways.  Saved: thanks are shown, the feed is told, the dialog
    closes, and rating and comment are reset.  Not saved, by an error
    in the response or a rejected request: the error's message is
    shown after 'Failed to submit feedback: ', the rating and the
    comment stay as entered, and neither the feed is told nor the
    dialog closed.  Either way the form is no longer submitting. *)
Theorem submit_outcome
        (user : option FormFillModal.User) (formId : string)
        (insert : FormFillModal.FillRow -> Js.Awaited (list FormFillModal.FillRow))
        (st : FormFillModal.State) (u : FormFillModal.User) :
  user = Some u ->
  FormFillModal.rating st <> 0 ->
  let row := submitted_row u formId st in
  let out := FormFillModal.handleSubmit user formId insert st in
  FormFillModal.isSubmitting (fst out) = false
  /\ FormFillModal.hoveredRating (fst out) = FormFillModal.hoveredRating st
  /\ (insert_outcome insert row = None ->
      FormFillModal.rating (fst out) = 0
      /\ FormFillModal.comment (fst out) = ""
      /\ snd out = [FormFillModal.Insert row;
                    FormFillModal.ToastSuccess "Thank you for your feedback!";
                    FormFillModal.OnFormFilled; FormFillModal.OnClose])
  /\ (forall e,
        insert_outcome insert row = Some e ->
        FormFillModal.rating (fst out) = FormFillModal.rating st
        /\ FormFillModal.comment (fst out) = FormFillModal.comment st
        /\ snd out = [FormFillModal.Insert row;
                      FormFillModal.ToastError
                        ("Failed to submit feedback: " +:+ Js.message e)]).
Proof.
  intros -> Hr row out. unfold out, FormFillModal.handleSubmit.
  destruct (Z.eqb_spec (FormFillModal.rating st) 0) as [|_]; [done|].
  fold (submitted_row u formId st). fold row. unfold insert_outcome.
  destruct (insert row) as [r|e]; simpl.
  - destruct (Js.error r) as [e|]; simpl.
    + split; [done|]. split; [done|]. split; [done|]. by intros e' [= <-].
    + split; [done|]. split; [done|]. split; [done|]. done.
  - split; [done|]. split; [done|]. split; [done|]. by intros e' [= <-].
Qed.

(** ** The comment stored with a rating *)

Lemma trimStart_decomp (s : string) :
  exists pre, s = pre +:+ Js.trimStart s /\ blank pre.
Proof.
  induction s as [|c s (pre & Hs & Hb)]; simpl.
  - exists "". split; [done|constructor].
  - destruct (Js.is_space c) eqn:E.
    + exists (String c pre). split; [|by constructor].
      change (String c s = String c (pre +:+ Js.trimStart s)). congruence.
    + exists "". split; [done|constructor].
Qed.

Lemma trimStart_clean (s : string) : starts_clean (Js.trimStart s).
Proof.
  induction s as [|c s IH]; simpl; [done|]. by destruct (Js.is_space c) eqn:E.
Qed.

Lemma trimStart_id (t : string) : starts_clean t -> Js.trimStart t = t.
Proof. destruct t as [|c t]; simpl; [done|]. by intros ->. Qed.

Lemma trimEnd_decomp (s : string) :
  exists post, s = Js.trimEnd s +:+ post /\ blank post.
Proof.
  induction s as [|c s (post & Hs & Hb)]; simpl.
  - exists "". split; [done|constructor].
  - destruct (Js.trimEnd s) as [|c' r] eqn:E.
    + destruct (Js.is_space c) eqn:Ec.
      * exists (String c post). simpl in Hs. subst s.
        split; [done|by constructor].
      * exists post. simpl in Hs. by subst s.
    + exists post. split; [|done].
      change (String c s = String c (String c' r +:+ post)). congruence.
Qed.

Lemma trimEnd_clean (t : string) : starts_clean t -> starts_clean (Js.trimEnd t).
Proof.
  destruct t as [|c t]; simpl; [done|]. intros Hc.
  destruct (Js.trimEnd t); [by rewrite Hc|done].
Qed.

Lemma trimEnd_idem (t : string) : Js.trimEnd (Js.trimEnd t) = Js.trimEnd t.
Proof.
  induction t as [|c t IH]; simpl; [done|].
  destruct (Js.trimEnd t) as [|c' r] eqn:E.
  - destruct (Js.is_space c) eqn:Ec; simpl; [done|]. by rewrite Ec.
  - simpl in *. by rewrite IH.
Qed.

Lemma trimEnd_empty (t : string) : Js.trimEnd t = "" <-> blank t.
Proof.
  unfold blank. induction t as [|c t IH]; simpl; [split; [constructor|done]|].
  destruct (Js.trimEnd t) as [|c' r] eqn:E.
  - destruct (Js.is_space c) eqn:Ec.
    + split; [|done]. intros _. constructor; [done|]. by apply IH.
    + split; [done|]. intros [? _]%Forall_cons. congruence.
  - split; [done|]. intros [_ H]%Forall_cons. by apply IH in H.
Qed.

Lemma blank_append (s t : string) : blank (s +:+ t) <-> blank s /\ blank t.
Proof.
  unfold blank. induction s as [|c s IH]; simpl.
  - split; [by split; [constructor|]|by intros [_ ?]].
  - rewrite !Forall_cons, IH. tauto.
Qed.

Lemma blank_clean (t : string) : blank t -> starts_clean t -> t = "".
Proof.
  destruct t as [|c t]; [done|]. simpl. intros [H _]%Forall_cons. congruence.
Qed.

Lemma trim_empty (c : string) : Js.trim c = "" <-> blank c.
Proof.
  unfold Js.trim. rewrite trimEnd_empty.
  destruct (trimStart_decomp c) as (pre & Hc & Hpre).
  split.
  - intros Hb. rewrite Hc. by apply blank_append.
  - intros Hb. rewrite Hc in Hb. by apply blank_append in Hb as [_ ?].
Qed.

Lemma trim_idem (c : string) : Js.trim (Js.trim c) = Js.trim c.
Proof.
  unfold Js.trim.
  rewrite (trimStart_id (Js.trimEnd (Js.trimStart c)))
    by apply trimEnd_clean, trimStart_clean.
  apply trimEnd_idem.
Qed.

(** X18: the comment stored with a rating is never an empty or blank
    text: a comment of white space only, the empty one included, is
    stored as null; any other is stored without the white space
    around it, so that trimming what is stored changes nothing and the
    comment entered is the stored one between two runs of white
    space.  White space is whatever characters the engine's [trim]
    strips. *)
Theorem stored_comment
        (user : option FormFillModal.User) (formId : string)
        (insert : FormFillModal.FillRow -> Js.Awaited (list FormFillModal.FillRow))
        (st : FormFillModal.State) (row : FormFillModal.FillRow) :
  FormFillModal.Insert row
    ∈ snd (FormFillModal.handleSubmit user formId insert st) ->
  (FormFillModal.row_comment row = None <-> blank (FormFillModal.comment st))
  /\ (forall s,
        FormFillModal.row_comment row = Some s ->
        s <> "" /\ ~ blank s /\ Js.trim s = s
        /\ exists pre post,
             FormFillModal.comment st = pre +:+ s +:+ post
             /\ blank pre /\ blank post).
Proof.
  intros Hin.
  assert (Hrow : FormFillModal.row_comment row
                 = FormFillModal.comment_or_null (FormFillModal.comment st)).
  { unfold FormFillModal.handleSubmit in Hin.
    destruct user as [u|]; [|simpl in Hin; revert Hin; no_insert].
    destruct (Z.eqb (FormFillModal.rating st) 0); [simpl in Hin; revert Hin; no_insert|].
    match type of Hin with context [Js.await ?c] => destruct c as [r|e] end;
      simpl in Hin.
    - destruct (Js.error r); simpl in Hin;
        apply elem_of_cons in Hin as [[= ->]|Hin]; try done;
        revert Hin; no_insert.
    - apply elem_of_cons in Hin as [[= ->]|Hin]; [done|]. revert Hin. no_insert. }
  rewrite Hrow. unfold FormFillModal.comment_or_null.
  set (c := FormFillModal.comment st).
  pose proof (trim_empty c) as He.
  destruct (Js.trim c) as [|c0 t] eqn:Et.
  - simpl. split; [split; [intros _; by apply He|done]|done].
  - cbn [Js.truthy]. split.
    + split; [done|]. intros Hb. apply He in Hb. done.
    + intros s [= <-]. split; [done|]. split.
      * intros Hb. rewrite <- Et in Hb. rewrite <- trim_empty, trim_idem in Hb.
        congruence.
      * split; [rewrite <- Et; apply trim_idem|].
        destruct (trimStart_decomp c) as (pre & Hc & Hpre).
        destruct (trimEnd_decomp (Js.trimStart c)) as (post & Hc' & Hpost).
        exists pre, post. split; [|done].
        rewrite <- Et. unfold Js.trim. by rewrite <- Hc', <- Hc.
Qed.

(** ** The stars and the submit button *)

Lemma handle_hover_ok user formId insert (ev : FormFillModal.Event)
      (st : FormFillModal.State) :
  hover_ok st -> hover_ok (fst (FormFillModal.handle user formId insert ev st)).
Proof.
  unfold hover_ok. intros Hst. destruct ev as [i|i| | | |]; simpl; try done.
  - by destruct (FormFillModal.stars !! i).
  - destruct (FormFillModal.stars !! i) as [value|] eqn:E; simpl; [|done].
    pose proof (stars_range i value E). lia.
  - unfold FormFillModal.handleSubmit.
    destruct user; [|done]. destruct (Z.eqb _ 0); [done|].
    match goal with |- context [Js.await ?c] => destruct c as [r|e] end;
      simpl; [by destruct (Js.error r)|done].
Qed.

Lemma run_hover_ok user formId insert (evs : list FormFillModal.Event)
      (st : FormFillModal.State) :
  hover_ok st -> hover_ok (fst (FormFillModal.run user formId insert evs st)).
Proof.
  revert st. induction evs as [|ev evs IH]; intros st Hst; simpl; [done|].
  pose proof (handle_hover_ok user formId insert ev st Hst) as H1.
  destruct (FormFillModal.handle user formId insert ev st) as [st1 done1].
  specialize (IH st1 H1).
  by destruct (FormFillModal.run user formId insert evs st1) as [st2 done2].
Qed.

Lemma stars_filled_count (st : FormFillModal.State) :
  0 <= FormFillModalView.shownRating st <= 5 ->
  map (FormFillModalView.starFilled st) FormFillModal.stars
  = replicate (Z.to_nat (FormFillModalView.shownRating st)) true
    ++ replicate (5 - Z.to_nat (FormFillModalView.shownRating st)) false.
Proof.
  intros H. unfold FormFillModalView.starFilled.
  set (e := FormFillModalView.shownRating st) in *.
  assert (He : e = 0 \/ e = 1 \/ e = 2 \/ e = 3 \/ e = 4 \/ e = 5) by lia.
  destruct He as [->|[->|[->|[->|[->| ->]]]]]; reflexivity.
Qed.

(** X19: however the dialog is used, the stars filled are the first
    ones of the row, as many as the star hovered over says or, with no
    star hovered, as the rating says; and while the submit button is
    enabled a logged-in user's submission always attempts the insert
    with the rating shown, never the 'Please provide a rating'
    refusal. *)
Theorem stars_and_submit_button
        (user : option FormFillModal.User) (formId : string)
        (insert : FormFillModal.FillRow -> Js.Awaited (list FormFillModal.FillRow))
        (evs : list FormFillModal.Event) :
  let st := fst (FormFillModal.run user formId insert evs FormFillModal.initial) in
  let shown := FormFillModalView.shownRating st in
  0 <= shown <= 5
  /\ (FormFillModal.hoveredRating st <> 0 -> shown = FormFillModal.hoveredRating st)
  /\ (FormFillModal.hoveredRating st = 0 -> shown = FormFillModal.rating st)
  /\ map (FormFillModalView.starFilled st) FormFillModal.stars
     = replicate (Z.to_nat shown) true ++ replicate (5 - Z.to_nat shown) false
  /\ (forall u,
        user = Some u ->
        FormFillModalView.submitDisabled st = false ->
        exists st' rest,
          FormFillModal.handleSubmit user formId insert st
          = (st', FormFillModal.Insert (submitted_row u formId st) :: rest)).
Proof.
  intros st shown.
  pose proof (run_rating_ok user formId insert evs FormFillModal.initial
                ltac:(by left)) as [Hr _].
  pose proof (run_hover_ok user formId insert evs FormFillModal.initial
                ltac:(unfold hover_ok; simpl; lia)) as Hh.
  fold st in Hr, Hh. unfold rating_ok, hover_ok in *.
  assert (Hshown : 0 <= shown <= 5).
  { unfold shown, FormFillModalView.shownRating.
    destruct (Z.eqb_spec (FormFillModal.hoveredRating st) 0); lia. }
  split; [done|]. split; [|split; [|split]].
  - intros Hne. unfold shown, FormFillModalView.shownRating.
    by destruct (Z.eqb_spec (FormFillModal.hoveredRating st) 0).
  - intros He. unfold shown, FormFillModalView.shownRating. by rewrite He.
  - by apply stars_filled_count.
  - intros u Hu Hd. unfold FormFillModalView.submitDisabled in Hd.
    apply orb_false_iff in Hd as [Hz%Z.eqb_neq _].
    destruct (handleSubmit_attempt user formId insert st u Hu Hz)
      as (st' & rest & Hs & _).
    by exists st', rest.
Qed.

(** ** The navigation bar *)

(** X20: after a toggle, the component, the storage and the document
    agree on the mode, and so they do after a reload; wherever they
    agree, toggling twice gives back exactly the same component,
    storage and document. *)
Theorem toggle_twice_restores (w : Navigation.State * Navigation.Browser) :
  mode_consistent (Navigation.toggleDarkMode w)
  /\ mode_consistent (Navigation.reload (Navigation.toggleDarkMode w))
  /\ (mode_consistent w ->
      Navigation.toggleDarkMode (Navigation.toggleDarkMode w) = w)
  /\ Navigation.isDarkMode
       (fst (Navigation.toggleDarkMode (Navigation.toggleDarkMode w)))
     = Navigation.isDarkMode (fst w).
Proof.
  destruct w as [[m] [ls cl]]. unfold mode_consistent.
  split; [|split; [|split]].
  - simpl. rewrite lookup_insert_eq. split; [done|].
    destruct m; simpl; [|rewrite elem_of_union, elem_of_singleton; by split; [|right]].
    rewrite elem_of_difference, elem_of_singleton. split; [by intros [_ ?]|done].
  - unfold Navigation.reload, Navigation.initialize. simpl.
    rewrite lookup_insert_eq.
    destruct m; simpl.
    + rewrite lookup_insert_eq. split; [done|].
      split; [by intros ?%elem_of_empty|done].
    + rewrite lookup_insert_eq. split; [done|].
      rewrite elem_of_union, elem_of_singleton. split; [done|by right].
  - simpl. intros [Hs Hc]. rewrite negb_involutive.
    f_equal. f_equal.
    + rewrite insert_insert_eq. by apply insert_id.
    + destruct m; simpl in *.
      * apply set_eq. intros x.
        rewrite elem_of_union, elem_of_difference, elem_of_singleton.
        split; [intros [[? _]| ->]; [done|by apply Hc]|].
        intros Hx. destruct (decide (x = "dark")); [by right|by left].
      * apply set_eq. intros x.
        rewrite elem_of_difference, elem_of_union, elem_of_singleton.
        split; [by intros [[?|?] ?]|].
        intros Hx. split; [by left|]. intros ->. by apply Hc in Hx.
  - simpl. apply negb_involutive.
Qed.

Lemma pages_highlight (pathname to label : string) (l : list (string * string)) :
  NavigationView.PageLink to label NavigationView.default_variant
    ∈ map (fun p => NavigationView.PageLink (fst p) (snd p)
                      (if NavigationView.isActive pathname (fst p)
                       then NavigationView.default_variant
                       else NavigationView.ghost)) l
  <-> to = pathname /\ (to, label) ∈ l.
Proof.
  rewrite list_elem_of_fmap. split.
  - intros ([t lb] & Heq & Hin). simpl in Heq.
    unfold NavigationView.isActive in Heq.
    destruct (String.eqb_spec pathname t) as [->|]; [|done].
    by injection Heq as -> ->.
  - intros [-> Hin]. exists (pathname, label). split; [|done]. simpl.
    unfold NavigationView.isActive. by rewrite String.eqb_refl.
Qed.

(** X21: in the bar of a logged-in user a page link is highlighted
    exactly when it leads to the current path, so that at most one of
    the five is, and none on any other path; a logged-out user gets
    the login and sign-up links and neither a page link nor the logout
    button; and a logout navigates to the start page exactly when it
    went through. *)
Theorem nav_items_highlight (pathname : string) :
  (forall to label,
     NavigationView.PageLink to label NavigationView.default_variant
       ∈ NavigationView.items true pathname
     <-> to = pathname /\ (to, label) ∈ NavigationView.pages)
  /\ (length (List.filter
                (fun item =>
                   match item with
                   | NavigationView.PageLink _ _ NavigationView.default_variant => true
                   | _ => false
                   end) (NavigationView.items true pathname)) <= 1)%nat
  /\ NavigationView.items false pathname
     = [NavigationView.LoginLink; NavigationView.SignUpLink]
  /\ (forall ok, NavigationView.Navigate "/" true ∈ NavigationView.handleLogout ok
                 <-> ok = true).
Proof.
  split; [|split; [|split]].
  - intros to label. unfold NavigationView.items.
    rewrite elem_of_app, pages_highlight, list_elem_of_singleton.
    split; [by intros [?|?]|by left].
  - unfold NavigationView.items, NavigationView.pages, NavigationView.isActive.
    simpl.
    destruct (String.eqb_spec pathname "/dashboard") as [->|]; [simpl; lia|].
    destruct (String.eqb_spec pathname "/feed") as [->|]; [simpl; lia|].
    destruct (String.eqb_spec pathname "/leaderboard") as [->|]; [simpl; lia|].
    destruct (String.eqb_spec pathname "/post-form") as [->|]; [simpl; lia|].
    destruct (String.eqb_spec pathname "/profile") as [->|]; simpl; lia.
  - done.
  - intros [|]; simpl; rewrite ?elem_of_cons, ?elem_of_nil; split; try done.
    + intros _. right. by left.
    + by intros [?|?].
Qed.

End FurtherProperties.

(** * The further properties on the sample data *)
Section OnSampleFurther.
#[local] Existing Instance Sample.runtime.

Example sample_oldest :
  map Feed.id (Feed.sortedForms Sample.clock (Sample.listing "oldest"))
  = ["f3"; "f1"; "f2"].
Proof. reflexivity. Qed.

Example sample_newest :
  map Feed.id (Feed.sortedForms Sample.clock (Sample.listing "newest"))
  = ["f2"; "f1"; "f3"].
Proof. reflexivity. Qed.

Example sample_expiring :
  map Feed.id (Feed.sortedForms Sample.clock (Sample.listing "expiring"))
  = ["f3"; "f1"; "f2"].
Proof. reflexivity. Qed.

Example sample_initials :
  LeaderboardView.initials "Ada  Lovelace" = "AL"
  /\ LeaderboardView.initials " " = ""
  /\ Js.split " " "a  b" = ["a"; ""; "b"].
Proof. repeat split; reflexivity. Qed.

Example sample_urls :
  FormFillModalView.urlToOpen "forms.gle/c" = "https://forms.gle/c"
  /\ FormFillModalView.urlToOpen "http://forms.gle/c" = "http://forms.gle/c".
Proof. split; reflexivity. Qed.

Lemma sample_dated : Forall (dated Sample.clock) (Feed.forms (Sample.listing "oldest")).
Proof. repeat constructor; by eexists. Qed.

Lemma feed_sorted_by_creation_time_witness :
  StronglySorted (created_no_later Sample.clock)
                 (Feed.sortedForms Sample.clock (Sample.listing "oldest"))
  /\ StronglySorted (fun a b => created_no_later Sample.clock b a)
                    (Feed.sortedForms Sample.clock (Sample.listing "newest")).
Proof.
  split.
  - by apply (feed_sorted_by_creation_time Sample.clock (Sample.listing "oldest")
                sample_dated).
  - by apply (feed_sorted_by_creation_time Sample.clock (Sample.listing "newest")
                sample_dated).
Defined.

Lemma feed_sorted_by_expiry_witness :
  StronglySorted (expires_no_later Sample.clock)
                 (Feed.sortedForms Sample.clock (Sample.listing "expiring")).
Proof.
  apply (feed_sorted_by_expiry Sample.clock (Sample.listing "expiring")); [|done].
  repeat constructor; intros H; try discriminate H. by eexists.
Defined.

Lemma refresh_recovers_witness :
  Feed.fetchForms Sample.feed_partial (Feed.fetchForms Sample.feed_down Sample.held)
  = Feed.fetchForms Sample.feed_partial Sample.held
  /\ Feed.error (Feed.fetchForms Sample.feed_partial
                   (Feed.fetchForms Sample.feed_down Sample.held)) = None.
Proof.
  destruct (refresh_recovers Sample.no_dates Sample.feed_partial Sample.feed_down
              Sample.held Sample.feed_rows eq_refl eq_refl) as (H1 & H2 & _).
  by split.
Defined.

Lemma feed_empty_notice_witness :
  exists cards notice,
    Feed.render Sample.clock (Sample.listing "newest")
    = Feed.FeedView {| Feed.label := "Refresh"; Feed.onClick := Feed.RunFetchForms |}
                    cards notice
    /\ length cards = 3%nat.
Proof.
  destruct (feed_empty_notice Sample.clock (Sample.listing "newest") eq_refl eq_refl)
    as (cards & notice & Hr & Hl & _).
  exists cards, notice. split; [done|]. by rewrite Hl.
Defined.

Lemma feed_filter_edges_witness :
  Feed.filteredForms (Sample.listing "newest") = [Sample.campus; Sample.fresh; Sample.closing]
  /\ Feed.matchesSearch "FOOD" Sample.campus = Feed.matchesSearch "food" Sample.campus.
Proof.
  destruct (feed_filter_edges (Sample.listing "newest")) as (H1 & H2 & _).
  split; [by apply H1|]. by apply (H2 "FOOD" "food").
Defined.

Lemma feed_average_within_ratings_witness :
  exists q, Feed.card_averageRating (Feed.card Sample.campus) = Some q
            /\ (1 <= q <= 5)%Q.
Proof.
  destruct (feed_average_within_ratings Sample.campus 1 5) as (q & Hq & Hb & _).
  - discriminate.
  - repeat constructor; by vm_compute.
  - by exists q.
Defined.

Lemma leaderboard_failure_keeps_boards_witness :
  let st := Leaderboard.fetchLeaderboardData Sample.board Leaderboard.initial in
  Leaderboard.topFillers (Leaderboard.fetchLeaderboardData Sample.board_down st)
  = Leaderboard.topFillers st
  /\ Leaderboard.toasts (Leaderboard.fetchLeaderboardData Sample.board_down st)
     = ["Failed to load leaderboard data"].
Proof.
  intros st.
  destruct (leaderboard_failure_keeps_boards Sample.board_down st) as (H & _).
  rewrite H by (by simpl). by split.
Defined.

Lemma board_fills_at_most_rows_witness :
  board_fills (Leaderboard.topFillers
                 (Leaderboard.fetchLeaderboardData Sample.board Leaderboard.initial))
  <= 4.
Proof.
  destruct (board_fills_at_most_rows Sample.board Leaderboard.initial _
              sample_board_fillers) as (r & Hr & _ & H).
  injection Hr as <-. exact H.
Defined.

Lemma small_board_complete_witness :
  exists e,
    e ∈ Leaderboard.topFillers
          (Leaderboard.fetchLeaderboardData Sample.board Leaderboard.initial)
    /\ Leaderboard.name e = "Bo" /\ Leaderboard.formsFilled e = 2.
Proof.
  destruct (small_board_complete Sample.board Leaderboard.initial _
              {| Js.data := Some ["u2"; "u1"; "u2"; "u3"]; Js.error := None |}
              "u2"
              {| Js.data := Some {| Leaderboard.profile_name := "Bo" |};
                 Js.error := None |}
              {| Leaderboard.profile_name := "Bo" |}
              sample_board_fillers eq_refl)
    as (e & He & Hn & Hf & _); try reflexivity.
  - vm_compute. lia.
  - by left.
  - by exists e.
Defined.

Lemma top_filler_has_most_witness :
  fst <$> LeaderboardView.showcase
            (Leaderboard.fetchLeaderboardData Sample.board Leaderboard.initial)
  = Some (Some "Bo").
Proof.
  by destruct (top_filler_has_most Sample.board Leaderboard.initial _ _
                 sample_board_fillers eq_refl) as (_ & H & _).
Defined.

Lemma board_badges_by_place_witness :
  LeaderboardView.rankBadge
    (Leaderboard.rank
       {| Leaderboard.rank := 2; Leaderboard.name := "Ada";
          Leaderboard.formsFilled := 1; Leaderboard.points := 5;
          Leaderboard.badges := 0 |})
  = LeaderboardView.IconBadge LeaderboardView.Medal.
Proof.
  destruct (board_badges_by_place Sample.board _ _ sample_board_fillers
              sample_board_posters) as [H _].
  exact (proj1 (H 1%nat _ eq_refl)).
Defined.

Lemma posters_counts_witness :
  Forall (fun e => 0 < Leaderboard.formsPosted e /\ 0 <= Leaderboard.totalResponses e)
         (Leaderboard.topPosters
            (Leaderboard.fetchLeaderboardData Sample.board Leaderboard.initial)).
Proof.
  eapply Forall_impl;
    [exact (posters_counts Sample.board Leaderboard.initial _ _
              sample_board_fillers sample_board_posters)|].
  intros e (r & u & rp & p & _ & _ & _ & _ & _ & Hpos & Ht & _).
  split; [done|]. rewrite Ht. lia.
Defined.


Lemma submit_outcome_witness :
  snd (FormFillModal.handleSubmit (Some Sample.ada) "f1" Sample.refuse Sample.commented)
  = [FormFillModal.Insert (submitted_row Sample.ada "f1" Sample.commented);
     FormFillModal.ToastError
       "Failed to submit feedback: permission denied for table forms"]
  /\ FormFillModal.rating
       (fst (FormFillModal.handleSubmit (Some Sample.ada) "f1" Sample.refuse
               Sample.commented)) = 3.
Proof.
  destruct (submit_outcome (Some Sample.ada) "f1" Sample.refuse Sample.commented
              Sample.ada eq_refl ltac:(discriminate)) as (_ & _ & _ & H).
  destruct (H Sample.denied eq_refl) as (Hr & _ & He). by split.
Defined.

Lemma stored_comment_witness :
  FormFillModal.row_comment (submitted_row Sample.ada "f1" Sample.commented)
  = Some "clear questions"
  /\ ~ blank "clear questions".
Proof.
  split; [reflexivity|].
  assert (Hin : FormFillModal.Insert (submitted_row Sample.ada "f1" Sample.commented)
                  ∈ snd (FormFillModal.handleSubmit (Some Sample.ada) "f1"
                           Sample.accept Sample.commented)) by (by left).
  destruct (stored_comment _ _ _ _ _ Hin) as [_ H].
  by destruct (H "clear questions" eq_refl) as (_ & Hb & _).
Defined.

Lemma stars_and_submit_button_witness :
  map (FormFillModalView.starFilled
         (fst (FormFillModal.run (Some Sample.ada) "f1" Sample.accept
                 [FormFillModal.ClickStar 2; FormFillModal.EnterStar 3]
                 FormFillModal.initial)))
      FormFillModal.stars
  = [true; true; true; true; false].
Proof.
  by destruct (stars_and_submit_button (Some Sample.ada) "f1" Sample.accept
                 [FormFillModal.ClickStar 2; FormFillModal.EnterStar 3])
    as (_ & _ & _ & H & _).
Defined.

Lemma toggle_twice_restores_witness :
  let w := Navigation.toggleDarkMode
             (Navigation.initial,
              {| Navigation.localStorage := ∅; Navigation.classList := ∅ |}) in
  Navigation.toggleDarkMode (Navigation.toggleDarkMode w) = w.
Proof.
  intros w.
  destruct (toggle_twice_restores w) as (_ & _ & H & _). apply H.
  by destruct (toggle_twice_restores
                 (Navigation.initial,
                  {| Navigation.localStorage := ∅; Navigation.classList := ∅ |}))
    as (Hc & _).
Defined.

Lemma openForm_addresses_witness :
  opened_urls (FormFillModalView.openForm
                 (fun _ => FormFillModalView.NoWindow) (fun _ => true) "forms.gle/c")
  = ["https://forms.gle/c"; "https://forms.gle/c"]
  /\ Forall has_protocol
       (opened_urls (FormFillModalView.openForm
                       (fun _ => FormFillModalView.NoWindow) (fun _ => true)
                       "forms.gle/c")).
Proof.
  split; [reflexivity|].
  destruct (openForm_addresses (fun _ => FormFillModalView.NoWindow) (fun _ => true)
              "forms.gle/c") as (H & _).
  eapply Forall_impl; [exact H|]. by intros url [_ ?].
Defined.

Lemma nav_items_highlight_witness :
  NavigationView.PageLink "/feed" "Feed" NavigationView.default_variant
    ∈ NavigationView.items true "/feed"
  /\ NavigationView.PageLink "/profile" "Profile" NavigationView.default_variant
       ∉ NavigationView.items true "/feed".
Proof.
  destruct (nav_items_highlight "/feed") as (H & _). split.
  - apply H. split; [done|]. right. by left.
  - intros Hin. apply H in Hin as [Heq _]. discriminate Heq.
Defined.

Lemma initials_of_name_witness :
  LeaderboardView.initials "   " = "" /\ LeaderboardView.initials "Bo" = "B".
Proof.
  destruct (initials_of_name "   ") as (_ & H1 & _).
  destruct (initials_of_name "Bo") as (_ & _ & H2).
  split.
  - apply H1. by repeat constructor.
  - apply (H2 "B"%char "o" eq_refl).
    intros Hin. repeat (apply elem_of_cons in Hin as [Hin|Hin]; [discriminate Hin|]).
    by apply elem_of_nil in Hin.
Defined.

Lemma fills_conserved_witness :
  filled_total (Leaderboard.fillerStats (Some ["u2"; "u1"; "u2"; "u3"])) = 4
  /\ Js.keys (Leaderboard.fillerStats (Some ["u2"; "u1"; "u2"; "u3"]))
     = ["u2"; "u1"; "u3"].
Proof.
  destruct (fills_conserved ["u2"; "u1"; "u2"; "u3"]) as (H & _).
  split; [exact H|reflexivity].
Defined.
End OnSampleFurther.
